(** * Apple Health ingestion service: a shallow embedding of
      [api/ingest.py] and [api/data.py], and the properties of its
      value parser, statistics functions, merge step and read path. *)

From Stdlib Require Import ZArith QArith Bool List Ascii String Lia Lqa.
From Stdlib Require Import Floats.SpecFloat.
Import ListNotations.

Set Warnings "-register-all".
Set Warnings "-automation".

Local Open Scope Z_scope.

(** ** Python [float]: IEEE 754 binary64

    A Python [float] is a binary64 number.  The carrier is the standard
    library's [spec_float] (signed zeros, infinities, one NaN, and finite
    numbers [(-1)^s * m * 2^e]).  Every arithmetic operation is the exact
    rational result rounded to nearest, ties to even, which is how IEEE 754
    defines it. *)
Module F64.

Definition float := spec_float.

(** Precision and exponent range of binary64, as the standard library's
    operations take them, and the exponent of the smallest subnormal. *)
Definition prec : Z := 53.
Definition emax : Z := 1024.
Definition emin : Z := -1074.

Definition nan : float := S754_nan.
Definition inf (neg : bool) : float := S754_infinity neg.
Definition zero (neg : bool) : float := S754_zero neg.

(** [floor (log2 (n/d))] for a positive rational [n/d]. *)
Definition ilog2 (n d : positive) : Z :=
  let k := Z.log2 (Zpos n) - Z.log2 (Zpos d) in
  if 0 <=? k
  then (if Zpos d * 2 ^ k <=? Zpos n then k else k - 1)
  else (if Zpos d <=? Zpos n * 2 ^ (- k) then k else k - 1).

(** Nearest integer to [N/D] ([D > 0]), ties to the even one. *)
Definition rhe (N D : Z) : Z :=
  let q := N / D in
  match 2 * (N mod D) ?= D with
  | Lt => q
  | Gt => q + 1
  | Eq => if Z.even q then q else q + 1
  end.

(** The integer significand of [n/d] at exponent [e]: [n/d / 2^e] rounded. *)
Definition scaled (n d : positive) (e : Z) : Z :=
  if 0 <=? e then rhe (Zpos n) (Zpos d * 2 ^ e)
  else rhe (Zpos n * 2 ^ (- e)) (Zpos d).

(** Round the positive rational [n/d], with sign [neg], to binary64:
    pick the exponent of the binade of [n/d] (or the subnormal exponent),
    round the significand, renormalise when it reaches [2^53], overflow to
    infinity, underflow to a signed zero. *)
Definition RN (neg : bool) (n d : positive) : float :=
  let e := Z.max (ilog2 n d - 52) emin in
  let m := scaled n d e in
  let me := if m =? 2 ^ 53 then (2 ^ 52, e + 1) else (m, e) in
  match fst me with
  | Zpos p => if 971 <? snd me then S754_infinity neg else S754_finite neg p (snd me)
  | _ => S754_zero neg
  end.

(** Round a rational; [zneg] is the sign given to an exact zero. *)
Definition of_Q (zneg : bool) (q : Q) : float :=
  match Qnum q with
  | Z0 => S754_zero zneg
  | Zpos n => RN false n (Qden q)
  | Zneg n => RN true n (Qden q)
  end.

(** Exact value of a finite float (0 for the others). *)
Definition to_Q (x : float) : Q :=
  match x with
  | S754_finite s m e =>
      let z := if s then Zneg m else Zpos m in
      if 0 <=? e then inject_Z (z * 2 ^ e) else z # (2 ^ Z.to_pos (- e))%positive
  | _ => 0%Q
  end.

(** [float(n)] for a Python int. *)
Definition of_Z (n : Z) : float := of_Q false (inject_Z n).

Definition sign (x : float) : bool :=
  match x with
  | S754_zero s | S754_infinity s | S754_finite s _ _ => s
  | S754_nan => false
  end.

Definition is_finite (x : float) : bool :=
  match x with
  | S754_zero _ | S754_finite _ _ _ => true
  | _ => false
  end.

Definition neg (x : float) : float :=
  match x with
  | S754_zero s => S754_zero (negb s)
  | S754_infinity s => S754_infinity (negb s)
  | S754_finite s m e => S754_finite (negb s) m e
  | S754_nan => S754_nan
  end.

Definition add (x y : float) : float :=
  match x, y with
  | S754_nan, _ | _, S754_nan => S754_nan
  | S754_infinity s1, S754_infinity s2 =>
      if Bool.eqb s1 s2 then S754_infinity s1 else S754_nan
  | S754_infinity s, _ | _, S754_infinity s => S754_infinity s
  | S754_zero s1, S754_zero s2 => S754_zero (s1 && s2)
  | _, _ => of_Q false (to_Q x + to_Q y)
  end.

Definition sub (x y : float) : float := add x (neg y).

Definition mul (x y : float) : float :=
  match x, y with
  | S754_nan, _ | _, S754_nan => S754_nan
  | S754_infinity s1, S754_infinity s2 => S754_infinity (xorb s1 s2)
  | S754_infinity s1, S754_finite s2 _ _
  | S754_finite s1 _ _, S754_infinity s2 => S754_infinity (xorb s1 s2)
  | S754_infinity _, S754_zero _ | S754_zero _, S754_infinity _ => S754_nan
  | S754_zero s1, S754_zero s2
  | S754_zero s1, S754_finite s2 _ _
  | S754_finite s1 _ _, S754_zero s2 => S754_zero (xorb s1 s2)
  | S754_finite s1 m1 e1, S754_finite s2 m2 e2 =>
      match to_Q (S754_finite false m1 e1) * to_Q (S754_finite false m2 e2) with
      | Zpos n # d => RN (xorb s1 s2) n d
      | _ => S754_nan
      end
  end%Q.

(** IEEE division.  Python raises [ZeroDivisionError] on a zero divisor;
    every divisor in this program is a positive length. *)
Definition div (x y : float) : float :=
  match x, y with
  | S754_nan, _ | _, S754_nan => S754_nan
  | S754_infinity _, S754_infinity _ => S754_nan
  | S754_infinity s1, S754_zero s2
  | S754_infinity s1, S754_finite s2 _ _ => S754_infinity (xorb s1 s2)
  | S754_zero s1, S754_infinity s2
  | S754_finite s1 _ _, S754_infinity s2 => S754_zero (xorb s1 s2)
  | S754_zero _, S754_zero _ => S754_nan
  | S754_finite s1 _ _, S754_zero s2 => S754_infinity (xorb s1 s2)
  | S754_zero s1, S754_finite s2 _ _ => S754_zero (xorb s1 s2)
  | S754_finite s1 m1 e1, S754_finite s2 m2 e2 =>
      match to_Q (S754_finite false m1 e1) / to_Q (S754_finite false m2 e2) with
      | Zpos n # d => RN (xorb s1 s2) n d
      | _ => S754_nan
      end
  end%Q.

(** Correctly rounded square root.  For [x = m * 2^e] the significand is
    scaled by an even power of two so that its integer square root [s] has
    more than 54 bits; any remainder then only matters as a sticky half
    unit, so rounding [(2 s + sticky) / 2] gives the rounding of the root. *)
Definition sqrt (x : float) : float :=
  match x with
  | S754_nan => S754_nan
  | S754_zero s => S754_zero s
  | S754_infinity false => S754_infinity false
  | S754_infinity true => S754_nan
  | S754_finite true _ _ => S754_nan
  | S754_finite false m e =>
      let e' := if Z.even e then e - 120 else e - 121 in
      let M := Zpos m * 2 ^ (e - e') in
      let s := Z.sqrt M in
      let t := 2 * s + (if s * s =? M then 0 else 1) in
      (* root = t/2 * 2^(e'/2) *)
      let h := e' / 2 - 1 in
      of_Q false (if 0 <=? h then inject_Z (t * 2 ^ h)
                  else t # (2 ^ Z.to_pos (- h))%positive)
  end.

(** Comparison; [None] when a NaN is involved. *)
Definition compare (x y : float) : option comparison :=
  match x, y with
  | S754_nan, _ | _, S754_nan => None
  | S754_infinity s1, S754_infinity s2 =>
      Some (if s1 then (if s2 then Eq else Lt) else (if s2 then Gt else Eq))
  | S754_infinity s, _ => Some (if s then Lt else Gt)
  | _, S754_infinity s => Some (if s then Gt else Lt)
  | _, _ => Some (to_Q x ?= to_Q y)%Q
  end.

Definition ltb (x y : float) : bool :=
  match compare x y with Some Lt => true | _ => false end.
Definition leb (x y : float) : bool :=
  match compare x y with Some Lt | Some Eq => true | _ => false end.
Definition eqb (x y : float) : bool :=
  match compare x y with Some Eq => true | _ => false end.
Definition gtb (x y : float) : bool := ltb y x.
Definition geb (x y : float) : bool := leb y x.

End F64.

(** ** Python values, exceptions and built-ins used by the service

    A [str] is modelled by its UTF-8 bytes ([string]).  Character classes
    ([strip], [lower], digits) are the ASCII ones; on text that contains
    non-ASCII white space, letters or digits Python's Unicode-aware
    versions can differ. *)
Module Py.

Import F64.

Inductive exn : Type :=
| OverflowError
| ValueError
| TypeError
| JSONDecodeError.

Inductive result (A : Type) : Type :=
| Ok (a : A)
| Raise (e : exn).
Arguments Ok {A} a.
Arguments Raise {A} e.

Definition bind {A B} (r : result A) (k : A -> result B) : result B :=
  match r with
  | Ok a => k a
  | Raise e => Raise e
  end.

Notation "x <- r ;; k" := (bind r (fun x => k))
  (at level 61, r at next level, right associativity).

(** JSON-serialisable Python objects.  A [dict] keeps insertion order. *)
Inductive value : Type :=
| VNone
| VInt (n : Z)
| VFloat (f : float)
| VStr (s : string)
| VBool (b : bool)
| VList (l : list value)
| VDict (d : list (string * value)).

Definition dict := list (string * value).

(** [d.get(k)] *)
Fixpoint dict_get {A} (k : string) (d : list (string * A)) : option A :=
  match d with
  | [] => None
  | (k', v) :: t => if String.eqb k k' then Some v else dict_get k t
  end.

(** [d[k] = v]: replace in place, or append a new key. *)
Fixpoint dict_set {A} (k : string) (v : A) (d : list (string * A))
  : list (string * A) :=
  match d with
  | [] => [(k, v)]
  | (k', v') :: t =>
      if String.eqb k k' then (k, v) :: t else (k', v') :: dict_set k v t
  end.

(** [obj[k] = v] on an arbitrary object: item assignment with a string
    key is only supported by a dict. *)
Definition setitem (obj : value) (k : string) (v : value) : result value :=
  match obj with
  | VDict d => Ok (VDict (dict_set k v d))
  | _ => Raise TypeError
  end.

Definition nl : string := String "010" EmptyString.
Definition cr : string := String "013" EmptyString.

Definition is_digit (c : ascii) : bool :=
  let n := N_of_ascii c in ((48 <=? n) && (n <=? 57))%N.

Definition digit_val (c : ascii) : Z := Z.of_N (N_of_ascii c) - 48.

(** [str.isspace] on ASCII: TAB, LF, VT, FF, CR, FS, GS, RS, US, space. *)
Definition is_space (c : ascii) : bool :=
  let n := N_of_ascii c in
  (((9 <=? n) && (n <=? 13)) || ((28 <=? n) && (n <=? 32)))%N.

Definition lower_char (c : ascii) : ascii :=
  let n := N_of_ascii c in
  if ((65 <=? n) && (n <=? 90))%N then ascii_of_N (n + 32) else c.

(** [s.lower()] *)
Fixpoint lower (s : string) : string :=
  match s with
  | EmptyString => EmptyString
  | String c t => String (lower_char c) (lower t)
  end.

Fixpoint lstrip (s : string) : string :=
  match s with
  | String c t => if is_space c then lstrip t else s
  | EmptyString => EmptyString
  end.

Fixpoint rstrip (s : string) : string :=
  match s with
  | EmptyString => EmptyString
  | String c t =>
      match rstrip t with
      | EmptyString => if is_space c then EmptyString else String c EmptyString
      | t' => String c t'
      end
  end.

(** [s.strip()] *)
Definition strip (s : string) : string := rstrip (lstrip s).

(** [sub in s] *)
Fixpoint contains (sub s : string) : bool :=
  String.prefix sub s ||
  match s with
  | EmptyString => false
  | String _ t => contains sub t
  end.

(** [s.split(sep)] for a one-character separator. *)
Fixpoint split_on (sep : ascii) (s : string) : list string :=
  match s with
  | EmptyString => [EmptyString]
  | String c t =>
      if Ascii.eqb c sep then EmptyString :: split_on sep t
      else match split_on sep t with
           | h :: r => String c h :: r
           | [] => [String c EmptyString]
           end
  end.

(** [s.replace("\r\n", "\n")] *)
Fixpoint replace_crlf (s : string) : string :=
  match s with
  | EmptyString => EmptyString
  | String c t =>
      match t with
      | String c' t' =>
          if Ascii.eqb c "013" && Ascii.eqb c' "010"
          then String "010" (replace_crlf t')
          else String c (replace_crlf t)
      | EmptyString => String c EmptyString
      end
  end.

(** [s.replace("\r", "\n")] *)
Fixpoint replace_cr (s : string) : string :=
  match s with
  | EmptyString => EmptyString
  | String c t =>
      String (if Ascii.eqb c "013" then "010"%char else c) (replace_cr t)
  end.

Definition hex_val (c : ascii) : option N :=
  let n := N_of_ascii c in
  if ((48 <=? n) && (n <=? 57))%N then Some (n - 48)%N
  else if ((65 <=? n) && (n <=? 70))%N then Some (n - 55)%N
  else if ((97 <=? n) && (n <=? 102))%N then Some (n - 87)%N
  else None.

(** [urllib.parse.unquote]: every [%XY] with two hex digits becomes the
    byte [0xXY]; any other [%] stays.  (Python then decodes the bytes as
    UTF-8 and replaces ill-formed sequences by U+FFFD; that replacement is
    not modelled.) *)
Fixpoint unquote (s : string) : string :=
  match s with
  | EmptyString => EmptyString
  | String c t =>
      match t with
      | String h (String l t') =>
          match (if Ascii.eqb c "%" then hex_val h else None), hex_val l with
          | Some hv, Some lv => String (ascii_of_N (16 * hv + lv)) (unquote t')
          | _, _ => String c (unquote t)
          end
      | _ => String c (unquote t)
      end
  end.

(** *** Numeric built-ins *)

Definition pow10 (n : nat) : positive := Pos.pow 10 (Pos.of_nat n).

(** [round(x, ndigits)] for [ndigits > 0]: the exact binary value is
    rounded half-even to that many decimals and the decimal is converted
    back to the nearest float; NaN and the infinities round to
    themselves. *)
Definition round_nd (x : float) (ndigits : nat) : float :=
  match x with
  | S754_finite s _ _ =>
      let q := to_Q x in
      let k := rhe (Qnum q * Zpos (pow10 ndigits)) (Zpos (Qden q)) in
      of_Q s (k # pow10 ndigits)
  | _ => x
  end.

(** [round(x)]: nearest int, ties to even; raises on NaN and infinities. *)
Definition round_int (x : float) : result Z :=
  match x with
  | S754_nan => Raise ValueError
  | S754_infinity _ => Raise OverflowError
  | S754_zero _ => Ok 0
  | S754_finite _ _ _ => Ok (rhe (Qnum (to_Q x)) (Zpos (Qden (to_Q x))))
  end.

(** [a / b] on ints with [b > 0]: the correctly rounded quotient. *)
Definition int_truediv (a : Z) (b : positive) : float := of_Q false (a # b).

(** [x ** 2]: float power raises [OverflowError] when a finite base
    overflows.  (C [pow] is taken to be correctly rounded.) *)
Definition pow2 (x : float) : result float :=
  match x, mul x x with
  | S754_finite _ _ _, S754_infinity _ => Raise OverflowError
  | _, r => Ok r
  end.

(** [x ** 0.5] for the non-negative [x] this program passes (a negative
    finite base would give a complex number in Python; NaN stands for
    it here).  (C [pow] is taken to be correctly rounded.) *)
Definition pow_half (x : float) : float :=
  match x with
  | S754_zero _ => S754_zero false
  | S754_infinity _ => S754_infinity false
  | _ => F64.sqrt x
  end.

(** [sum(l)]: left-to-right additions starting from the int [0].
    (CPython 3.12 and later add a compensation term to float sums.) *)
Definition sum (l : list float) : float := fold_left add l (zero false).

(** [min(x :: l)] and [max(x :: l)]: keep the first, replace on a strict
    comparison. *)
Definition py_min (x : float) (l : list float) : float :=
  fold_left (fun cur y => if ltb y cur then y else cur) l x.
Definition py_max (x : float) (l : list float) : float :=
  fold_left (fun cur y => if gtb y cur then y else cur) l x.

(** *** [float(s)] and [int(s)] *)

Definition chars := list_ascii_of_string.

(** Underscores are allowed only between two digits; they are removed. *)
Fixpoint strip_underscores (prev : option ascii) (l : list ascii)
  : option (list ascii) :=
  match l with
  | [] => match prev with
          | Some c => if Ascii.eqb c "_" then None else Some []
          | None => Some []
          end
  | c :: t =>
      if Ascii.eqb c "_" then
        match prev with
        | Some p => if is_digit p then strip_underscores (Some c) t else None
        | None => None
        end
      else
        match prev with
        | Some p =>
            if Ascii.eqb p "_" && negb (is_digit c) then None
            else option_map (cons c) (strip_underscores (Some c) t)
        | None => option_map (cons c) (strip_underscores (Some c) t)
        end
  end.

Fixpoint span_digits (l : list ascii) : list ascii * list ascii :=
  match l with
  | c :: t =>
      if is_digit c then let (ds, r) := span_digits t in (c :: ds, r)
      else ([], l)
  | [] => ([], [])
  end.

Definition digits_to_Z (ds : list ascii) : Z :=
  fold_left (fun a c => 10 * a + digit_val c) ds 0.

Definition split_sign (l : list ascii) : bool * list ascii :=
  match l with
  | c :: t =>
      if Ascii.eqb c "-" then (true, t)
      else if Ascii.eqb c "+" then (false, t)
      else (false, l)
  | [] => (false, [])
  end.

(** What may follow the mantissa: nothing, or [e]/[E], an optional sign and
    at least one digit, up to the end of the string. *)
Definition parse_exponent (l : list ascii) : option Z :=
  match l with
  | [] => Some 0
  | c :: t =>
      if Ascii.eqb (lower_char c) "e" then
        let (sg, t') := split_sign t in
        match span_digits t' with
        | ((_ :: _) as ds, []) =>
            Some (if sg then - digits_to_Z ds else digits_to_Z ds)
        | _ => None
        end
      else None
  end.

(** The float nearest to [(-1)^sg * n * 10^k]. *)
Definition of_decimal (sg : bool) (n k : Z) : float :=
  match n with
  | Zpos p =>
      if 0 <=? k then RN sg (p * Z.to_pos (10 ^ k)) 1
      else RN sg p (Z.to_pos (10 ^ (- k)))
  | _ => S754_zero sg
  end.

Definition lower_chars (l : list ascii) : string :=
  string_of_list_ascii (map lower_char l).

(** [float(s)]; [None] stands for [ValueError]. *)
Definition float_of_string (s : string) : option float :=
  match strip_underscores None (chars (strip s)) with
  | None => None
  | Some l =>
      let (sg, body) := split_sign l in
      let low := lower_chars body in
      if String.eqb low "inf" || String.eqb low "infinity" then Some (inf sg)
      else if String.eqb low "nan" then Some nan
      else
        let (ip, r1) := span_digits body in
        let (fp, r2) :=
          match r1 with
          | c :: r => if Ascii.eqb c "." then span_digits r else ([], r1)
          | [] => ([], r1)
          end in
        match ip ++ fp with
        | [] => None
        | ds =>
            match parse_exponent r2 with
            | Some ex =>
                Some (of_decimal sg (digits_to_Z ds)
                        (ex - Z.of_nat (List.length fp)))
            | None => None
            end
        end
  end.

(** [int(s)]; [None] stands for [ValueError]. *)
Definition int_of_string (s : string) : option Z :=
  let (sg, body) := split_sign (chars (strip s)) in
  match strip_underscores None body with
  | Some ((_ :: _) as l) =>
      if forallb is_digit l
      then Some (if sg then - digits_to_Z l else digits_to_Z l)
      else None
  | _ => None
  end.

End Py.

(** ** [datetime]: instants, local dates and their formats

    An instant is a count of microseconds since the Unix epoch (UTC).  A
    [datetime] is an instant seen at a UTC offset given in seconds. *)
Module Datetime.

Definition instant := Z.

Record datetime : Type := mk_datetime {
  wall : Z;            (* microseconds since the epoch on the local clock *)
  utcoffset : option Z (* [None] for a naive datetime *)
}.

Definition us_per_day : Z := 86400000000.

(** [datetime.now(timezone(timedelta(seconds=off)))] *)
Definition now_tz (off : Z) (t : instant) : datetime :=
  mk_datetime (t + off * 1000000) (Some off).

(** [datetime.now()]: naive local time of a host whose zone is [off]
    seconds east of UTC at that moment. *)
Definition now_naive (off : Z) (t : instant) : datetime :=
  mk_datetime (t + off * 1000000) None.

(** [dt - timedelta(days=i)] *)
Definition minus_days (dt : datetime) (i : Z) : datetime :=
  mk_datetime (wall dt - i * us_per_day) (utcoffset dt).

(** Proleptic Gregorian date of a day number counted from 1970-01-01. *)
Definition civil_from_days (days : Z) : Z * Z * Z :=
  let z := days + 719468 in
  let era := z / 146097 in
  let doe := z - era * 146097 in
  let yoe := (doe - doe / 1460 + doe / 36524 - doe / 146096) / 365 in
  let doy := doe - (365 * yoe + yoe / 4 - yoe / 100) in
  let mp := (5 * doy + 2) / 153 in
  let d := doy - (153 * mp + 2) / 5 + 1 in
  let m := if mp <? 10 then mp + 3 else mp - 9 in
  let y := yoe + era * 400 + (if m <=? 2 then 1 else 0) in
  (y, m, d).

Definition digit_char (d : Z) : ascii := ascii_of_N (48 + Z.to_N (d mod 10)).

Definition pad2 (n : Z) : string :=
  String (digit_char (n / 10)) (String (digit_char n) EmptyString).

Definition pad4 (n : Z) : string := (pad2 (n / 100)%Z ++ pad2 n)%string.

Definition pad6 (n : Z) : string := (pad4 (n / 100)%Z ++ pad2 n)%string.

(** [dt.strftime("%Y-%m-%d")] (years 1 to 9999) *)
Definition strftime_date (dt : datetime) : string :=
  let '(y, m, d) := civil_from_days (wall dt / us_per_day) in
  (pad4 y ++ "-" ++ pad2 m ++ "-" ++ pad2 d)%string.

(** [dt.isoformat()] *)
Definition isoformat (dt : datetime) : string :=
  let us := wall dt mod us_per_day in
  let s := us / 1000000 in
  let frac := us mod 1000000 in
  let tz :=
    match utcoffset dt with
    | None => EmptyString
    | Some off =>
        let a := Z.abs off in
        ((if (off <? 0)%Z then "-" else "+") ++ pad2 (a / 3600)%Z ++ ":"
           ++ pad2 (a mod 3600 / 60)%Z
           ++ (if (a mod 60 =? 0)%Z then "" else ":" ++ pad2 (a mod 60)%Z))%string
    end in
  (strftime_date dt ++ "T" ++ pad2 (s / 3600)%Z ++ ":"
     ++ pad2 (s mod 3600 / 60)%Z ++ ":" ++ pad2 (s mod 60)%Z
     ++ (if (frac =? 0)%Z then "" else "." ++ pad6 frac) ++ tz)%string.

End Datetime.

(** ** The key-value store and JSON texts

    The store maps a key to a text.  The service only ever passes a stored
    text to [json.loads], so a text is represented by what [json.loads]
    makes of it: the document it encodes, or nothing. *)
Module Store.

Import Py.

Inductive text : Type :=
| Dumps (v : value)       (* the text [json.dumps(v)] *)
| Malformed (s : string). (* a text that [json.loads] rejects *)

Definition json_dumps (v : value) : text := Dumps v.

Definition json_loads (t : text) : result value :=
  match t with
  | Dumps v => Ok v
  | Malformed _ => Raise JSONDecodeError
  end.

(** Truth value of a [str]: only the empty text is false. *)
Definition truthy (t : text) : bool :=
  match t with
  | Malformed EmptyString => false
  | _ => true
  end.

Definition store := string -> option text.

Definition empty : store := fun _ => None.

(** [redis.get(key)] *)
Definition get (st : store) (key : string) : option text := st key.

(** [redis.set(key, value)] *)
Definition set (st : store) (key : string) (t : text) : store :=
  fun k => if String.eqb k key then Some t else st k.

End Store.

(** ** [api/ingest.py] *)
Module Ingest.

Import F64 Py Datetime Store.
Local Open Scope string_scope.

(** An element of a parsed value list: a [float] or a [str]. *)
Inductive sample : Type :=
| Number (f : float)
| Text (s : string).

Definition sample_value (v : sample) : value :=
  match v with
  | Number f => VFloat f
  | Text s => VStr s
  end.

(** [get_pacific_now]: the clock at the fixed offset UTC-8. *)
Definition get_pacific_now (t : instant) : datetime := now_tz (-8 * 3600) t.

(** [check_auth]; [auth] is the request's [Authorization] header. *)
Definition check_auth (API_KEY : string) (auth : option string) : bool :=
  if String.eqb API_KEY "" then true
  else String.eqb (match auth with Some a => a | None => "" end)
                  ("Bearer " ++ API_KEY).

(** The body of the loop of [parse_values] on one stripped, non-empty
    line: [float(v)], or [v] itself on [ValueError]. *)
Definition sample_of_line (v : string) : sample :=
  match float_of_string v with
  | Some f => Number f
  | None => Text v
  end.

Definition parse_values (raw : string) : list sample :=
  let decoded := replace_cr (replace_crlf (unquote raw)) in
  flat_map (fun v => let v := strip v in
                     if String.eqb v "" then [] else [sample_of_line v])
           (split_on "010" decoded).

(** [[v for v in values if isinstance(v, (int, float))]] *)
Definition numbers (values : list sample) : list float :=
  flat_map (fun v => match v with Number f => [f] | Text _ => [] end) values.

Record zones : Type := mk_zones {
  rest : nat; light : nat; moderate : nat; hard : nat; max : nat
}.

Definition zone_step (z : zones) (hr : float) : zones :=
  if ltb hr (of_Z 100) then
    mk_zones (S (rest z)) (light z) (moderate z) (hard z) (max z)
  else if ltb hr (of_Z 120) then
    mk_zones (rest z) (S (light z)) (moderate z) (hard z) (max z)
  else if ltb hr (of_Z 140) then
    mk_zones (rest z) (light z) (S (moderate z)) (hard z) (max z)
  else if ltb hr (of_Z 160) then
    mk_zones (rest z) (light z) (moderate z) (S (hard z)) (max z)
  else
    mk_zones (rest z) (light z) (moderate z) (hard z) (S (max z)).

Definition count_zones (nums : list float) : zones :=
  fold_left zone_step nums (mk_zones 0 0 0 0 0).

Definition zones_items (z : zones) : list (string * nat) :=
  [("rest", rest z); ("light", light z); ("moderate", moderate z);
   ("hard", hard z); ("max", max z)].

Definition int_of_nat (n : nat) : value := VInt (Z.of_nat n).

(** [round(v / total * 100)] *)
Definition zone_pct (total : nat) (v : nat) : result Z :=
  round_int (mul (int_truediv (Z.of_nat v) (Pos.of_nat total)) (of_Z 100)).

Fixpoint zone_pcts (total : nat) (items : list (string * nat))
  : result dict :=
  match items with
  | [] => Ok []
  | (k, v) :: t =>
      p <- zone_pct total v ;;
      r <- zone_pcts total t ;;
      Ok ((k, VInt p) :: r)
  end.

Definition compute_hr_zones (values : list sample) : result value :=
  match numbers values with
  | [] => Ok (VDict [])
  | nums =>
      let z := count_zones nums in
      let total := List.length nums in
      pct <- zone_pcts total (zones_items z) ;;
      Ok (VDict
            [("zones", VDict (map (fun kv => (fst kv, int_of_nat (snd kv)))
                                  (zones_items z)));
             ("zone_pct", VDict pct);
             ("training_load", int_of_nat (moderate z + hard z + max z));
             ("high_intensity", int_of_nat (hard z + max z))])
  end.

Record stages : Type := mk_stages {
  REM : nat; Core : nat; Deep : nat; Awake : nat
}.

Definition stage_step (st : stages) (v : sample) : stages :=
  match v with
  | Text s =>
      if contains "REM" s then
        mk_stages (S (REM st)) (Core st) (Deep st) (Awake st)
      else if contains "Core" s || contains "Light" s then
        mk_stages (REM st) (S (Core st)) (Deep st) (Awake st)
      else if contains "Deep" s then
        mk_stages (REM st) (Core st) (S (Deep st)) (Awake st)
      else if contains "Awake" s || contains "Wake" s then
        mk_stages (REM st) (Core st) (Deep st) (S (Awake st))
      else st
  | Number _ => st
  end.

Definition count_stages (values : list sample) : stages :=
  fold_left stage_step values (mk_stages 0 0 0 0).

Definition stages_total (st : stages) : nat :=
  (REM st + Core st + Deep st + Awake st)%nat.

(** [round(stages["Awake"] / total * 100, 1)] *)
Definition fragmentation_of (st : stages) : float :=
  round_nd (mul (int_truediv (Z.of_nat (Awake st))
                             (Pos.of_nat (stages_total st)))
                (of_Z 100)) 1.

Definition quality_of (st : stages) : string :=
  let fragmentation := fragmentation_of st in
  if ltb fragmentation (of_Z 20) && (0 <? REM st)%nat && (0 <? Deep st)%nat
  then "good"
  else if ltb fragmentation (of_Z 35) then "fair" else "poor".

Definition compute_sleep_stats (values : list sample) : value :=
  let st := count_stages values in
  if (stages_total st =? 0)%nat then
    VDict [("values", VList (map sample_value values))]
  else
    VDict
      [("stages", VDict [("REM", int_of_nat (REM st));
                         ("Core", int_of_nat (Core st));
                         ("Deep", int_of_nat (Deep st));
                         ("Awake", int_of_nat (Awake st))]);
       ("fragmentation_pct", VFloat (fragmentation_of st));
       ("quality", VStr (quality_of st));
       ("has_rem", VBool (0 <? REM st)%nat);
       ("has_deep", VBool (0 <? Deep st)%nat)].

(** [min(l)], [max(l)] of a non-empty list ([nan] stands for the
    [ValueError] on an empty one, which no caller reaches). *)
Definition min_of (l : list float) : float :=
  match l with x :: t => py_min x t | [] => nan end.
Definition max_of (l : list float) : float :=
  match l with x :: t => py_max x t | [] => nan end.

Definition float_of_nat (n : nat) : float := of_Z (Z.of_nat n).

(** [sum(1 for s, d in zip(ss, ds) if s >= 140 or d >= 90)] *)
Definition elevated_count (ss ds : list float) : nat :=
  List.length
    (filter (fun sd => geb (fst sd) (of_Z 140) || geb (snd sd) (of_Z 90))
            (combine ss ds)).

Definition compute_blood_pressure_stats
  (systolic_values diastolic_values : list sample) : value :=
  let systolic_nums := numbers systolic_values in
  let diastolic_nums := numbers diastolic_values in
  match systolic_nums, diastolic_nums with
  | [], _ | _, [] => VDict [("count", VInt 0)]
  | _, _ =>
      let count :=
        Nat.min (List.length systolic_nums) (List.length diastolic_nums) in
      let systolic_nums := firstn count systolic_nums in
      let diastolic_nums := firstn count diastolic_nums in
      let elevated := elevated_count systolic_nums diastolic_nums in
      VDict
        [("systolic_avg",
          VFloat (round_nd (div (sum systolic_nums) (float_of_nat count)) 1));
         ("systolic_min", VFloat (round_nd (min_of systolic_nums) 1));
         ("systolic_max", VFloat (round_nd (max_of systolic_nums) 1));
         ("diastolic_avg",
          VFloat (round_nd (div (sum diastolic_nums) (float_of_nat count)) 1));
         ("diastolic_min", VFloat (round_nd (min_of diastolic_nums) 1));
         ("diastolic_max", VFloat (round_nd (max_of diastolic_nums) 1));
         ("count", int_of_nat count);
         ("elevated_readings", int_of_nat elevated)]
  end.

(** [[(x - avg) ** 2 for x in nums]], stopping at the first overflow. *)
Fixpoint squared_deviations (avg : float) (nums : list float)
  : result (list float) :=
  match nums with
  | [] => Ok []
  | x :: t =>
      sq <- pow2 (sub x avg) ;;
      r <- squared_deviations avg t ;;
      Ok (sq :: r)
  end.

(** [sum(1 for v in nums if 70 <= v <= 180)] *)
Definition in_range_count (nums : list float) : nat :=
  List.length (filter (fun v => leb (of_Z 70) v && leb v (of_Z 180)) nums).

(** [round(in_range / count * 100, 1)] *)
Definition in_range_pct_of (nums : list float) : float :=
  round_nd (mul (int_truediv (Z.of_nat (in_range_count nums))
                             (Pos.of_nat (List.length nums)))
                (of_Z 100)) 1.

Definition compute_blood_glucose_stats (values : list sample)
  : result value :=
  match numbers values with
  | [] => Ok (VDict [("count", VInt 0)])
  | nums =>
      let count := List.length nums in
      let avg := div (sum nums) (float_of_nat count) in
      sqs <- squared_deviations avg nums ;;
      let variance := div (sum sqs) (float_of_nat count) in
      let std_dev := pow_half variance in
      Ok (VDict
            [("avg", VFloat (round_nd avg 1));
             ("min", VFloat (round_nd (min_of nums) 1));
             ("max", VFloat (round_nd (max_of nums) 1));
             ("std_dev", VFloat (round_nd std_dev 1));
             ("count", int_of_nat count);
             ("in_range_pct", VFloat (in_range_pct_of nums))])
  end.

Definition compute_stats (values : list sample) (key : string)
  : result value :=
  let key_lower := strip (lower key) in
  if String.eqb key_lower "sleep" then Ok (compute_sleep_stats values)
  else if String.eqb key_lower "bloodglucose" then
    compute_blood_glucose_stats values
  else
    match numbers values with
    | [] => Ok (VDict [("count", int_of_nat (List.length values))])
    | nums =>
        let result :=
          [("avg", VFloat (round_nd (div (sum nums)
                                         (float_of_nat (List.length nums))) 2));
           ("min", VFloat (round_nd (min_of nums) 2));
           ("max", VFloat (round_nd (max_of nums) 2));
           ("count", int_of_nat (List.length nums))] in
        if String.eqb key_lower "heartrate" then
          z <- compute_hr_zones (map Number nums) ;;
          Ok (VDict (dict_set "hr_zones" z result))
        else Ok (VDict result)
    end.

(** The decoded request body, [parse_qs(body)]: a dict from field name to
    the list of its values, in order of first appearance. *)
Definition form := list (string * list string).

Record response : Type := mk_response { status : Z; body : value }.

(** Lines 225-232 of [do_POST]: the last field name containing each
    blood-pressure marker.  (A name found this way is never empty, so it is
    true in the test that follows.) *)
Definition find_bp_keys (form_data : form) : option string * option string :=
  fold_left
    (fun (acc : option string * option string) (kv : string * list string) =>
       let key_lower := lower (fst kv) in
       if contains "bloodpressuresystolic" key_lower
       then (Some (fst kv), snd acc)
       else if contains "bloodpressurediastolic" key_lower
            then (fst acc, Some (fst kv))
            else acc)
    form_data (None, None).

(** [values[0] if values else ""] *)
Definition first_value (values : list string) : string :=
  match values with
  | v :: _ => v
  | [] => ""
  end.

(** [form_data[k][0] if form_data[k] else ""] for a key of the form *)
Definition field_raw (form_data : form) (k : string) : string :=
  first_value (match dict_get k form_data with Some l => l | None => [] end).

Definition is_bp_field (key : string) : bool :=
  let key_lower := lower key in
  contains "bloodpressuresystolic" key_lower
  || contains "bloodpressurediastolic" key_lower.

(** Lines 234-240: the paired blood-pressure metric. *)
Definition process_blood_pressure (form_data : form) (health_data : value)
  : result value :=
  match find_bp_keys form_data with
  | (Some bp_systolic_key, Some bp_diastolic_key) =>
      let systolic_values := parse_values (field_raw form_data bp_systolic_key) in
      let diastolic_values := parse_values (field_raw form_data bp_diastolic_key) in
      setitem health_data "bloodpressure"
        (compute_blood_pressure_stats systolic_values diastolic_values)
  | _ => Ok health_data
  end.

(** Lines 242-251: every other field, in order. *)
Fixpoint process_metrics (items : form) (health_data : value)
  : result value :=
  match items with
  | [] => Ok health_data
  | (key, values) :: rest =>
      if is_bp_field key then process_metrics rest health_data
      else
        stats <- compute_stats (parse_values (first_value values)) key ;;
        health_data <- setitem health_data key stats ;;
        process_metrics rest health_data
  end.

(** Lines 224-253: the submission merged into the prior document, stamped
    with the clock reading [t]. *)
Definition merge (form_data : form) (t : instant) (health_data : value)
  : result value :=
  health_data <- process_blood_pressure form_data health_data ;;
  health_data <- process_metrics form_data health_data ;;
  setitem health_data "_updated" (VStr (isoformat (get_pacific_now t))).

(** Lines 218-222: the storage key and the prior document. *)
Definition date_key_at (t : instant) : string :=
  strftime_date (get_pacific_now t).

Definition redis_key_at (t : instant) : string := "health:" ++ date_key_at t.

Definition load_existing (existing : option text) : result value :=
  match existing with
  | Some e => if truthy e then json_loads e else Ok (VDict [])
  | None => Ok (VDict [])
  end.

(** [handler.do_POST].  The clock is read twice: [t1] names the day, [t2]
    stamps the document.  An uncaught exception leaves the store as it
    was. *)
Definition do_POST (API_KEY : string) (auth : option string)
  (form_data : form) (t1 t2 : instant) (st : store)
  : store * result response :=
  if negb (check_auth API_KEY auth) then
    (st, Ok (mk_response 401 (VDict [("error", VStr "unauthorized")])))
  else
    let date_key := date_key_at t1 in
    let redis_key := "health:" ++ date_key in
    match (health_data <- load_existing (get st redis_key) ;;
           merge form_data t2 health_data) with
    | Raise e => (st, Raise e)
    | Ok health_data =>
        (set st redis_key (json_dumps health_data),
         Ok (mk_response 200
               (VDict [("ok", VBool true);
                       ("date", VStr date_key);
                       ("keys", VList (map (fun kv => VStr (fst kv))
                                           form_data))])))
    end.

End Ingest.

(** ** [api/data.py] *)
Module Data.

Import Py Datetime Store.
Local Open Scope string_scope.

Definition check_auth (API_KEY : string) (auth : option string) : bool :=
  if String.eqb API_KEY "" then true
  else String.eqb (match auth with Some a => a | None => "" end)
                  ("Bearer " ++ API_KEY).

(** [int(query.get("days", [7])[0])]; [days] is the first value of the
    query parameter when it is present. *)
Definition days_of_query (days : option string) : result Z :=
  match days with
  | None => Ok 7
  | Some s => match int_of_string s with
              | Some n => Ok n
              | None => Raise ValueError
              end
  end.

(** [(datetime.now() - timedelta(days=i)).strftime("%Y-%m-%d")], the clock
    reading [t] taken on a host whose local zone is [off] seconds east of
    UTC. *)
Definition date_back (off : Z) (t : instant) (i : nat) : string :=
  strftime_date (minus_days (now_naive off t) (Z.of_nat i)).

(** The loop of [do_GET] from iteration [i] on, [n] iterations left.
    [tz t] is the host's UTC offset at instant [t]; [clock i] is the clock
    reading in iteration [i]. *)
Fixpoint collect (tz : instant -> Z) (clock : nat -> instant) (st : store)
  (n i : nat) (results : dict) : result dict :=
  match n with
  | O => Ok results
  | S n' =>
      let date := date_back (tz (clock i)) (clock i) i in
      match get st ("health:" ++ date) with
      | Some data =>
          if truthy data then
            v <- json_loads data ;;
            collect tz clock st n' (S i) (dict_set date v results)
          else collect tz clock st n' (S i) results
      | None => collect tz clock st n' (S i) results
      end
  end.

(** [handler.do_GET] *)
Definition do_GET (API_KEY : string) (auth : option string)
  (days : option string) (tz : instant -> Z) (clock : nat -> instant)
  (st : store) : result Ingest.response :=
  if negb (check_auth API_KEY auth) then
    Ok (Ingest.mk_response 401 (VDict [("error", VStr "unauthorized")]))
  else
    days <- days_of_query days ;;
    results <- collect tz clock st (Z.to_nat days) 0 [] ;;
    Ok (Ingest.mk_response 200 (VDict results)).

End Data.

(** ** Vocabulary of the specification

    Definitions that follow the specification's wording; the theorems
    compare them with the code above. *)
Module Spec.

Import F64 Py Datetime Store Ingest.
Local Open Scope string_scope.

(** Field access in a summary, and access along a path of fields. *)
Definition field (k : string) (v : value) : option value :=
  match v with
  | VDict d => dict_get k d
  | _ => None
  end.

Fixpoint path (ks : list string) (v : value) : option value :=
  match ks with
  | [] => Some v
  | k :: t => match field k v with
              | Some v' => path t v'
              | None => None
              end
  end.

(** The heart-rate zones as the specification words them:
    rest [<100], light [[100,120)], moderate [[120,140)], hard [[140,160)],
    max [[160,oo)]. *)
Inductive zone : Type := Rest | Light | Moderate | Hard | Max.

Definition zone_of (bpm : Q) : zone :=
  if Qle_bool 160 bpm then Max
  else if Qle_bool 140 bpm then Hard
  else if Qle_bool 120 bpm then Moderate
  else if Qle_bool 100 bpm then Light
  else Rest.

Definition bump (zn : zone) (z : zones) : zones :=
  match zn with
  | Rest => mk_zones (S (rest z)) (light z) (moderate z) (hard z) (max z)
  | Light => mk_zones (rest z) (S (light z)) (moderate z) (hard z) (max z)
  | Moderate => mk_zones (rest z) (light z) (S (moderate z)) (hard z) (max z)
  | Hard => mk_zones (rest z) (light z) (moderate z) (S (hard z)) (max z)
  | Max => mk_zones (rest z) (light z) (moderate z) (hard z) (S (max z))
  end.

(** "Decimal, optional sign, optional fractional part": an optional [+] or
    [-], one or more digits, and optionally a point followed by one or
    more digits. *)
Definition plain_decimal (v : string) : bool :=
  let (_, body) := split_sign (chars v) in
  let (ip, r) := span_digits body in
  match ip, r with
  | [], _ => false
  | _ :: _, [] => true
  | _ :: _, c :: fr =>
      Ascii.eqb c "." && forallb is_digit fr
      && match fr with [] => false | _ :: _ => true end
  end.

(** The characters a plain decimal is made of. *)
Definition decimal_char (c : ascii) : bool :=
  is_digit c || Ascii.eqb c "+" || Ascii.eqb c "-" || Ascii.eqb c ".".

(** The value a plain decimal denotes, as sign, digits and scale. *)
Definition decimal_value (v : string) : float :=
  let (sg, body) := split_sign (chars v) in
  let (ip, r) := span_digits body in
  let fp := match r with _ :: fr => fr | [] => [] end in
  of_decimal sg (digits_to_Z (ip ++ fp)) (- Z.of_nat (List.length fp)).

(** Two documents are the same record when every key other than the
    update stamp has the same entry in both. *)
Definition same_record (a b : dict) : Prop :=
  forall k, k <> "_updated" -> dict_get k a = dict_get k b.

Definition zones_total (z : zones) : nat :=
  (rest z + light z + moderate z + hard z + max z)%nat.

(** A text sample matched by one of the four sleep-stage tests. *)
Definition classified (v : sample) : bool :=
  match v with
  | Text s =>
      contains "REM" s || contains "Core" s || contains "Light" s
      || contains "Deep" s || contains "Awake" s || contains "Wake" s
  | Number _ => false
  end.

(** The mean, and the population standard deviation: the square root of
    the mean squared deviation, the sum divided by the number of samples
    (not by one less). *)
Definition mean (nums : list float) : float :=
  div (sum nums) (float_of_nat (List.length nums)).

Definition population_std_dev (nums : list float) : result float :=
  sqs <- squared_deviations (mean nums) nums ;;
  Ok (pow_half (div (sum sqs) (float_of_nat (List.length nums)))).

(** The inputs of the specification's scenarios. *)
Definition hr_input : string := "65" ++ nl ++ "72" ++ nl ++ "145" ++ nl.
Definition sleep_input : string :=
  "Core" ++ nl ++ "REM" ++ nl ++ "Awake" ++ nl ++ "Awake" ++ nl.

End Spec.

(** ** The merge as a sequence of item assignments

    On a dict, the merge step of [do_POST] is a sequence of assignments
    [health_data[k] = v]; these definitions name that sequence. *)
Module Writes.

Import Py Datetime Ingest.
Local Open Scope string_scope.

Definition writes := list (string * value).

Definition apply_writes (ws : writes) (d : dict) : dict :=
  fold_left (fun d kv => dict_set (fst kv) (snd kv) d) ws d.

(** The value last assigned to [k], if any. *)
Fixpoint last_write (k : string) (ws : writes) : option value :=
  match ws with
  | [] => None
  | (k', v) :: t =>
      match last_write k t with
      | Some v' => Some v'
      | None => if String.eqb k k' then Some v else None
      end
  end.

(** The assignment of lines 234-240, when both fields are present. *)
Definition bp_writes (form_data : form) : writes :=
  match find_bp_keys form_data with
  | (Some bp_systolic_key, Some bp_diastolic_key) =>
      [("bloodpressure",
        compute_blood_pressure_stats
          (parse_values (field_raw form_data bp_systolic_key))
          (parse_values (field_raw form_data bp_diastolic_key)))]
  | _ => []
  end.

(** The assignments of the loop of lines 242-251. *)
Fixpoint metric_writes (items : form) : result writes :=
  match items with
  | [] => Ok []
  | (key, values) :: rest =>
      if is_bp_field key then metric_writes rest
      else
        stats <- compute_stats (parse_values (first_value values)) key ;;
        ws <- metric_writes rest ;;
        Ok ((key, stats) :: ws)
  end.

Definition stamp (t : instant) : string * value :=
  ("_updated", VStr (isoformat (get_pacific_now t))).

Definition has_systolic (form_data : form) : bool :=
  existsb (fun kv => contains "bloodpressuresystolic" (lower (fst kv)))
          form_data.

Definition has_diastolic (form_data : form) : bool :=
  existsb (fun kv => contains "bloodpressurediastolic" (lower (fst kv)))
          form_data.

(** The submission without its blood-pressure fields. *)
Definition without_bp (form_data : form) : form :=
  filter (fun kv => negb (is_bp_field (fst kv))) form_data.

(** The (date, document) entries the loop of [Data.do_GET] assigns, from
    iteration [i] on, [n] iterations left. *)
Fixpoint found (tz : instant -> Z) (clock : nat -> instant)
  (st : Store.store) (n i : nat) : result writes :=
  match n with
  | O => Ok []
  | S n' =>
      let date := Data.date_back (tz (clock i)) (clock i) i in
      match Store.get st ("health:" ++ date) with
      | Some data =>
          if Store.truthy data then
            v <- Store.json_loads data ;;
            ws <- found tz clock st n' (S i) ;;
            Ok ((date, v) :: ws)
          else found tz clock st n' (S i)
      | None => found tz clock st n' (S i)
      end
  end.

End Writes.

(** ** Ranges of floats *)
Module Bounds.

Import F64.

(** [x] is a finite, non-negative float that is at most [B]. *)
Definition within (B x : float) : Prop :=
  is_finite x = true /\ sign x = false /\ (to_Q x <= to_Q B)%Q.

(** [1.0] *)
Definition one : float := S754_finite false 4503599627370496 (-52).

(** [x] is a float within [eps] of the rational [q]. *)
Definition near (eps : Q) (x : float) (q : Q) : Prop :=
  (q - eps <= to_Q x <= q + eps)%Q.

End Bounds.

(** ** Probe values for comparing the operations of [F64] with the
    standard library's IEEE 754 operations *)
Module Conformance.

Import F64 Py.

Definition probes : list float :=
  [S754_zero false; S754_zero true; of_Z 1; of_Z (-1); of_Z 3; of_Z 10;
   of_Z 100; int_truediv 1 10; int_truediv 1 3; int_truediv (-2) 7;
   of_decimal false 1 308; of_decimal true 17976931348623157 292;
   S754_finite false 1 (-1074); S754_finite false 4503599627370496 (-1074);
   S754_finite true 4503599627370495 (-1074);
   of_Z 9007199254740993; of_decimal false 5 (-324);
   S754_infinity false; S754_infinity true; S754_nan].

Definition pairs : list (float * float) :=
  flat_map (fun x => map (fun y => (x, y)) probes) probes.

Definition on_pairs {A} (f : float -> float -> A) : list A :=
  map (fun xy => f (fst xy) (snd xy)) pairs.

End Conformance.

(** ** Vocabulary for the properties of the code

    Shapes of inputs and classifications of samples used to state what
    the functions above do on every input. *)
Module Shapes.

Import F64 Py Datetime Store Ingest Spec.
Local Open Scope string_scope.

(** [sep.join(lines)] *)
Fixpoint join (sep : string) (lines : list string) : string :=
  match lines with
  | [] => ""
  | l :: rest =>
      match rest with
      | [] => l
      | _ :: _ => l ++ sep ++ join sep rest
      end
  end.

(** [c not in s] *)
Definition free_of (c : ascii) (s : string) : bool :=
  forallb (fun c' => negb (Ascii.eqb c' c)) (chars s).

(** A line without a carriage return, a line feed or a percent sign. *)
Definition plain_line (l : string) : bool :=
  free_of "013" l && free_of "010" l && free_of "%" l.

(** What the loop of [parse_values] appends for one line. *)
Definition line_samples (l : string) : list sample :=
  let v := strip l in if String.eqb v "" then [] else [sample_of_line v].

(** The upper-case hexadecimal digit of [n < 16]. *)
Definition hex_digit (n : N) : ascii :=
  if (n <? 10)%N then ascii_of_N (48 + n) else ascii_of_N (55 + n).

(** Every character of [s] percent-encoded, as [urllib.parse.quote] does
    for a character outside its safe set. *)
Fixpoint quote_all (s : string) : string :=
  match s with
  | EmptyString => EmptyString
  | String c t =>
      let n := N_of_ascii c in
      String "%" (String (hex_digit (n / 16)) (String (hex_digit (n mod 16))
                                                     (quote_all t)))
  end.

Definition is_ascii (s : string) : bool :=
  forallb (fun c => (N_of_ascii c <? 128)%N) (chars s).

(** The zone of a reading: by its exact value when it is finite; a NaN
    and [+inf] fail every [hr < bound] test, [-inf] passes the first. *)
Definition zone_of_float (hr : float) : zone :=
  match hr with
  | S754_nan => Max
  | S754_infinity true => Rest
  | S754_infinity false => Max
  | _ => zone_of (to_Q hr)
  end.

(** The branch of the chain of [compute_sleep_stats] a sample takes. *)
Definition is_rem (v : sample) : bool :=
  match v with Text s => contains "REM" s | Number _ => false end.
Definition is_core (v : sample) : bool :=
  match v with
  | Text s => negb (contains "REM" s)
              && (contains "Core" s || contains "Light" s)
  | Number _ => false
  end.
Definition is_deep (v : sample) : bool :=
  match v with
  | Text s => negb (contains "REM" s)
              && negb (contains "Core" s || contains "Light" s)
              && contains "Deep" s
  | Number _ => false
  end.
Definition is_awake (v : sample) : bool :=
  match v with
  | Text s => negb (contains "REM" s)
              && negb (contains "Core" s || contains "Light" s)
              && negb (contains "Deep" s)
              && (contains "Awake" s || contains "Wake" s)
  | Number _ => false
  end.

Definition count_if (f : sample -> bool) (values : list sample) : nat :=
  List.length (filter f values).

End Shapes.

Import F64 Py Datetime Store Ingest Spec Writes Bounds Conformance.
Import Shapes.

(** * Properties *)

(** ** The float operations against the standard library's

    On every pair of probe values (zeros of both signs, subnormals, the
    largest finite number, values whose results are inexact, infinities and
    NaN) the operations of [F64] return what the standard library's
    specification of IEEE 754 binary64 returns. *)

Example add_ok : on_pairs add = on_pairs (SFadd prec emax).
Proof. vm_compute. reflexivity. Qed.
Example sub_ok : on_pairs sub = on_pairs (SFsub prec emax).
Proof. vm_compute. reflexivity. Qed.
Example mul_ok : on_pairs mul = on_pairs (SFmul prec emax).
Proof. vm_compute. reflexivity. Qed.
Example div_ok : on_pairs div = on_pairs (SFdiv prec emax).
Proof. vm_compute. reflexivity. Qed.
Example sqrt_ok : map F64.sqrt probes = map (SFsqrt prec emax) probes.
Proof. vm_compute. reflexivity. Qed.
Example cmp_ok : on_pairs F64.compare = on_pairs SFcompare.
Proof. vm_compute. reflexivity. Qed.
Example ltb_ok : on_pairs ltb = on_pairs SFltb.
Proof. vm_compute. reflexivity. Qed.
Example leb_ok : on_pairs leb = on_pairs SFleb.
Proof. vm_compute. reflexivity. Qed.

(** ** Rounding to nearest *)

Lemma rhe_le (N D K : Z) : 0 < D -> N <= K * D -> rhe N D <= K.
Proof.
  intros HD H. unfold rhe.
  pose proof (Z.div_mod N D ltac:(lia)) as E.
  pose proof (Z.mod_pos_bound N D HD) as B.
  destruct (2 * (N mod D) ?= D) eqn:C;
    [apply Z.compare_eq in C | rewrite Z.compare_lt_iff in C
     | rewrite Z.compare_gt_iff in C];
    try destruct (Z.even (N / D)); nia.
Qed.

Lemma rhe_ge (N D K : Z) : 0 < D -> K * D <= N -> K <= rhe N D.
Proof.
  intros HD H. unfold rhe.
  pose proof (Z.div_mod N D ltac:(lia)) as E.
  pose proof (Z.mod_pos_bound N D HD) as B.
  destruct (2 * (N mod D) ?= D) eqn:C;
    try destruct (Z.even (N / D)); nia.
Qed.

(** Rounding to an integer is off by at most one half. *)
Lemma rhe_error (N D : Z) : 0 < D -> 2 * Z.abs (rhe N D * D - N) <= D.
Proof.
  intros HD. unfold rhe.
  pose proof (Z.div_mod N D ltac:(lia)) as E.
  pose proof (Z.mod_pos_bound N D HD) as B.
  destruct (2 * (N mod D) ?= D) eqn:C;
    [apply Z.compare_eq in C | rewrite Z.compare_lt_iff in C
     | rewrite Z.compare_gt_iff in C];
    try destruct (Z.even (N / D)); nia.
Qed.


Lemma ilog2_lower (n d : positive) :
  (0 <= ilog2 n d -> Zpos d * 2 ^ ilog2 n d <= Zpos n)
  /\ (ilog2 n d < 0 -> Zpos d <= Zpos n * 2 ^ (- ilog2 n d)).
Proof.
  unfold ilog2.
  pose proof (Z.log2_spec (Zpos n) ltac:(lia)) as [Hn _].
  pose proof (Z.log2_spec (Zpos d) ltac:(lia)) as [_ Hd].
  rewrite <- Z.add_1_r in Hd.
  pose proof (Z.log2_nonneg (Zpos n)) as Ha.
  pose proof (Z.log2_nonneg (Zpos d)) as Hb.
  set (a := Z.log2 (Zpos n)) in *. set (b := Z.log2 (Zpos d)) in *.
  destruct (0 <=? a - b) eqn:K; [apply Z.leb_le in K|apply Z.leb_gt in K].
  - destruct (Zpos d * 2 ^ (a - b) <=? Zpos n) eqn:T.
    + apply Z.leb_le in T. split; [intros _; exact T|lia].
    + split.
      * intros Hl.
        assert (E : 2 ^ a = 2 ^ (b + 1) * 2 ^ (a - b - 1))
          by (rewrite <- Z.pow_add_r by lia; f_equal; lia).
        assert (0 < 2 ^ (a - b - 1)) by (apply Z.pow_pos_nonneg; lia).
        nia.
      * intros Hl. assert (a - b = 0) by lia.
        replace (- (a - b - 1)) with 1 by lia.
        replace (b + 1) with (a + 1) in Hd by lia.
        rewrite Z.pow_add_r in Hd by lia. change (2 ^ 1) with 2 in *. lia.
  - destruct (Zpos d <=? Zpos n * 2 ^ (- (a - b))) eqn:T.
    + apply Z.leb_le in T. split; [lia|intros _; exact T].
    + split; [lia|]. intros _.
      assert (E : 2 ^ (b + 1) = 2 ^ a * 2 ^ (- (a - b - 1)))
        by (rewrite <- Z.pow_add_r by lia; f_equal; lia).
      assert (0 < 2 ^ (- (a - b - 1))) by (apply Z.pow_pos_nonneg; lia).
      nia.
Qed.

Lemma pos_pow2 (k : Z) : 0 < k -> Zpos (2 ^ Z.to_pos k)%positive = 2 ^ k.
Proof. intros H. rewrite Pos2Z.inj_pow, Z2Pos.id by lia. reflexivity. Qed.

Lemma ilog2_le (n d mB : positive) (kB : Z) :
  0 <= kB -> Zpos mB < 2 ^ 53 ->
  Zpos n * 2 ^ kB <= Zpos mB * Zpos d ->
  ilog2 n d <= 52 - kB.
Proof.
  intros HkB HmB H.
  destruct (ilog2_lower n d) as [L1 L2].
  set (l := ilog2 n d) in *.
  destruct (Z_lt_le_dec l (53 - kB)) as [|C]; [lia|exfalso].
  assert (P0 : 0 < 2 ^ kB) by (apply Z.pow_pos_nonneg; lia).
  destruct (Z_lt_le_dec l 0) as [Hneg|Hpos].
  - specialize (L2 Hneg).
    assert (E : 2 ^ kB = 2 ^ (kB + l) * 2 ^ (- l))
      by (rewrite <- Z.pow_add_r by lia; f_equal; lia).
    assert (G : 2 ^ 53 <= 2 ^ (kB + l)) by (apply Z.pow_le_mono_r; lia).
    assert (0 < 2 ^ (- l)) by (apply Z.pow_pos_nonneg; lia).
    nia.
  - specialize (L1 Hpos).
    assert (E : 2 ^ (l + kB) = 2 ^ l * 2 ^ kB)
      by (apply Z.pow_add_r; lia).
    assert (G : 2 ^ 53 <= 2 ^ (l + kB)) by (apply Z.pow_le_mono_r; lia).
    assert (0 < 2 ^ l) by (apply Z.pow_pos_nonneg; lia).
    nia.
Qed.

(** A positive rational below [mB * 2^-kB] rounds to zero or to a finite
    float that is at most that bound; the rounding error is at most half a
    unit of the last place. *)
Lemma RN_le (n d mB : positive) (kB : Z) :
  2 <= kB <= 1074 -> Zpos mB < 2 ^ 53 ->
  Zpos n * 2 ^ kB <= Zpos mB * Zpos d ->
  (RN false n d = S754_zero false /\ 2 * Zpos n * 2 ^ kB <= Zpos d)
  \/ exists m e,
      RN false n d = S754_finite false m e
      /\ e <= - kB
      /\ Zpos m * 2 ^ kB <= Zpos mB * 2 ^ (- e)
      /\ 2 * Z.abs (Zpos m * Zpos d - Zpos n * 2 ^ (- e)) <= Zpos d.
Proof.
  intros HkB HmB H. unfold RN.
  pose proof (ilog2_le n d mB kB ltac:(lia) HmB H) as Hl.
  set (e0 := Z.max (ilog2 n d - 52) emin).
  assert (He : e0 <= - kB) by (unfold e0, emin; lia).
  assert (Hsc : scaled n d e0 = rhe (Zpos n * 2 ^ (- e0)) (Zpos d)).
  { unfold scaled. destruct (0 <=? e0) eqn:E; [|reflexivity].
    apply Z.leb_le in E. lia. }
  rewrite Hsc.
  pose proof (rhe_error (Zpos n * 2 ^ (- e0)) (Zpos d) ltac:(lia)) as Herr.
  set (m := rhe (Zpos n * 2 ^ (- e0)) (Zpos d)) in *.
  assert (EP : 2 ^ (- e0) = 2 ^ kB * 2 ^ (- kB - e0))
    by (rewrite <- Z.pow_add_r by lia; f_equal; lia).
  assert (P0 : 0 < 2 ^ kB) by (apply Z.pow_pos_nonneg; lia).
  assert (R0 : 0 < 2 ^ (- kB - e0)) by (apply Z.pow_pos_nonneg; lia).
  assert (Hm : m <= Zpos mB * 2 ^ (- kB - e0)).
  { apply rhe_le; [lia|]. rewrite EP. nia. }
  assert (Hm0 : 0 <= m) by (apply rhe_ge; [lia|]; nia).
  destruct (m =? 2 ^ 53) eqn:E53.
  - apply Z.eqb_eq in E53. right.
    change (fst (2 ^ 52, e0 + 1)) with 4503599627370496.
    change (snd (2 ^ 52, e0 + 1)) with (e0 + 1).
    assert (Hlt : - kB - e0 > 0).
    { destruct (Z.eq_dec (- kB - e0) 0) as [Z0|]; [|lia].
      rewrite Z0 in Hm. change (2 ^ 0) with 1 in Hm. lia. }
    assert (Hov : (971 <? e0 + 1) = false) by (apply Z.ltb_ge; lia).
    rewrite Hov. eexists. eexists. split; [reflexivity|].
    split; [lia|].
    assert (ES : 2 ^ (- e0) = 2 * 2 ^ (- (e0 + 1))).
    { change 2 with (2 ^ 1) at 2. rewrite <- Z.pow_add_r by lia.
      f_equal. lia. }
    assert (S0 : 0 < 2 ^ (- (e0 + 1))) by (apply Z.pow_pos_nonneg; lia).
    change (Zpos 4503599627370496) with (2 ^ 52).
    change (2 ^ 53) with (2 * 2 ^ 52) in E53.
    split; [nia|]. rewrite E53, ES in Herr. lia.
  - simpl fst. simpl snd.
    destruct m as [|p|p] eqn:Em; [left|right|lia].
    + split; [reflexivity|]. rewrite EP in Herr. nia.
    + assert (Hov : (971 <? e0) = false) by (apply Z.ltb_ge; lia).
      rewrite Hov. eexists. eexists. split; [reflexivity|].
      split; [lia|]. split; [rewrite EP; nia|exact Herr].
Qed.

Lemma to_Q_finite_neg (s : bool) (m : positive) (e : Z) :
  e < 0 ->
  to_Q (S754_finite s m e)
  = ((if s then Zneg m else Zpos m) # (2 ^ Z.to_pos (- e))%positive).
Proof.
  intros H. unfold to_Q. destruct (0 <=? e) eqn:E; [|reflexivity].
  apply Z.leb_le in E. lia.
Qed.

Lemma to_Q_positive (m : positive) (e : Z) :
  exists n d, to_Q (S754_finite false m e) = (Zpos n # d).
Proof.
  unfold to_Q. destruct (0 <=? e) eqn:E.
  - apply Z.leb_le in E.
    assert (H : 0 < Zpos m * 2 ^ e)
      by (apply Z.mul_pos_pos; [lia|apply Z.pow_pos_nonneg; lia]).
    destruct (Zpos m * 2 ^ e) as [|p|p]; try lia.
    exists p, 1%positive. reflexivity.
  - eexists. eexists. reflexivity.
Qed.

Lemma sign_false_nonneg (x : float) : sign x = false -> (0 <= to_Q x)%Q.
Proof.
  destruct x as [s|s| |s m e]; simpl; try (intros; apply Qle_refl).
  intros ->. destruct (to_Q_positive m e) as [n [d E]].
  unfold to_Q in E. rewrite E. unfold Qle. simpl. lia.
Qed.

Lemma within_zero (B : float) :
  sign B = false -> within B (S754_zero false).
Proof.
  intros H. repeat split. simpl. apply sign_false_nonneg, H.
Qed.

(** A positive rational below a float [B = mB * 2^-kB] rounds to a float
    that is at most [B]. *)
Lemma RN_within (n d mB : positive) (kB : Z) :
  2 <= kB <= 1074 -> Zpos mB < 2 ^ 53 ->
  (Zpos n # d <= to_Q (S754_finite false mB (- kB)))%Q ->
  within (S754_finite false mB (- kB)) (RN false n d).
Proof.
  intros HkB HmB H. unfold within.
  rewrite to_Q_finite_neg in * by lia.
  rewrite Z.opp_involutive in *.
  assert (H' : Zpos n * 2 ^ kB <= Zpos mB * Zpos d).
  { unfold Qle in H. cbn [Qnum Qden] in H.
    rewrite pos_pow2 in H by lia. exact H. }
  destruct (RN_le n d mB kB HkB HmB H')
    as [[-> _]|[m [e [-> [He [Hm _]]]]]].
  - repeat split. unfold Qle. cbn [to_Q Qnum Qden]. lia.
  - repeat split. rewrite to_Q_finite_neg by lia.
    unfold Qle. cbn [Qnum Qden]. rewrite !pos_pow2 by lia. lia.
Qed.

Lemma of_Z_100 : of_Z 100 = S754_finite false 7036874417766400 (-46).
Proof. vm_compute. reflexivity. Qed.

Lemma Zpos_of_nat (t : nat) : (0 < t)%nat -> Zpos (Pos.of_nat t) = Z.of_nat t.
Proof.
  intros H. destruct t as [|t]; [lia|].
  rewrite <- Pos.of_nat_succ, Zpos_P_of_succ_nat. lia.
Qed.

Lemma int_truediv_within (a t : nat) :
  (a <= t)%nat -> (0 < t)%nat ->
  within one (int_truediv (Z.of_nat a) (Pos.of_nat t)).
Proof.
  intros Hat Ht. unfold int_truediv, of_Q. cbn [Qnum Qden].
  destruct (Z.of_nat a) as [|p|p] eqn:E; [apply within_zero; reflexivity| |lia].
  apply (RN_within p (Pos.of_nat t) 4503599627370496 52); [lia|lia|].
  unfold Qle. cbn. pose proof (Zpos_of_nat t Ht). lia.
Qed.

Lemma mul_100_within (x : float) :
  within one x -> within (of_Z 100) (mul x (of_Z 100)).
Proof.
  rewrite of_Z_100. intros [Hf [Hs Hq]].
  destruct x as [s|s| |s m e]; simpl in Hf, Hs; try discriminate; subst s.
  - apply within_zero. reflexivity.
  - unfold mul.
    destruct (to_Q_positive m e) as [n [d E]]. rewrite E in *.
    change (to_Q (S754_finite false 7036874417766400 (-46)))
      with (7036874417766400 # 70368744177664).
    cbn [Qmult Qnum Qden Z.mul xorb].
    apply (RN_within _ _ 7036874417766400 46); [lia|lia|].
    cbn [Z.opp]. change (to_Q (S754_finite false 7036874417766400 (-46)))
      with (7036874417766400 # 70368744177664).
    change (to_Q one) with (4503599627370496 # 4503599627370496) in Hq.
    unfold Qle in *. cbn [Qnum Qden] in *.
    rewrite !Pos2Z.inj_mul. assert (Zpos n <= Zpos d) by lia. lia.
Qed.

Lemma round1_within (x : float) :
  within (of_Z 100) x -> within (of_Z 100) (round_nd x 1).
Proof.
  intros W. destruct x as [s|s| |s m e]; try exact W.
  destruct W as [_ [Hs Hq]]. simpl in Hs. subst s.
  rewrite of_Z_100 in *. unfold round_nd.
  destruct (to_Q_positive m e) as [n [d E]]. rewrite E in *.
  change (pow10 1) with 10%positive. cbn [Qnum Qden].
  change (to_Q (S754_finite false 7036874417766400 (-46)))
    with (7036874417766400 # 70368744177664) in Hq.
  unfold Qle in Hq. cbn [Qnum Qden] in Hq.
  assert (K1 : rhe (Zpos n * 10) (Zpos d) <= 1000)
    by (apply rhe_le; lia).
  assert (K0 : 0 <= rhe (Zpos n * 10) (Zpos d))
    by (apply rhe_ge; lia).
  unfold of_Q. cbn [Qnum Qden].
  destruct (rhe (Zpos n * 10) (Zpos d)) as [|k|k];
    [apply within_zero; reflexivity| |lia].
  apply (RN_within _ _ 7036874417766400 46); [lia|lia|].
  cbn [Z.opp]. change (to_Q (S754_finite false 7036874417766400 (-46)))
    with (7036874417766400 # 70368744177664).
  unfold Qle. cbn [Qnum Qden]. lia.
Qed.

(** [round(a / t * 100, 1)] for counts [a <= t] is a finite float between
    0 and 100. *)
Lemma pct_within (a t : nat) :
  (a <= t)%nat -> (0 < t)%nat ->
  within (of_Z 100)
    (round_nd (mul (int_truediv (Z.of_nat a) (Pos.of_nat t)) (of_Z 100)) 1).
Proof.
  intros Hat Ht.
  apply round1_within, mul_100_within, int_truediv_within; assumption.
Qed.

Lemma within_leb (B x : float) :
  is_finite B = true -> within B x ->
  leb (of_Z 0) x = true /\ leb x B = true.
Proof.
  intros HB [Hf [Hs Hq]]. apply sign_false_nonneg in Hs.
  change (of_Z 0) with (S754_zero false). unfold leb. split.
  - assert (E : F64.compare (S754_zero false) x = Some (0 ?= to_Q x)%Q)
      by (destruct x; simpl in *; try discriminate; reflexivity).
    rewrite E. apply (proj1 (Qle_alt _ _)) in Hs.
    destruct (0 ?= to_Q x)%Q; [reflexivity|reflexivity|congruence].
  - assert (E : F64.compare x B = Some (to_Q x ?= to_Q B)%Q)
      by (destruct x, B; simpl in *; try discriminate; reflexivity).
    rewrite E. apply (proj1 (Qle_alt _ _)) in Hq.
    destruct (to_Q x ?= to_Q B)%Q; [reflexivity|reflexivity|congruence].
Qed.

(** ** Accuracy of the rounded percentage *)

Lemma RN_near (n d mB : positive) (kB : Z) :
  2 <= kB <= 1074 -> Zpos mB < 2 ^ 53 ->
  Zpos n * 2 ^ kB <= Zpos mB * Zpos d ->
  near (1 # (2 ^ Z.to_pos (kB + 1))) (RN false n d) (Zpos n # d).
Proof.
  intros HkB HmB H. unfold near.
  assert (P0 : 0 < 2 ^ kB) by (apply Z.pow_pos_nonneg; lia).
  assert (EE : 2 ^ (kB + 1) = 2 * 2 ^ kB)
    by (rewrite Z.pow_add_r by lia; change (2 ^ 1) with 2; lia).
  destruct (RN_le n d mB kB HkB HmB H)
    as [[-> Hz]|[m [e [-> [He [_ Herr]]]]]].
  - unfold Qle, Qminus, Qplus, Qopp. cbn [to_Q Qnum Qden].
    rewrite !Pos2Z.inj_mul, !pos_pow2 by lia. rewrite EE. nia.
  - rewrite to_Q_finite_neg by lia.
    assert (T0 : 0 < 2 ^ (- e)) by (apply Z.pow_pos_nonneg; lia).
    assert (ET : 2 ^ kB <= 2 ^ (- e)) by (apply Z.pow_le_mono_r; lia).
    unfold Qle, Qminus, Qplus, Qopp. cbn [Qnum Qden].
    rewrite !Pos2Z.inj_mul, !pos_pow2 by lia. rewrite EE.
    set (T := 2 ^ (- e)) in *. set (P := 2 ^ kB) in *.
    set (M := Zpos m) in *. set (N := Zpos n) in *.
    assert (D0 : 0 < Zpos d) by lia. set (D := Zpos d) in *.
    clearbody T P M N D.
    assert (A1 : 2 * (M * D - N * T) <= D) by lia.
    assert (A2 : 2 * (N * T - M * D) <= D) by lia.
    split; nia.
Qed.

Lemma int_truediv_near (a t : nat) :
  (a <= t)%nat -> (0 < t)%nat ->
  near (1 # 9007199254740992) (int_truediv (Z.of_nat a) (Pos.of_nat t))
       (Z.of_nat a # Pos.of_nat t).
Proof.
  intros Hat Ht. unfold int_truediv, of_Q. cbn [Qnum Qden].
  destruct (Z.of_nat a) as [|p|p] eqn:E; [| |lia].
  - unfold near, Qle, Qminus, Qplus, Qopp. cbn. lia.
  - apply (RN_near p (Pos.of_nat t) 4503599627370496 52); [lia|lia|].
    pose proof (Zpos_of_nat t Ht).
    change (2 ^ 52) with 4503599627370496. lia.
Qed.

Lemma mul_100_near (x : float) (q : Q) :
  within one x -> near (1 # 9007199254740992) x q ->
  near (1 # 35184372088832) (mul x (of_Z 100)) (100 * q).
Proof.
  rewrite of_Z_100. intros [Hf [Hs Hq]] [N1 N2].
  destruct x as [s|s| |s m e]; simpl in Hf, Hs; try discriminate; subst s.
  - cbn [mul xorb]. unfold near. cbn [to_Q] in *. split; lra.
  - unfold mul.
    destruct (to_Q_positive m e) as [n [d E]]. rewrite E in *.
    change (to_Q (S754_finite false 7036874417766400 (-46)))
      with (7036874417766400 # 70368744177664).
    cbn [Qmult Qnum Qden Z.mul xorb].
    change (to_Q one) with (4503599627370496 # 4503599627370496) in Hq.
    assert (Hnd : Zpos n <= Zpos d)
      by (unfold Qle in Hq; cbn [Qnum Qden] in Hq; lia).
    assert (Pre : Zpos (n * 7036874417766400) * 2 ^ 46
                  <= 7036874417766400 * Zpos (d * 70368744177664))
      by (change (2 ^ 46) with 70368744177664; rewrite !Pos2Z.inj_mul; lia).
    pose proof (RN_near (n * 7036874417766400) (d * 70368744177664)
                  7036874417766400 46 ltac:(lia) ltac:(lia) Pre) as R.
    change (1 # 2 ^ Z.to_pos (46 + 1)) with (1 # 140737488355328) in R.
    destruct R as [R1 R2].
    assert (P : ((Zpos (n * 7036874417766400) # d * 70368744177664)
                 == 100 * (Zpos n # d))%Q).
    { unfold Qeq, Qmult. cbn [Qnum Qden].
      rewrite !Pos2Z.inj_mul. lia. }
    unfold near. rewrite P in R1, R2. split; lra.
Qed.

Lemma round1_near (x : float) :
  within (of_Z 100) x ->
  near ((1 # 20) + (1 # 140737488355328)) (round_nd x 1) (to_Q x).
Proof.
  intros W. destruct x as [s|s| |s m e];
    try (unfold near; cbn [round_nd to_Q]; split; lra).
  destruct W as [_ [Hs Hq]]. simpl in Hs. subst s.
  rewrite of_Z_100 in *. unfold round_nd.
  destruct (to_Q_positive m e) as [n [d E]]. rewrite E in *.
  change (pow10 1) with 10%positive. cbn [Qnum Qden].
  change (to_Q (S754_finite false 7036874417766400 (-46)))
    with (7036874417766400 # 70368744177664) in Hq.
  unfold Qle in Hq. cbn [Qnum Qden] in Hq.
  assert (K1 : rhe (Zpos n * 10) (Zpos d) <= 1000)
    by (apply rhe_le; lia).
  assert (K0 : 0 <= rhe (Zpos n * 10) (Zpos d))
    by (apply rhe_ge; lia).
  pose proof (rhe_error (Zpos n * 10) (Zpos d) ltac:(lia)) as Herr.
  assert (Hk : forall k, k = rhe (Zpos n * 10) (Zpos d) ->
               ((Zpos n # d) - (1 # 20) <= k # 10
                /\ k # 10 <= (Zpos n # d) + (1 # 20))%Q).
  { intros k ->. unfold Qle, Qminus, Qplus, Qopp. cbn [Qnum Qden].
    rewrite !Pos2Z.inj_mul. lia. }
  unfold of_Q. cbn [Qnum Qden].
  destruct (rhe (Zpos n * 10) (Zpos d)) as [|k|k] eqn:Ek; [| |lia].
  - destruct (Hk 0 eq_refl) as [H1 H2]. unfold near. cbn [to_Q].
    assert (Z0 : (0 # 10 == 0)%Q) by reflexivity.
    rewrite Z0 in H1, H2. split; lra.
  - destruct (Hk (Zpos k) eq_refl) as [H1 H2].
    pose proof (RN_near k 10 7036874417766400 46 ltac:(lia) ltac:(lia))
      as R.
    change (2 ^ 46) with 70368744177664 in R. specialize (R ltac:(lia)).
    change (1 # 2 ^ Z.to_pos (46 + 1)) with (1 # 140737488355328) in R.
    destruct R as [R1 R2]. unfold near. split; lra.
Qed.

(** [round(a / t * 100, 1)] is within 0.05 (and a rounding error below
    [2^-44]) of the exact percentage. *)
Lemma pct_near (a t : nat) :
  (a <= t)%nat -> (0 < t)%nat ->
  near ((1 # 20) + (1 # 17592186044416))
    (round_nd (mul (int_truediv (Z.of_nat a) (Pos.of_nat t)) (of_Z 100)) 1)
    (100 * (Z.of_nat a # Pos.of_nat t)).
Proof.
  intros Hat Ht.
  pose proof (int_truediv_within a t Hat Ht) as W1.
  pose proof (int_truediv_near a t Hat Ht) as N1.
  pose proof (mul_100_within _ W1) as W2.
  pose proof (mul_100_near _ _ W1 N1) as [A1 A2].
  pose proof (round1_near _ W2) as [B1 B2].
  unfold near. split; lra.
Qed.

(** A percentage rounded to one decimal is the float nearest to a whole
    number of tenths. *)
Lemma round1_tenths (x : float) :
  within (of_Z 100) x ->
  exists k, 0 <= k <= 1000 /\ round_nd x 1 = of_Q false (k # 10).
Proof.
  intros [Hf [Hs Hq]].
  destruct x as [s|s| |s m e]; simpl in Hf, Hs; try discriminate; subst s.
  - exists 0. split; [lia|reflexivity].
  - rewrite of_Z_100 in Hq. unfold round_nd.
    destruct (to_Q_positive m e) as [n [d E]]. rewrite E in *.
    change (pow10 1) with 10%positive. cbn [Qnum Qden].
    change (to_Q (S754_finite false 7036874417766400 (-46)))
      with (7036874417766400 # 70368744177664) in Hq.
    unfold Qle in Hq. cbn [Qnum Qden] in Hq.
    exists (rhe (Zpos n * 10) (Zpos d)). split; [|reflexivity].
    split; [apply rhe_ge; lia|apply rhe_le; lia].
Qed.

Lemma pct_tenths (a t : nat) :
  (a <= t)%nat -> (0 < t)%nat ->
  exists k,
    0 <= k <= 1000
    /\ round_nd (mul (int_truediv (Z.of_nat a) (Pos.of_nat t)) (of_Z 100)) 1
       = of_Q false (k # 10).
Proof.
  intros Hat Ht.
  apply round1_tenths, mul_100_within, int_truediv_within; assumption.
Qed.

(** ** Signs, and the standard deviation of equal samples *)

Lemma sign_RN (s : bool) (n d : positive) : sign (RN s n d) = s.
Proof.
  unfold RN.
  destruct (fst (if scaled n d (Z.max (ilog2 n d - 52) emin) =? 2 ^ 53
                 then (2 ^ 52, Z.max (ilog2 n d - 52) emin + 1)
                 else (scaled n d (Z.max (ilog2 n d - 52) emin),
                       Z.max (ilog2 n d - 52) emin)));
    try reflexivity.
  destruct (971 <? _); reflexivity.
Qed.

Lemma sign_of_Q (q : Q) : 0 <= Qnum q -> sign (of_Q false q) = false.
Proof.
  unfold of_Q. destruct (Qnum q); [reflexivity|intros _; apply sign_RN|lia].
Qed.

Lemma to_Q_num_nonneg (x : float) : sign x = false -> 0 <= Qnum (to_Q x).
Proof.
  destruct x as [s|s| |s m e]; simpl; try lia.
  intros ->. destruct (to_Q_positive m e) as [n [d E]].
  unfold to_Q in E. rewrite E. simpl. lia.
Qed.

Lemma sign_add (x y : float) :
  sign x = false -> sign y = false -> sign (add x y) = false.
Proof.
  intros Hx Hy.
  pose proof (to_Q_num_nonneg x Hx) as Nx.
  pose proof (to_Q_num_nonneg y Hy) as Ny.
  assert (G : sign (of_Q false (to_Q x + to_Q y)) = false).
  { apply sign_of_Q. unfold Qplus. cbn [Qnum]. nia. }
  destruct x as [s1|s1| |s1 m1 e1], y as [s2|s2| |s2 m2 e2];
    simpl in Hx, Hy; subst; try reflexivity; exact G.
Qed.

Lemma sign_sum_from (l : list float) (acc : float) :
  sign acc = false -> Forall (fun x => sign x = false) l ->
  sign (fold_left add l acc) = false.
Proof.
  revert acc. induction l as [|x l IH]; intros acc Ha Hl; simpl;
    [exact Ha|].
  inversion Hl; subst. apply IH; [apply sign_add; assumption|assumption].
Qed.

Lemma sign_sum (l : list float) :
  Forall (fun x => sign x = false) l -> sign (sum l) = false.
Proof. apply sign_sum_from. reflexivity. Qed.

Lemma sign_square (x r : float) : pow2 x = Ok r -> sign r = false.
Proof.
  unfold pow2. destruct x as [s|s| |s m e].
  - cbn. intros H; inversion H; subst. destruct s; reflexivity.
  - cbn. intros H; inversion H; subst. destruct s; reflexivity.
  - cbn. intros H; inversion H; subst. reflexivity.
  - unfold mul.
    destruct (to_Q (S754_finite false m e) * to_Q (S754_finite false m e))%Q
      as [[|n|n] d].
    + intros H; inversion H; subst. reflexivity.
    + pose proof (sign_RN (xorb s s) n d) as S.
      rewrite xorb_nilpotent in *.
      destruct (RN false n d); try discriminate;
        intros H; inversion H; subst; exact S.
    + intros H; inversion H; subst. reflexivity.
Qed.

Lemma sign_squared_deviations (avg : float) (nums sqs : list float) :
  squared_deviations avg nums = Ok sqs ->
  Forall (fun x => sign x = false) sqs.
Proof.
  revert sqs. induction nums as [|x nums IH]; intros sqs; simpl.
  - intros H; inversion H; subst; clear H. constructor.
  - destruct (pow2 (sub x avg)) as [sq|] eqn:P; simpl; [|discriminate].
    destruct (squared_deviations avg nums) as [r|]; simpl; [|discriminate].
    intros H; inversion H; subst; clear H.
    constructor; [|apply IH; reflexivity].
    apply (sign_square _ _ P).
Qed.

Lemma sign_float_of_nat (n : nat) : sign (float_of_nat n) = false.
Proof.
  unfold float_of_nat, of_Z. apply sign_of_Q. simpl. lia.
Qed.

Lemma sign_div (x y : float) :
  sign x = false -> sign y = false -> sign (div x y) = false.
Proof.
  intros Hx Hy.
  destruct x as [s1|s1| |s1 m1 e1], y as [s2|s2| |s2 m2 e2];
    simpl in Hx, Hy; subst; try reflexivity.
  unfold div.
  destruct (to_Q (S754_finite false m1 e1) / to_Q (S754_finite false m2 e2))%Q
    as [[|n|n] d]; try reflexivity.
  apply sign_RN.
Qed.

Lemma sign_pow_half (x : float) : sign x = false -> sign (pow_half x) = false.
Proof.
  destruct x as [s|s| |s m e]; simpl; try reflexivity.
  intros ->. apply sign_of_Q.
  set (e' := if Z.even e then e - 120 else e - 121).
  set (M := Zpos m * 2 ^ (e - e')).
  pose proof (Z.sqrt_nonneg M) as S.
  assert (T : 0 <= 2 * Z.sqrt M + (if Z.sqrt M * Z.sqrt M =? M then 0 else 1))
    by (destruct (Z.sqrt M * Z.sqrt M =? M); lia).
  destruct (0 <=? e' / 2 - 1) eqn:H; simpl; [|exact T].
  apply Z.mul_nonneg_nonneg; [exact T|]. apply Z.pow_nonneg. lia.
Qed.

Lemma sign_round_nd (x : float) (nd : nat) :
  sign x = false -> sign (round_nd x nd) = false.
Proof.
  destruct x as [s|s| |s m e]; simpl; try (intros; assumption).
  intros ->. destruct (to_Q_positive m e) as [n [d E]].
  unfold to_Q in E. rewrite E. cbn [Qnum Qden].
  apply sign_of_Q. cbn [Qnum]. apply rhe_ge; lia.
Qed.

(** A float without the sign bit is not below zero. *)
Lemma not_negative (x : float) : sign x = false -> ltb x (of_Z 0) = false.
Proof.
  intros H. pose proof (sign_false_nonneg x H) as N.
  change (of_Z 0) with (S754_zero false). unfold ltb.
  destruct x as [s|s| |s m e]; simpl in H; subst; try reflexivity.
  cbn [F64.compare].
  destruct (to_Q (S754_finite false m e) ?= to_Q (S754_zero false))%Q eqn:C;
    try reflexivity.
  apply (proj2 (Qlt_alt _ _)) in C. exfalso. apply (Qlt_not_le _ _ C N).
Qed.

Lemma to_Q_neg (y : float) :
  Qnum (to_Q (neg y)) = - Qnum (to_Q y)
  /\ Qden (to_Q (neg y)) = Qden (to_Q y).
Proof.
  destruct y as [s|s| |s m e]; try (split; reflexivity).
  unfold neg, to_Q. destruct (0 <=? e); destruct s; cbn [negb Qnum Qden inject_Z];
    split; try reflexivity;
    rewrite <- ?Pos2Z.opp_pos, ?Z.mul_opp_l, ?Z.opp_involutive; reflexivity.
Qed.

Lemma sub_eq_is_zero (x avg : float) :
  is_finite x = true -> eqb avg x = true ->
  exists s, sub x avg = S754_zero s.
Proof.
  intros Hx He. unfold eqb in He.
  destruct (F64.compare avg x) as [[| |]|] eqn:C; try discriminate.
  clear He.
  assert (G : of_Q false (to_Q x + to_Q (neg avg)) = S754_zero false).
  { assert (E : (to_Q avg ?= to_Q x)%Q = Eq)
      by (destruct avg, x; simpl in *; try destruct s; try destruct s0;
          congruence).
    apply Qeq_alt in E. unfold Qeq in E.
    destruct (to_Q_neg avg) as [N D].
    unfold of_Q, Qplus. cbn [Qnum]. rewrite N, D.
    replace (Qnum (to_Q x) * QDen (to_Q avg)
             + - Qnum (to_Q avg) * QDen (to_Q x)) with 0 by lia.
    reflexivity. }
  unfold sub.
  destruct x as [s1|s1| |s1 m1 e1], avg as [s2|s2| |s2 m2 e2];
    simpl in Hx; try discriminate;
    try (destruct s2; discriminate);
    try (eexists; exact G).
  eexists. reflexivity.
Qed.

Lemma square_dev_zero (x avg : float) :
  is_finite x = true -> eqb avg x = true ->
  pow2 (sub x avg) = Ok (S754_zero false).
Proof.
  intros Hx He. destruct (sub_eq_is_zero x avg Hx He) as [s ->].
  cbn. rewrite xorb_nilpotent. reflexivity.
Qed.

Lemma squared_deviations_equal (x avg : float) (nums : list float) :
  is_finite x = true -> eqb avg x = true ->
  (forall y, In y nums -> y = x) ->
  squared_deviations avg nums
  = Ok (repeat (S754_zero false) (List.length nums)).
Proof.
  intros Hx He. induction nums as [|y nums IH]; intros Hall; simpl;
    [reflexivity|].
  rewrite (Hall y) by (left; reflexivity).
  rewrite (square_dev_zero x avg Hx He). simpl.
  rewrite IH by (intros z Hz; apply Hall; right; exact Hz). reflexivity.
Qed.

Lemma sum_zeros (n : nat) :
  sum (repeat (S754_zero false) n) = S754_zero false.
Proof.
  unfold sum. induction n as [|n IH]; simpl; [reflexivity|exact IH].
Qed.

(** [float(n)] for a positive int is a positive number or infinity. *)
Lemma RN_positive (n : positive) :
  (exists m e, RN false n 1 = S754_finite false m e)
  \/ RN false n 1 = S754_infinity false.
Proof.
  unfold RN. set (e := Z.max (ilog2 n 1 - 52) emin).
  assert (Hm : 1 <= scaled n 1 e).
  { unfold scaled. destruct (0 <=? e) eqn:E.
    - apply Z.leb_le in E. apply rhe_ge.
      + apply Z.mul_pos_pos; [lia|apply Z.pow_pos_nonneg; lia].
      + destruct (ilog2_lower n 1) as [L _].
        assert (Hl : 0 <= ilog2 n 1) by (unfold e, emin in E; lia).
        specialize (L Hl).
        assert (2 ^ e <= 2 ^ ilog2 n 1)
          by (apply Z.pow_le_mono_r; unfold e, emin in *; lia).
        lia.
    - apply Z.leb_gt in E. apply rhe_ge; [lia|].
      assert (0 < 2 ^ (- e)) by (apply Z.pow_pos_nonneg; lia). nia. }
  destruct (scaled n 1 e =? 2 ^ 53).
  - change (fst (2 ^ 52, e + 1)) with 4503599627370496.
    cbn [snd]. destruct (971 <? e + 1); [right; reflexivity|].
    left. eexists. eexists. reflexivity.
  - cbn [fst snd]. destruct (scaled n 1 e) as [|p|p]; try lia.
    destruct (971 <? e); [right; reflexivity|].
    left. eexists. eexists. reflexivity.
Qed.

Lemma zero_div_count (n : nat) :
  (0 < n)%nat -> div (S754_zero false) (float_of_nat n) = S754_zero false.
Proof.
  intros Hn. unfold float_of_nat, of_Z, of_Q. cbn [Qnum Qden inject_Z].
  destruct (Z.of_nat n) as [|p|p] eqn:E; try lia.
  destruct (RN_positive p) as [[m [e ->]]| ->]; reflexivity.
Qed.

(** Equal finite samples whose computed mean compares equal to them have
    a standard deviation of exactly zero. *)
Lemma std_dev_equal_samples (x : float) (nums : list float) :
  nums <> [] -> is_finite x = true ->
  (forall y, In y nums -> y = x) ->
  eqb (mean nums) x = true ->
  population_std_dev nums = Ok (S754_zero false).
Proof.
  intros Hne Hx Hall He. unfold population_std_dev.
  rewrite (squared_deviations_equal x (mean nums) nums Hx He Hall). simpl.
  rewrite sum_zeros, zero_div_count; [reflexivity|].
  destruct nums; [contradiction|simpl; lia].
Qed.

Lemma std_dev_not_negative (nums : list float) (sd : float) :
  population_std_dev nums = Ok sd -> ltb (round_nd sd 1) (of_Z 0) = false.
Proof.
  unfold population_std_dev.
  destruct (squared_deviations (mean nums) nums) as [sqs|] eqn:S; simpl;
    [|discriminate].
  intros H; inversion H; subst; clear H.
  apply not_negative, sign_round_nd, sign_pow_half, sign_div;
    [|apply sign_float_of_nat].
  apply sign_sum, (sign_squared_deviations _ _ _ S).
Qed.

Local Open Scope string_scope.

(** ** The heart-rate scenario *)

Lemma to_Q_of_Z_100 : (to_Q (of_Z 100) == 100)%Q.
Proof. vm_compute. reflexivity. Qed.

Lemma to_Q_of_Z_120 : (to_Q (of_Z 120) == 120)%Q.
Proof. vm_compute. reflexivity. Qed.

Lemma to_Q_of_Z_140 : (to_Q (of_Z 140) == 140)%Q.
Proof. vm_compute. reflexivity. Qed.

Lemma to_Q_of_Z_160 : (to_Q (of_Z 160) == 160)%Q.
Proof. vm_compute. reflexivity. Qed.

(** On finite floats [ltb] is the strict order of the exact values. *)
Lemma ltb_finite (x y : float) :
  is_finite x = true -> is_finite y = true ->
  ltb x y = true <-> (to_Q x < to_Q y)%Q.
Proof.
  intros Hx Hy. unfold ltb.
  assert (E : F64.compare x y = Some (to_Q x ?= to_Q y)%Q)
    by (destruct x, y; simpl in *; try discriminate; reflexivity).
  rewrite E, Qlt_alt.
  destruct (to_Q x ?= to_Q y)%Q; split; congruence.
Qed.

Lemma ltb_finite_false (x y : float) :
  is_finite x = true -> is_finite y = true ->
  ltb x y = false <-> (to_Q y <= to_Q x)%Q.
Proof.
  intros Hx Hy. pose proof (ltb_finite x y Hx Hy) as H.
  destruct (ltb x y).
  - split; [discriminate|]. intros Hle. apply Qle_not_lt in Hle.
    exfalso. apply Hle, H. reflexivity.
  - split; [|reflexivity]. intros _. apply Qnot_lt_le. intros Hlt.
    apply H in Hlt. discriminate.
Qed.

Lemma Qle_bool_false (a b : Q) : (b < a)%Q -> Qle_bool a b = false.
Proof.
  intros H. destruct (Qle_bool a b) eqn:E; [|reflexivity].
  apply Qle_bool_iff in E. exfalso. apply (Qlt_not_le _ _ H E).
Qed.

(** Decide one threshold test of [zone_step] and carry the resulting
    bound on the exact reading. *)
Ltac threshold hr n Hfin E :=
  destruct (ltb hr (of_Z n)) eqn:E;
  [apply (proj1 (ltb_finite hr (of_Z n) Hfin eq_refl)) in E
  |apply (proj1 (ltb_finite_false hr (of_Z n) Hfin eq_refl)) in E].

Ltac zone_bounds :=
  repeat match goal with
         | |- context [Qle_bool ?a ?b] =>
             first [rewrite (Qle_bool_false a b) by lra
                   |rewrite (proj2 (Qle_bool_iff a b)) by lra]
         end.

(** The code's cascade of [<] tests puts a finite reading in the zone the
    specification's intervals give it. *)
Lemma zone_step_spec (z : zones) (hr : float) :
  is_finite hr = true -> zone_step z hr = bump (zone_of (to_Q hr)) z.
Proof.
  intros Hfin. unfold zone_step, zone_of.
  pose proof to_Q_of_Z_100 as Q100. pose proof to_Q_of_Z_120 as Q120.
  pose proof to_Q_of_Z_140 as Q140. pose proof to_Q_of_Z_160 as Q160.
  threshold hr 100 Hfin E1; [zone_bounds; reflexivity|].
  threshold hr 120 Hfin E2; [zone_bounds; reflexivity|].
  threshold hr 140 Hfin E3; [zone_bounds; reflexivity|].
  threshold hr 160 Hfin E4; zone_bounds; reflexivity.
Qed.

Lemma zone_step_total (z : zones) (hr : float) :
  zones_total (zone_step z hr) = S (zones_total z).
Proof.
  unfold zone_step, zones_total.
  destruct (ltb hr (of_Z 100)); [simpl; lia|].
  destruct (ltb hr (of_Z 120)); [simpl; lia|].
  destruct (ltb hr (of_Z 140)); [simpl; lia|].
  destruct (ltb hr (of_Z 160)); simpl; lia.
Qed.

Lemma fold_zone_step_total (nums : list float) (z : zones) :
  zones_total (fold_left zone_step nums z)
  = (zones_total z + List.length nums)%nat.
Proof.
  revert z. induction nums as [|x nums IH]; intros z; simpl; [lia|].
  rewrite IH, zone_step_total. lia.
Qed.

(** The five zone counts add up to the number of readings. *)
Lemma count_zones_total (nums : list float) :
  zones_total (count_zones nums) = List.length nums.
Proof. unfold count_zones. rewrite fold_zone_step_total. reflexivity. Qed.

Lemma zone_pct_total (total v : nat) :
  (v <= total)%nat -> (0 < total)%nat -> exists p, zone_pct total v = Ok p.
Proof.
  intros Hv Ht. unfold zone_pct.
  destruct (mul_100_within _ (int_truediv_within v total Hv Ht))
    as [Hf _].
  destruct (mul _ _); try discriminate; eexists; reflexivity.
Qed.

(** [compute_hr_zones] never raises. *)
Lemma compute_hr_zones_total (values : list sample) :
  exists r, compute_hr_zones values = Ok r.
Proof.
  unfold compute_hr_zones.
  destruct (numbers values) as [|x nums] eqn:E; [eexists; reflexivity|].
  set (l := x :: nums). set (z := count_zones l).
  pose proof (count_zones_total l) as T. fold z in T.
  unfold zones_total in T.
  assert (Hl : (0 < List.length l)%nat) by (simpl; lia).
  unfold zones_items, zone_pcts.
  destruct (zone_pct_total (List.length l) (rest z)) as [p1 ->]; [lia|lia|].
  destruct (zone_pct_total (List.length l) (light z)) as [p2 ->]; [lia|lia|].
  destruct (zone_pct_total (List.length l) (moderate z)) as [p3 ->];
    [lia|lia|].
  destruct (zone_pct_total (List.length l) (hard z)) as [p4 ->]; [lia|lia|].
  destruct (zone_pct_total (List.length l) (max z)) as [p5 ->]; [lia|lia|].
  eexists. reflexivity.
Qed.

(** C1 (as amended): for the input ["65\n72\n145\n"] under ["heartrate"]
    the summary has avg 94.0, min 65, max 145, count 3, and [hr_zones] with
    counts rest 2, light 0, moderate 0, hard 1, max 0 (65 and 72 are both
    below 100), training_load 1 and high_intensity 1; and every finite
    reading is counted in the zone given by the boundaries rest [<100],
    light [[100,120)], moderate [[120,140)], hard [[140,160)],
    max [[160,oo)]. *)
Theorem C1_heartrate_scenario (z : zones) (hr : float)
  (Hfin : is_finite hr = true) :
  compute_stats (parse_values hr_input) "heartrate"
  = Ok (VDict
          [("avg", VFloat (of_Z 94)); ("min", VFloat (of_Z 65));
           ("max", VFloat (of_Z 145)); ("count", VInt 3);
           ("hr_zones",
            VDict
              [("zones",
                VDict [("rest", VInt 2); ("light", VInt 0);
                       ("moderate", VInt 0); ("hard", VInt 1);
                       ("max", VInt 0)]);
               ("zone_pct",
                VDict [("rest", VInt 67); ("light", VInt 0);
                       ("moderate", VInt 0); ("hard", VInt 33);
                       ("max", VInt 0)]);
               ("training_load", VInt 1); ("high_intensity", VInt 1)])])
  /\ zone_step z hr = bump (zone_of (to_Q hr)) z.
Proof.
  split.
  - vm_compute. reflexivity.
  - apply zone_step_spec, Hfin.
Qed.

Lemma C1_heartrate_scenario_witness :
  is_finite (of_Z 72) = true
  /\ zone_step (mk_zones 1 0 0 0 0) (of_Z 72) = mk_zones 2 0 0 0 0.
Proof.
  split; [reflexivity|].
  exact (proj2 (C1_heartrate_scenario (mk_zones 1 0 0 0 0) (of_Z 72)
                  eq_refl)).
Defined.

(** C1 as stated fails: the scenario's zone counts are not
    rest 1, light 0, moderate 0, hard 1, max 0. *)
Lemma C1_counterexample :
  ~ (exists r,
        compute_stats (parse_values hr_input) "heartrate" = Ok r
        /\ path ["hr_zones"; "zones"] r
           = Some (VDict [("rest", VInt 1); ("light", VInt 0);
                          ("moderate", VInt 0); ("hard", VInt 1);
                          ("max", VInt 0)])).
Proof.
  intros [r [Hr Hz]]. vm_compute in Hr. injection Hr as <-.
  vm_compute in Hz. discriminate Hz.
Qed.

(** ** The generic summary without numbers *)

Lemma numbers_map_Text (l : list string) : numbers (map Text l) = [].
Proof. induction l as [|s l IH]; simpl; [reflexivity|exact IH]. Qed.

(** C8: on the generic path, a sample list without numeric samples gives
    the one-field summary whose count is the number of all the samples;
    [k] text samples give count [k]. *)
Theorem C8_generic_count_all_samples (values : list sample) (key : string)
  (Hsleep : strip (lower key) <> "sleep")
  (Hglucose : strip (lower key) <> "bloodglucose")
  (Hnone : numbers values = []) :
  compute_stats values key
  = Ok (VDict [("count", VInt (Z.of_nat (List.length values)))])
  /\ forall texts : list string,
      compute_stats (map Text texts) key
      = Ok (VDict [("count", VInt (Z.of_nat (List.length texts)))]).
Proof.
  assert (G : forall vs, numbers vs = [] ->
              compute_stats vs key
              = Ok (VDict [("count", VInt (Z.of_nat (List.length vs)))])).
  { intros vs Hvs. unfold compute_stats.
    destruct (String.eqb_spec (strip (lower key)) "sleep") as [E|_];
      [contradiction|].
    destruct (String.eqb_spec (strip (lower key)) "bloodglucose") as [E|_];
      [contradiction|].
    rewrite Hvs. reflexivity. }
  split.
  - apply G, Hnone.
  - intros texts. rewrite G by apply numbers_map_Text.
    rewrite length_map. reflexivity.
Qed.

Lemma C8_generic_count_all_samples_witness :
  compute_stats [Text "abc"; Text "def"] "steps"
  = Ok (VDict [("count", VInt 2)]).
Proof.
  refine (proj1 (C8_generic_count_all_samples
                   [Text "abc"; Text "def"] "steps" _ _ _)).
  - vm_compute. discriminate.
  - vm_compute. discriminate.
  - reflexivity.
Defined.

(** ** Ingestion and the prior record *)

Lemma do_POST_authorized (API_KEY : string) (auth : option string)
  (form_data : form) (t1 t2 : instant) (st : store) :
  Ingest.check_auth API_KEY auth = true ->
  do_POST API_KEY auth form_data t1 t2 st
  = match (health_data <- load_existing (get st (redis_key_at t1)) ;;
           merge form_data t2 health_data) with
    | Raise e => (st, Raise e)
    | Ok health_data =>
        (set st (redis_key_at t1) (json_dumps health_data),
         Ok (mk_response 200
               (VDict [("ok", VBool true);
                       ("date", VStr (date_key_at t1));
                       ("keys", VList (map (fun kv => VStr (fst kv))
                                           form_data))])))
    end.
Proof. intros H. unfold do_POST. rewrite H. reflexivity. Qed.

Lemma do_POST_unauthorized (API_KEY : string) (auth : option string)
  (form_data : form) (t1 t2 : instant) (st : store) :
  Ingest.check_auth API_KEY auth = false ->
  fst (do_POST API_KEY auth form_data t1 t2 st) = st.
Proof. intros H. unfold do_POST. rewrite H. reflexivity. Qed.

(** C2 (as amended): for an authorised request, with no value, or an empty
    text, under the date key the ingest merges into an empty record; with
    a non-empty text that is not a JSON document the request fails with a
    decode error and the store is untouched; and for every request the
    store afterwards is either unchanged or holds the whole merged
    document under the date key. *)
Theorem C2_prior_record_and_atomic_store (API_KEY : string)
  (auth : option string) (form_data : form) (t1 t2 : instant) (st : store) :
  (Ingest.check_auth API_KEY auth = true ->
   get st (redis_key_at t1) = None
   \/ get st (redis_key_at t1) = Some (Malformed "") ->
   forall doc, merge form_data t2 (VDict []) = Ok doc ->
     get (fst (do_POST API_KEY auth form_data t1 t2 st)) (redis_key_at t1)
     = Some (json_dumps doc))
  /\ (Ingest.check_auth API_KEY auth = true ->
      forall s, s <> "" ->
      get st (redis_key_at t1) = Some (Malformed s) ->
      do_POST API_KEY auth form_data t1 t2 st = (st, Raise JSONDecodeError))
  /\ (fst (do_POST API_KEY auth form_data t1 t2 st) = st
      \/ exists prior doc,
          load_existing (get st (redis_key_at t1)) = Ok prior
          /\ merge form_data t2 prior = Ok doc
          /\ fst (do_POST API_KEY auth form_data t1 t2 st)
             = set st (redis_key_at t1) (json_dumps doc)).
Proof.
  destruct (Ingest.check_auth API_KEY auth) eqn:Hauth.
  2:{ split; [discriminate|]. split; [discriminate|].
      left. apply do_POST_unauthorized, Hauth. }
  rewrite (do_POST_authorized _ _ _ _ _ _ Hauth).
  split; [|split].
  - intros _ Hprior doc Hdoc.
    assert (L : load_existing (get st (redis_key_at t1)) = Ok (VDict []))
      by (destruct Hprior as [-> | ->]; reflexivity).
    rewrite L. simpl. rewrite Hdoc. simpl. unfold get, set.
    rewrite String.eqb_refl. reflexivity.
  - intros _ s Hs Hget. rewrite Hget. simpl.
    destruct s; [contradiction|reflexivity].
  - destruct (load_existing (get st (redis_key_at t1))) as [prior|e] eqn:L;
      simpl; [|left; reflexivity].
    destruct (merge form_data t2 prior) as [doc|e] eqn:M;
      simpl; [|left; reflexivity].
    right. exists prior, doc. auto.
Qed.

Lemma C2_prior_record_and_atomic_store_witness :
  get (fst (do_POST "" None [("steps", ["100"])]
              1704164400000000 1704164400000001 Store.empty))
      "health:2024-01-01"
  = Some (json_dumps
            (VDict [("steps",
                     VDict [("avg", VFloat (of_Z 100));
                            ("min", VFloat (of_Z 100));
                            ("max", VFloat (of_Z 100));
                            ("count", VInt 1)]);
                    ("_updated", VStr "2024-01-01T19:00:00.000001-08:00")])).
Proof.
  refine (proj1 (C2_prior_record_and_atomic_store "" None
                   [("steps", ["100"])] 1704164400000000 1704164400000001
                   Store.empty) _ _ _ _).
  - reflexivity.
  - left. reflexivity.
  - vm_compute. reflexivity.
Defined.

(** C2 as stated fails: a stored text that is not a JSON document makes
    the ingest fail, whereas without a prior record the same request is
    answered with status 200. *)
Lemma C2_counterexample :
  let t := 1704164400000000 in
  let form_data := [("steps", ["100"])] in
  let st := set Store.empty (redis_key_at t) (Malformed "{oops") in
  snd (do_POST "" None form_data t t st) = Raise JSONDecodeError
  /\ (exists r, snd (do_POST "" None form_data t t Store.empty) = Ok r
                /\ status r = 200).
Proof.
  cbv zeta. split.
  - vm_compute. reflexivity.
  - eexists. split; [vm_compute; reflexivity|reflexivity].
Qed.

(** ** The merge step *)

Lemma dict_get_set_same {A} (k : string) (v : A) (d : list (string * A)) :
  dict_get k (dict_set k v d) = Some v.
Proof.
  induction d as [|[k' v'] d IH]; simpl.
  - rewrite String.eqb_refl. reflexivity.
  - destruct (String.eqb k k') eqn:E; simpl; rewrite ?String.eqb_refl, ?E;
      [reflexivity|exact IH].
Qed.

Lemma dict_get_set_other {A} (k k' : string) (v : A)
  (d : list (string * A)) :
  k <> k' -> dict_get k (dict_set k' v d) = dict_get k d.
Proof.
  intros Hne. induction d as [|[k0 v0] d IH]; simpl.
  - destruct (String.eqb_spec k k'); [contradiction|reflexivity].
  - destruct (String.eqb_spec k' k0) as [->|Hk]; simpl.
    + destruct (String.eqb_spec k k0); [contradiction|reflexivity].
    + destruct (String.eqb_spec k k0); [reflexivity|exact IH].
Qed.

(** After a sequence of assignments a key holds the value last assigned
    to it, or what it held before. *)
Lemma dict_get_apply_writes (k : string) (ws : writes) (d : dict) :
  dict_get k (apply_writes ws d)
  = match last_write k ws with
    | Some v => Some v
    | None => dict_get k d
    end.
Proof.
  revert d. induction ws as [|[k' v] ws IH]; intros d; simpl.
  - reflexivity.
  - unfold apply_writes in *. simpl. rewrite IH.
    destruct (last_write k ws); [reflexivity|].
    destruct (String.eqb_spec k k') as [->|Hne].
    + apply dict_get_set_same.
    + apply dict_get_set_other, Hne.
Qed.

Lemma last_write_app (k : string) (ws1 ws2 : writes) :
  last_write k (ws1 ++ ws2)%list
  = match last_write k ws2 with
    | Some v => Some v
    | None => last_write k ws1
    end.
Proof.
  induction ws1 as [|[k' v] ws1 IH]; simpl.
  - destruct (last_write k ws2); reflexivity.
  - rewrite IH. destruct (last_write k ws2); reflexivity.
Qed.

Lemma last_write_absent (k : string) (ws : writes) :
  ~ In k (map fst ws) -> last_write k ws = None.
Proof.
  induction ws as [|[k' v] ws IH]; simpl; intros H; [reflexivity|].
  rewrite IH by tauto.
  destruct (String.eqb_spec k k'); [|reflexivity].
  exfalso. apply H. left. congruence.
Qed.

Lemma apply_writes_app (ws1 ws2 : writes) (d : dict) :
  apply_writes (ws1 ++ ws2)%list d = apply_writes ws2 (apply_writes ws1 d).
Proof. unfold apply_writes. apply fold_left_app. Qed.

Lemma process_metrics_writes (items : form) (d : dict) :
  process_metrics items (VDict d)
  = (ws <- metric_writes items ;; Ok (VDict (apply_writes ws d))).
Proof.
  revert d. induction items as [|[key values] items IH]; intros d; simpl.
  - reflexivity.
  - destruct (is_bp_field key); [apply IH|].
    destruct (compute_stats (parse_values (first_value values)) key)
      as [stats|e]; simpl; [|reflexivity].
    rewrite IH. destruct (metric_writes items); reflexivity.
Qed.

Lemma process_blood_pressure_writes (form_data : form) (d : dict) :
  process_blood_pressure form_data (VDict d)
  = Ok (VDict (apply_writes (bp_writes form_data) d)).
Proof.
  unfold process_blood_pressure, bp_writes.
  destruct (find_bp_keys form_data) as [[sk|] [dk|]]; reflexivity.
Qed.

(** On a dict the merge step is its sequence of assignments. *)
Lemma merge_writes (form_data : form) (t : instant) (d : dict) :
  merge form_data t (VDict d)
  = (ws <- metric_writes form_data ;;
     Ok (VDict (apply_writes
                  (bp_writes form_data ++ ws ++ [stamp t])%list d))).
Proof.
  unfold merge. rewrite process_blood_pressure_writes. simpl.
  rewrite process_metrics_writes.
  destruct (metric_writes form_data) as [ws|e]; simpl; [|reflexivity].
  rewrite !apply_writes_app. reflexivity.
Qed.

(** Replaying a sequence of assignments that ends with the stamp leaves
    every key but the stamp as it was. *)
Lemma replay_same_record (w : writes) (t1 t2 : instant) (d : dict) :
  same_record
    (apply_writes (w ++ [stamp t2])%list
       (apply_writes (w ++ [stamp t1])%list d))
    (apply_writes (w ++ [stamp t1])%list d).
Proof.
  intros k Hk. rewrite !dict_get_apply_writes, !last_write_app. simpl.
  destruct (String.eqb_spec k "_updated"); [contradiction|].
  destruct (last_write k w); reflexivity.
Qed.

(** C9: merging the same submission a second time, into the result of the
    first merge, gives the record of the first merge; only the update
    stamp can differ. *)
Theorem C9_sequential_merge_idempotent (form_data : form)
  (t1 t2 : instant) (prior : dict) (once : value)
  (Honce : merge form_data t1 (VDict prior) = Ok once) :
  exists d1 d2,
    once = VDict d1
    /\ merge form_data t2 once = Ok (VDict d2)
    /\ same_record d2 d1.
Proof.
  rewrite merge_writes in Honce.
  destruct (metric_writes form_data) as [ws|e] eqn:W; simpl in Honce;
    [|discriminate].
  injection Honce as <-.
  eexists. eexists. split; [reflexivity|].
  rewrite merge_writes, W. simpl. split; [reflexivity|].
  rewrite !app_assoc. apply replay_same_record.
Qed.

Lemma C9_sequential_merge_idempotent_witness :
  exists d1 d2,
    VDict [("steps",
            VDict [("avg", VFloat (of_Z 100)); ("min", VFloat (of_Z 100));
                   ("max", VFloat (of_Z 100)); ("count", VInt 1)]);
           ("_updated", VStr "2024-01-01T19:00:00-08:00")] = VDict d1
    /\ merge [("steps", ["100"])] 1704168000000000
         (VDict [("steps",
                  VDict [("avg", VFloat (of_Z 100));
                         ("min", VFloat (of_Z 100));
                         ("max", VFloat (of_Z 100)); ("count", VInt 1)]);
                 ("_updated", VStr "2024-01-01T19:00:00-08:00")])
       = Ok (VDict d2)
    /\ same_record d2 d1.
Proof.
  apply (C9_sequential_merge_idempotent [("steps", ["100"])]
           1704164400000000 1704168000000000 []).
  vm_compute. reflexivity.
Defined.

(** Two ingests of the same submission on the same day leave the record
    of the first; only the update stamp can differ. *)
Lemma do_POST_twice (API_KEY : string) (auth : option string)
  (form_data : form) (t1 t2 t3 t4 : instant) (st : store)
  (prior : dict) (once : value) :
  Ingest.check_auth API_KEY auth = true ->
  redis_key_at t3 = redis_key_at t1 ->
  load_existing (get st (redis_key_at t1)) = Ok (VDict prior) ->
  merge form_data t2 (VDict prior) = Ok once ->
  let st1 := fst (do_POST API_KEY auth form_data t1 t2 st) in
  let st2 := fst (do_POST API_KEY auth form_data t3 t4 st1) in
  exists d1 d2,
    get st1 (redis_key_at t1) = Some (json_dumps (VDict d1))
    /\ get st2 (redis_key_at t1) = Some (json_dumps (VDict d2))
    /\ same_record d2 d1.
Proof.
  intros Hauth Hkey Hload Honce st1 st2. subst st2 st1.
  rewrite (do_POST_authorized _ _ _ t1 t2 st Hauth), Hload. simpl.
  rewrite Honce. simpl.
  rewrite merge_writes in Honce.
  destruct (metric_writes form_data) as [ws|e] eqn:W; simpl in Honce;
    [|discriminate].
  inversion Honce; subst; clear Honce.
  set (d1 := apply_writes (bp_writes form_data ++ ws ++ [stamp t2])%list
               prior).
  rewrite (do_POST_authorized _ _ _ t3 t4 _ Hauth), Hkey.
  assert (G : get (set st (redis_key_at t1) (json_dumps (VDict d1)))
                (redis_key_at t1) = Some (json_dumps (VDict d1)))
    by (unfold get, set; rewrite String.eqb_refl; reflexivity).
  rewrite G. simpl. rewrite merge_writes, W. simpl.
  exists d1. eexists. split; [reflexivity|]. split.
  - unfold get, set. rewrite String.eqb_refl. reflexivity.
  - unfold d1. rewrite !app_assoc. apply replay_same_record.
Qed.

(** ** A blood-pressure field without its partner *)

Lemma find_bp_keys_fst (form_data : form)
  (acc : option string * option string) :
  has_systolic form_data = false ->
  fst (fold_left
         (fun (acc : option string * option string)
              (kv : string * list string) =>
            let key_lower := lower (fst kv) in
            if contains "bloodpressuresystolic" key_lower
            then (Some (fst kv), snd acc)
            else if contains "bloodpressurediastolic" key_lower
                 then (fst acc, Some (fst kv))
                 else acc)
         form_data acc) = fst acc.
Proof.
  unfold has_systolic. revert acc.
  induction form_data as [|kv l IH]; intros acc H; simpl in *;
    [reflexivity|].
  apply orb_false_elim in H as [H1 H2]. rewrite IH by exact H2.
  rewrite H1. destruct (contains "bloodpressurediastolic" (lower (fst kv)));
    reflexivity.
Qed.

Lemma find_bp_keys_snd (form_data : form)
  (acc : option string * option string) :
  has_diastolic form_data = false ->
  snd (fold_left
         (fun (acc : option string * option string)
              (kv : string * list string) =>
            let key_lower := lower (fst kv) in
            if contains "bloodpressuresystolic" key_lower
            then (Some (fst kv), snd acc)
            else if contains "bloodpressurediastolic" key_lower
                 then (fst acc, Some (fst kv))
                 else acc)
         form_data acc) = snd acc.
Proof.
  unfold has_diastolic. revert acc.
  induction form_data as [|kv l IH]; intros acc H; simpl in *;
    [reflexivity|].
  apply orb_false_elim in H as [H1 H2]. rewrite IH by exact H2.
  rewrite H1. destruct (contains "bloodpressuresystolic" (lower (fst kv)));
    reflexivity.
Qed.

(** Without a field on one of the two sides nothing is assigned to
    ["bloodpressure"] by the paired step. *)
Lemma bp_writes_unpaired (form_data : form) :
  has_systolic form_data = false \/ has_diastolic form_data = false ->
  bp_writes form_data = [].
Proof.
  intros [H|H]; unfold bp_writes.
  - pose proof (find_bp_keys_fst form_data (None, None) H) as E.
    change (fst (find_bp_keys form_data) = None) in E.
    destruct (find_bp_keys form_data) as [[sk|] dk]; simpl in E;
      [discriminate|reflexivity].
  - pose proof (find_bp_keys_snd form_data (None, None) H) as E.
    change (snd (find_bp_keys form_data) = None) in E.
    destruct (find_bp_keys form_data) as [[sk|] [dk|]]; simpl in E;
      try discriminate; reflexivity.
Qed.

Lemma process_blood_pressure_unpaired (form_data : form) (v : value) :
  has_systolic form_data = false \/ has_diastolic form_data = false ->
  process_blood_pressure form_data v = Ok v.
Proof.
  intros [H|H]; unfold process_blood_pressure.
  - pose proof (find_bp_keys_fst form_data (None, None) H) as E.
    change (fst (find_bp_keys form_data) = None) in E.
    destruct (find_bp_keys form_data) as [[sk|] dk]; simpl in E;
      [discriminate|reflexivity].
  - pose proof (find_bp_keys_snd form_data (None, None) H) as E.
    change (snd (find_bp_keys form_data) = None) in E.
    destruct (find_bp_keys form_data) as [[sk|] [dk|]]; simpl in E;
      try discriminate; reflexivity.
Qed.

Lemma has_systolic_without_bp (form_data : form) :
  has_systolic (without_bp form_data) = false.
Proof.
  unfold has_systolic, without_bp, is_bp_field.
  induction form_data as [|kv l IH]; simpl; [reflexivity|].
  destruct (contains "bloodpressuresystolic" (lower (fst kv))) eqn:E;
    simpl; [exact IH|].
  destruct (contains "bloodpressurediastolic" (lower (fst kv))); simpl;
    [exact IH|]. rewrite E. exact IH.
Qed.

Lemma process_metrics_without_bp (items : form) (v : value) :
  process_metrics (without_bp items) v = process_metrics items v.
Proof.
  revert v. induction items as [|[key values] items IH]; intros v; simpl;
    [reflexivity|].
  destruct (is_bp_field key) eqn:E; simpl; [apply IH|].
  rewrite E.
  destruct (compute_stats (parse_values (first_value values)) key);
    simpl; [|reflexivity].
  destruct (setitem v key a); simpl; [apply IH|reflexivity].
Qed.

Lemma metric_writes_keys (items : form) (ws : writes) (k : string) :
  metric_writes items = Ok ws -> In k (map fst ws) ->
  In k (map fst items) /\ is_bp_field k = false.
Proof.
  revert ws. induction items as [|[key values] items IH]; intros ws; simpl.
  - intros H. injection H as <-. intros [].
  - destruct (is_bp_field key) eqn:E.
    + intros H Hin. destruct (IH ws H Hin). auto.
    + destruct (compute_stats (parse_values (first_value values)) key);
        simpl; [|discriminate].
      destruct (metric_writes items) as [ws'|]; simpl; [|discriminate].
      intros H. injection H as <-. simpl. intros [<-|Hin]; [auto|].
      destruct (IH ws' eq_refl Hin). auto.
Qed.

(** C10: when a submission has a blood-pressure field on one side only,
    that field is discarded: the merge is the merge of the submission
    without it, the merged record keeps the prior entry (or absence) under
    every blood-pressure field name, and it keeps the prior entry under
    ["bloodpressure"] (no other field being named so). *)
Theorem C10_unpaired_blood_pressure_discarded (form_data : form)
  (t : instant) (prior : dict) (doc : value)
  (Hlone : (has_systolic form_data = true
            /\ has_diastolic form_data = false)
           \/ (has_diastolic form_data = true
               /\ has_systolic form_data = false))
  (Hdoc : merge form_data t (VDict prior) = Ok doc) :
  (forall v, merge form_data t v = merge (without_bp form_data) t v)
  /\ exists d,
      doc = VDict d
      /\ (forall key, is_bp_field key = true ->
            dict_get key d = dict_get key prior)
      /\ (~ In "bloodpressure" (map fst form_data) ->
            dict_get "bloodpressure" d = dict_get "bloodpressure" prior).
Proof.
  assert (U : has_systolic form_data = false
              \/ has_diastolic form_data = false) by tauto.
  split.
  - intros v. unfold merge.
    rewrite (process_blood_pressure_unpaired form_data v U).
    rewrite (process_blood_pressure_unpaired (without_bp form_data) v)
      by (left; apply has_systolic_without_bp).
    simpl. rewrite process_metrics_without_bp. reflexivity.
  - rewrite merge_writes, (bp_writes_unpaired _ U) in Hdoc.
    destruct (metric_writes form_data) as [ws|e] eqn:W; simpl in Hdoc;
      [|discriminate].
    injection Hdoc as <-. eexists. split; [reflexivity|].
    split.
    + intros key Hkey. rewrite dict_get_apply_writes, last_write_absent;
        [reflexivity|].
      rewrite map_app, in_app_iff. simpl. intros [Hin|[<-|[]]].
      * destruct (metric_writes_keys _ _ _ W Hin). congruence.
      * vm_compute in Hkey. discriminate.
    + intros Hnot. rewrite dict_get_apply_writes, last_write_absent;
        [reflexivity|].
      rewrite map_app, in_app_iff. simpl. intros [Hin|[E|[]]].
      * destruct (metric_writes_keys _ _ _ W Hin). contradiction.
      * discriminate.
Qed.

Lemma C10_unpaired_blood_pressure_discarded_witness :
  exists d,
    VDict [("bloodpressure", VDict [("count", VInt 7)]);
           ("steps", VDict [("count", VInt 1)]);
           ("_updated", VStr "2024-01-01T19:00:00-08:00")] = VDict d
    /\ (forall key, is_bp_field key = true ->
          dict_get key d
          = dict_get key [("bloodpressure", VDict [("count", VInt 7)])])
    /\ (~ In "bloodpressure"
            (map fst [("BloodPressureSystolic", ["120"]); ("steps", ["x"])]) ->
          dict_get "bloodpressure" d
          = dict_get "bloodpressure"
              [("bloodpressure", VDict [("count", VInt 7)])]).
Proof.
  refine (proj2 (C10_unpaired_blood_pressure_discarded
                   [("BloodPressureSystolic", ["120"]); ("steps", ["x"])]
                   1704164400000000
                   [("bloodpressure", VDict [("count", VInt 7)])]
                   _ _ _)).
  - left. split; reflexivity.
  - vm_compute. reflexivity.
Defined.

(** ** Paired blood pressure *)

Lemma numbers_map_Number (l : list float) : numbers (map Number l) = l.
Proof. induction l as [|x l IH]; simpl; [reflexivity|]. now rewrite IH. Qed.

(** [zip] already pairs up to the shorter list, so truncating both lists
    to the common length changes nothing in the pairs. *)
Lemma combine_firstn_min {A B} (l : list A) (l' : list B) :
  combine (firstn (Nat.min (List.length l) (List.length l')) l)
          (firstn (Nat.min (List.length l) (List.length l')) l')
  = combine l l'.
Proof.
  rewrite <- combine_firstn, <- length_combine. apply firstn_all.
Qed.

Lemma bp_nonempty (ss ds : list float) :
  ss <> [] -> ds <> [] ->
  compute_blood_pressure_stats (map Number ss) (map Number ds)
  = let count := Nat.min (List.length ss) (List.length ds) in
    let ss' := firstn count ss in
    let ds' := firstn count ds in
    VDict
      [("systolic_avg",
        VFloat (round_nd (div (sum ss') (float_of_nat count)) 1));
       ("systolic_min", VFloat (round_nd (min_of ss') 1));
       ("systolic_max", VFloat (round_nd (max_of ss') 1));
       ("diastolic_avg",
        VFloat (round_nd (div (sum ds') (float_of_nat count)) 1));
       ("diastolic_min", VFloat (round_nd (min_of ds') 1));
       ("diastolic_max", VFloat (round_nd (max_of ds') 1));
       ("count", int_of_nat count);
       ("elevated_readings", int_of_nat (elevated_count ss' ds'))].
Proof.
  intros Hs Hd. unfold compute_blood_pressure_stats.
  rewrite !numbers_map_Number.
  destruct ss; [contradiction|]. destruct ds; [contradiction|]. reflexivity.
Qed.

Lemma bp_on_numbers (sv dv : list sample) :
  compute_blood_pressure_stats sv dv
  = compute_blood_pressure_stats (map Number (numbers sv))
                                 (map Number (numbers dv)).
Proof.
  unfold compute_blood_pressure_stats. rewrite !numbers_map_Number.
  reflexivity.
Qed.

(** C5: with no numeric sample on a side the result is exactly
    [{count: 0}]; otherwise [count] is the smaller of the two numeric
    lengths, the readings past that length play no part,
    [elevated_readings] is the number of positional pairs with systolic
    at least 140 or diastolic at least 90, and it is at most [count]. *)
Theorem C5_blood_pressure_pairs (systolic_values diastolic_values : list sample) :
  let ss := numbers systolic_values in
  let ds := numbers diastolic_values in
  let count := Nat.min (List.length ss) (List.length ds) in
  let result :=
    compute_blood_pressure_stats systolic_values diastolic_values in
  let elevated :=
    List.length
      (filter (fun sd => geb (fst sd) (of_Z 140) || geb (snd sd) (of_Z 90))
              (combine ss ds)) in
  (ss = [] \/ ds = [] -> result = VDict [("count", VInt 0)])
  /\ (ss <> [] -> ds <> [] ->
      field "count" result = Some (VInt (Z.of_nat count))
      /\ field "elevated_readings" result = Some (VInt (Z.of_nat elevated))
      /\ (elevated <= count)%nat
      /\ result
         = compute_blood_pressure_stats (map Number (firstn count ss))
                                        (map Number (firstn count ds))).
Proof.
  cbv zeta. split.
  - unfold compute_blood_pressure_stats. intros [-> | ->];
      [reflexivity|]. destruct (numbers systolic_values); reflexivity.
  - intros Hs Hd. rewrite bp_on_numbers.
    set (ss := numbers systolic_values) in *.
    set (ds := numbers diastolic_values) in *.
    set (count := Nat.min (List.length ss) (List.length ds)).
    assert (Hc : (0 < count)%nat).
    { subst count. destruct ss; [contradiction|].
      destruct ds; [contradiction|]. simpl. lia. }
    assert (Hls : List.length (firstn count ss) = count)
      by (rewrite length_firstn; subst count; lia).
    assert (Hld : List.length (firstn count ds) = count)
      by (rewrite length_firstn; subst count; lia).
    assert (Hs' : firstn count ss <> [])
      by (intros E; rewrite E in Hls; simpl in Hls; lia).
    assert (Hd' : firstn count ds <> [])
      by (intros E; rewrite E in Hld; simpl in Hld; lia).
    rewrite (bp_nonempty ss ds Hs Hd).
    rewrite (bp_nonempty _ _ Hs' Hd'). cbv zeta.
    fold count. rewrite Hls, Hld, Nat.min_id, !firstn_firstn, Nat.min_id.
    unfold elevated_count. subst count. rewrite combine_firstn_min.
    repeat split.
    rewrite <- (length_combine ss ds). apply filter_length_le.
Qed.

Lemma C5_blood_pressure_pairs_witness :
  field "count"
    (compute_blood_pressure_stats
       [Number (of_Z 120); Text "n/a"; Number (of_Z 150); Number (of_Z 110)]
       [Number (of_Z 80); Number (of_Z 85)])
  = Some (VInt 2)
  /\ field "elevated_readings"
       (compute_blood_pressure_stats
          [Number (of_Z 120); Text "n/a"; Number (of_Z 150);
           Number (of_Z 110)]
          [Number (of_Z 80); Number (of_Z 85)])
     = Some (VInt 1)
  /\ (1 <= 2)%nat
  /\ compute_blood_pressure_stats
       [Number (of_Z 120); Text "n/a"; Number (of_Z 150); Number (of_Z 110)]
       [Number (of_Z 80); Number (of_Z 85)]
     = compute_blood_pressure_stats
         [Number (of_Z 120); Number (of_Z 150)]
         [Number (of_Z 80); Number (of_Z 85)].
Proof.
  refine (proj2 (C5_blood_pressure_pairs
                   [Number (of_Z 120); Text "n/a"; Number (of_Z 150);
                    Number (of_Z 110)]
                   [Number (of_Z 80); Number (of_Z 85)]) _ _);
    discriminate.
Defined.

(** ** Sleep stages *)

Lemma stage_step_total (st : stages) (v : sample) :
  stages_total (stage_step st v)
  = (stages_total st + (if classified v then 1 else 0))%nat.
Proof.
  unfold stage_step, classified, stages_total. destruct v as [f|s];
    [simpl; lia|].
  destruct (contains "REM" s); [simpl; lia|].
  destruct (contains "Core" s); [simpl; lia|].
  destruct (contains "Light" s); [simpl; lia|].
  destruct (contains "Deep" s); [simpl; lia|].
  destruct (contains "Awake" s); [simpl; lia|].
  destruct (contains "Wake" s); simpl; lia.
Qed.

Lemma fold_stage_step_total (values : list sample) (st : stages) :
  stages_total (fold_left stage_step values st)
  = (stages_total st + List.length (filter classified values))%nat.
Proof.
  revert st. induction values as [|v values IH]; intros st; simpl; [lia|].
  rewrite IH, stage_step_total. destruct (classified v); simpl; lia.
Qed.

(** The total of the four stage counts is the number of classified text
    samples. *)
Lemma count_stages_total (values : list sample) :
  stages_total (count_stages values)
  = List.length (filter classified values).
Proof. unfold count_stages. rewrite fold_stage_step_total. reflexivity. Qed.

Lemma ltb_const (x c : float) (q : Q) :
  is_finite x = true -> is_finite c = true -> (to_Q c == q)%Q ->
  ltb x c = true <-> (to_Q x < q)%Q.
Proof.
  intros Hx Hc E. rewrite (ltb_finite x c Hx Hc), E. reflexivity.
Qed.

(** C6: when at least one text sample is classified, [fragmentation_pct]
    is [Awake / total * 100] rounded to one decimal: computed in binary64
    as [round(Awake / total * 100, 1)], it is the float nearest to a whole
    number of tenths, within 0.05 (and a rounding error below [2^-44]) of
    the exact percentage, and between 0 and 100; [quality] is "good" exactly when the
    fragmentation is below 20 and the REM and Deep counts are positive,
    otherwise "fair" exactly when it is below 35, otherwise "poor"; and
    the input ["Core\nREM\nAwake\nAwake\n"] gives stages REM 1, Core 1,
    Deep 0, Awake 2, fragmentation 50.0, quality "poor", has_rem true,
    has_deep false. *)
Theorem C6_sleep_quality (values : list sample)
  (Hsome : exists v, In v values /\ classified v = true) :
  let st := count_stages values in
  let fragmentation := fragmentation_of st in
  let good :=
    (to_Q fragmentation < 20)%Q /\ (0 < REM st)%nat /\ (0 < Deep st)%nat in
  compute_sleep_stats values
  = VDict
      [("stages", VDict [("REM", int_of_nat (REM st));
                         ("Core", int_of_nat (Core st));
                         ("Deep", int_of_nat (Deep st));
                         ("Awake", int_of_nat (Awake st))]);
       ("fragmentation_pct", VFloat fragmentation);
       ("quality", VStr (quality_of st));
       ("has_rem", VBool (0 <? REM st)%nat);
       ("has_deep", VBool (0 <? Deep st)%nat)]
  /\ fragmentation
     = round_nd (mul (int_truediv (Z.of_nat (Awake st))
                                  (Pos.of_nat (stages_total st)))
                     (of_Z 100)) 1
  /\ stages_total st = List.length (filter classified values)
  /\ is_finite fragmentation = true
  /\ (0 <= to_Q fragmentation <= 100)%Q
  /\ near ((1 # 20) + (1 # 17592186044416)) fragmentation
          (100 * (Z.of_nat (Awake st) # Pos.of_nat (stages_total st)))
  /\ (exists k, (0 <= k <= 1000)%Z /\ fragmentation = of_Q false (k # 10))
  /\ (quality_of st = "good" <-> good)
  /\ (quality_of st = "fair" <-> ~ good /\ (to_Q fragmentation < 35)%Q)
  /\ (quality_of st = "poor"
      <-> ~ good /\ ~ (to_Q fragmentation < 35)%Q)
  /\ compute_stats (parse_values sleep_input) "sleep"
     = Ok (VDict
             [("stages", VDict [("REM", VInt 1); ("Core", VInt 1);
                                ("Deep", VInt 0); ("Awake", VInt 2)]);
              ("fragmentation_pct", VFloat (of_Z 50));
              ("quality", VStr "poor");
              ("has_rem", VBool true);
              ("has_deep", VBool false)]).
Proof.
  intros st fragmentation good.
  assert (Htot : (0 < stages_total st)%nat).
  { unfold st. rewrite count_stages_total.
    destruct Hsome as [v [Hin Hv]].
    assert (Hf : In v (filter classified values))
      by (apply filter_In; auto).
    destruct (filter classified values); [destruct Hf|simpl; lia]. }
  assert (W : within (of_Z 100) fragmentation).
  { apply pct_within; [unfold stages_total; lia|exact Htot]. }
  assert (Hfin : is_finite fragmentation = true) by apply W.
  assert (Hgood : ltb fragmentation (of_Z 20) && (0 <? REM st)%nat
                  && (0 <? Deep st)%nat = true <-> good).
  { unfold good. rewrite !andb_true_iff, !Nat.ltb_lt.
    rewrite (ltb_const fragmentation (of_Z 20) 20 Hfin eq_refl)
      by (vm_compute; reflexivity).
    tauto. }
  assert (Hfair : ltb fragmentation (of_Z 35) = true
                  <-> (to_Q fragmentation < 35)%Q).
  { apply ltb_const; [exact Hfin|reflexivity|vm_compute; reflexivity]. }
  assert (Hquality : quality_of st
              = if ltb fragmentation (of_Z 20) && (0 <? REM st)%nat
                   && (0 <? Deep st)%nat
                then "good"
                else if ltb fragmentation (of_Z 35) then "fair" else "poor")
    by reflexivity.
  split.
  { unfold compute_sleep_stats. fold st.
    destruct (stages_total st =? 0)%nat eqn:E; [|reflexivity].
    apply Nat.eqb_eq in E. lia. }
  split; [reflexivity|].
  split; [apply count_stages_total|].
  split; [exact Hfin|].
  split.
  { destruct W as [_ [Hs Hq]]. split; [apply sign_false_nonneg, Hs|].
    rewrite to_Q_of_Z_100 in Hq. exact Hq. }
  split; [apply pct_near; [unfold stages_total; lia|exact Htot]|].
  split; [apply pct_tenths; [unfold stages_total; lia|exact Htot]|].
  rewrite Hquality. clear Hquality W Hfin. clearbody fragmentation.
  split; [|split; [|split; [|vm_compute; reflexivity]]];
    destruct (ltb fragmentation (of_Z 20) && (0 <? REM st)%nat
              && (0 <? Deep st)%nat);
    destruct (ltb fragmentation (of_Z 35));
    split; intros H; try discriminate H; try reflexivity;
    intuition discriminate.
Qed.

Lemma C6_sleep_quality_witness :
  quality_of (count_stages [Text "Core"; Text "REM"; Text "Awake";
                            Text "Awake"]) = "poor"
  <-> ~ ((to_Q (fragmentation_of
                  (count_stages [Text "Core"; Text "REM"; Text "Awake";
                                 Text "Awake"])) < 20)%Q
         /\ (0 < 1)%nat /\ (0 < 0)%nat)
      /\ ~ (to_Q (fragmentation_of
                    (count_stages [Text "Core"; Text "REM"; Text "Awake";
                                   Text "Awake"])) < 35)%Q.
Proof.
  assert (Hsome : exists v,
             In v [Text "Core"; Text "REM"; Text "Awake"; Text "Awake"]
             /\ classified v = true)
    by (exists (Text "Core"); split; [left; reflexivity|reflexivity]).
  destruct (C6_sleep_quality _ Hsome)
    as (_ & _ & _ & _ & _ & _ & _ & _ & _ & Hpoor & _).
  exact Hpoor.
Defined.

(** ** The value parser *)

Lemma span_digits_all (l : list ascii) :
  forallb is_digit l = true -> span_digits l = (l, []).
Proof.
  induction l as [|c l IH]; simpl; [reflexivity|].
  intros H. apply andb_true_iff in H as [Hc Hl].
  rewrite Hc, (IH Hl). reflexivity.
Qed.

Lemma span_digits_spec (l ds r : list ascii) :
  span_digits l = (ds, r) ->
  l = (ds ++ r)%list /\ forallb is_digit ds = true.
Proof.
  revert ds r. induction l as [|c l IH]; intros ds r; simpl.
  - intros H; inversion H; subst. split; reflexivity.
  - destruct (is_digit c) eqn:Hc.
    + destruct (span_digits l) as [ds' r'].
      intros H; inversion H; subst.
      destruct (IH ds' r eq_refl) as [-> Hd]. simpl. rewrite Hc, Hd.
      split; reflexivity.
    + intros H; inversion H; subst. split; reflexivity.
Qed.

Lemma digit_is_decimal_char (l : list ascii) :
  forallb is_digit l = true -> forallb decimal_char l = true.
Proof.
  intros H. rewrite forallb_forall in *. intros c Hc.
  unfold decimal_char. rewrite (H c Hc). reflexivity.
Qed.

Lemma split_sign_spec (l : list ascii) :
  forall sg body, split_sign l = (sg, body) ->
  l = body \/ exists c, l = c :: body /\ decimal_char c = true.
Proof.
  intros sg body. destruct l as [|c t]; simpl.
  - intros H; inversion H; subst. left. reflexivity.
  - destruct (Ascii.eqb c "-") eqn:E1.
    + intros H; inversion H; subst. right. exists c. split; [reflexivity|].
      unfold decimal_char. rewrite E1. apply orb_true_iff. left.
      apply orb_true_r.
    + destruct (Ascii.eqb c "+") eqn:E2; intros H; inversion H; subst.
      * right. exists c. split; [reflexivity|].
        unfold decimal_char. rewrite E2.
        rewrite orb_true_r. reflexivity.
      * left. reflexivity.
Qed.

(** The characters of a plain decimal are signs, digits and the point. *)
Lemma plain_decimal_chars (v : string) :
  plain_decimal v = true -> forallb decimal_char (chars v) = true.
Proof.
  unfold plain_decimal.
  destruct (split_sign (chars v)) as [sg body] eqn:S.
  destruct (span_digits body) as [ip r] eqn:D.
  destruct (span_digits_spec _ _ _ D) as [-> Hip].
  intros H.
  assert (Hbody : forallb decimal_char (ip ++ r) = true).
  { rewrite forallb_app, (digit_is_decimal_char ip Hip). simpl.
    destruct ip as [|c ip']; [discriminate|].
    destruct r as [|c' fr]; [reflexivity|].
    apply andb_true_iff in H as [H _].
    apply andb_true_iff in H as [Hdot Hfr]. simpl.
    rewrite (digit_is_decimal_char fr Hfr).
    unfold decimal_char. rewrite Hdot, orb_true_r. reflexivity. }
  destruct (split_sign_spec _ _ _ S) as [->|[c [-> Hc]]];
    [exact Hbody|]. simpl. rewrite Hc. exact Hbody.
Qed.

Lemma decimal_char_facts (c : ascii) :
  decimal_char c = true ->
  is_space c = false /\ Ascii.eqb c "_" = false.
Proof.
  destruct c as [[] [] [] [] [] [] [] []]; vm_compute; intros H;
    try discriminate H; split; reflexivity.
Qed.

Lemma digit_facts (c : ascii) :
  is_digit c = true ->
  Ascii.eqb (lower_char c) "i" = false
  /\ Ascii.eqb (lower_char c) "n" = false
  /\ Ascii.eqb c "-" = false /\ Ascii.eqb c "+" = false
  /\ Ascii.eqb c "." = false.
Proof.
  destruct c as [[] [] [] [] [] [] [] []]; vm_compute; intros H;
    try discriminate H; repeat split; reflexivity.
Qed.

Lemma lstrip_no_space (s : string) :
  forallb (fun c => negb (is_space c)) (chars s) = true -> lstrip s = s.
Proof.
  destruct s as [|c t]; simpl; [reflexivity|].
  intros H. apply andb_true_iff in H as [Hc _].
  destruct (is_space c); [discriminate|reflexivity].
Qed.

Lemma rstrip_no_space (s : string) :
  forallb (fun c => negb (is_space c)) (chars s) = true -> rstrip s = s.
Proof.
  induction s as [|c t IH]; simpl; [reflexivity|].
  intros H. apply andb_true_iff in H as [Hc Ht]. rewrite (IH Ht).
  destruct t; [|reflexivity].
  destruct (is_space c); [discriminate|reflexivity].
Qed.

Lemma strip_no_space (s : string) :
  forallb (fun c => negb (is_space c)) (chars s) = true -> strip s = s.
Proof.
  intros H. unfold strip. rewrite (lstrip_no_space s H).
  apply rstrip_no_space, H.
Qed.

Lemma strip_underscores_none (l : list ascii) (prev : option ascii) :
  match prev with Some p => Ascii.eqb p "_" = false | None => True end ->
  forallb (fun c => negb (Ascii.eqb c "_")) l = true ->
  strip_underscores prev l = Some l.
Proof.
  revert prev. induction l as [|c l IH]; intros prev Hp H; simpl.
  - destruct prev as [p|]; [rewrite Hp|]; reflexivity.
  - simpl in H. apply andb_true_iff in H as [Hc Hl].
    apply negb_true_iff in Hc. rewrite Hc.
    rewrite (IH (Some c) Hc Hl).
    destruct prev as [p|]; [rewrite Hp|]; reflexivity.
Qed.

Lemma forallb_impl {A} (f g : A -> bool) (l : list A) :
  (forall x, f x = true -> g x = true) ->
  forallb f l = true -> forallb g l = true.
Proof.
  intros Hfg H. rewrite forallb_forall in *. intros x Hx.
  apply Hfg, H, Hx.
Qed.

Lemma not_special (c : ascii) (t : list ascii) :
  is_digit c = true ->
  (String.eqb (lower_chars (c :: t)) "inf"
   || String.eqb (lower_chars (c :: t)) "infinity") = false
  /\ String.eqb (lower_chars (c :: t)) "nan" = false.
Proof.
  intros H. destruct (digit_facts c H) as [Hi [Hn _]].
  unfold lower_chars. simpl. rewrite Hi, Hn. split; reflexivity.
Qed.

(** A plain decimal is accepted by [float] and denotes the float nearest
    to its decimal value. *)
Lemma float_of_plain_decimal (v : string) :
  plain_decimal v = true -> float_of_string v = Some (decimal_value v).
Proof.
  intros H. pose proof (plain_decimal_chars v H) as Hch.
  unfold float_of_string, decimal_value.
  rewrite strip_no_space
    by (revert Hch; apply forallb_impl; intros c Hc;
        destruct (decimal_char_facts c Hc) as [-> _]; reflexivity).
  rewrite strip_underscores_none;
    [|exact I
     |revert Hch; apply forallb_impl; intros c Hc;
      destruct (decimal_char_facts c Hc) as [_ ->]; reflexivity].
  unfold plain_decimal in H.
  destruct (split_sign (chars v)) as [sg body].
  destruct (span_digits body) as [ip r] eqn:D.
  destruct ip as [|c ip']; [discriminate|].
  destruct (span_digits_spec _ _ _ D) as [Hb Hip]. subst body.
  simpl in Hip. apply andb_true_iff in Hip as [Hc Hip'].
  change ((c :: ip') ++ r)%list with (c :: (ip' ++ r))%list in *.
  destruct (not_special c (ip' ++ r) Hc) as [-> ->].
  destruct r as [|c' fr].
  - simpl. rewrite app_nil_r. reflexivity.
  - apply andb_true_iff in H as [H Hne].
    apply andb_true_iff in H as [Hdot Hfr].
    rewrite Hdot, (span_digits_all fr Hfr). simpl.
    reflexivity.
Qed.

Lemma parse_values_lines (raw : string) :
  parse_values raw
  = map sample_of_line
      (filter (fun l => negb (String.eqb l ""))
              (map strip
                   (split_on "010" (replace_cr (replace_crlf (unquote raw)))))).
Proof.
  unfold parse_values.
  induction (split_on "010" (replace_cr (replace_crlf (unquote raw))))
    as [|l ls IH]; simpl; [reflexivity|].
  rewrite IH. destruct (String.eqb (strip l) ""); reflexivity.
Qed.

(** C3 (as amended): a line that is a decimal numeral with optional sign
    and optional fractional part becomes a Number, the float nearest to
    its decimal value; every line becomes a Number when [float] accepts it
    and otherwise a Text holding the line itself, so no line is rejected
    and each non-blank line gives one sample; [float] accepts more than
    plain decimals: ["inf"], ["nan"] and ["1e3"] become Numbers. *)
Theorem C3_value_parser (v : string) (Hdec : plain_decimal v = true) :
  sample_of_line v = Number (decimal_value v)
  /\ (forall w,
        (exists f, float_of_string w = Some f /\ sample_of_line w = Number f)
        \/ (float_of_string w = None /\ sample_of_line w = Text w))
  /\ (forall raw,
        parse_values raw
        = map sample_of_line
            (filter (fun l => negb (String.eqb l ""))
               (map strip
                  (split_on "010"
                     (replace_cr (replace_crlf (unquote raw)))))))
  /\ sample_of_line "inf" = Number (inf false)
  /\ sample_of_line "nan" = Number nan
  /\ sample_of_line "1e3" = Number (of_Z 1000)
  /\ sample_of_line "12abc" = Text "12abc".
Proof.
  split.
  { unfold sample_of_line. rewrite (float_of_plain_decimal v Hdec).
    reflexivity. }
  split.
  { intros w. unfold sample_of_line.
    destruct (float_of_string w) as [f|]; [left; exists f|right];
      split; reflexivity. }
  split; [exact parse_values_lines|].
  repeat split; vm_compute; reflexivity.
Qed.

Lemma C3_value_parser_witness :
  sample_of_line "-72.50" = Number (decimal_value "-72.50").
Proof.
  exact (proj1 (C3_value_parser "-72.50" eq_refl)).
Defined.

(** C3 as stated fails: ["inf"] is a trimmed non-empty line that is not a
    plain decimal, and the parser emits a Number for it. *)
Lemma C3_counterexample :
  ~ (forall v, strip v = v -> v <> "" ->
       ((exists f, sample_of_line v = Number f) <-> plain_decimal v = true)).
Proof.
  intros H.
  destruct (H "inf" eq_refl ltac:(discriminate)) as [H1 _].
  assert (E : plain_decimal "inf" = true)
    by (apply H1; eexists; vm_compute; reflexivity).
  vm_compute in E. discriminate E.
Qed.

(** ** Blood glucose *)

Lemma leb_finite (x y : float) :
  is_finite x = true -> is_finite y = true ->
  leb x y = true <-> (to_Q x <= to_Q y)%Q.
Proof.
  intros Hx Hy. unfold leb.
  assert (E : F64.compare x y = Some (to_Q x ?= to_Q y)%Q)
    by (destruct x, y; simpl in *; try discriminate; reflexivity).
  rewrite E, Qle_alt.
  destruct (to_Q x ?= to_Q y)%Q; split; congruence.
Qed.

Lemma glucose_on_numbers (values : list sample) :
  numbers values <> [] ->
  compute_blood_glucose_stats values
  = (sd <- population_std_dev (numbers values) ;;
     Ok (VDict
           [("avg", VFloat (round_nd (mean (numbers values)) 1));
            ("min", VFloat (round_nd (min_of (numbers values)) 1));
            ("max", VFloat (round_nd (max_of (numbers values)) 1));
            ("std_dev", VFloat (round_nd sd 1));
            ("count", int_of_nat (List.length (numbers values)));
            ("in_range_pct", VFloat (in_range_pct_of (numbers values)))])).
Proof.
  intros Hne. unfold compute_blood_glucose_stats, population_std_dev, mean.
  destruct (numbers values) as [|x nums]; [contradiction|].
  destruct (squared_deviations
              (div (sum (x :: nums)) (float_of_nat (List.length (x :: nums))))
              (x :: nums)); reflexivity.
Qed.

Lemma squared_deviations_raise (avg : float) (nums : list float) (e : exn) :
  squared_deviations avg nums = Raise e -> e = OverflowError.
Proof.
  induction nums as [|x nums IH]; simpl; [discriminate|].
  destruct (pow2 (sub x avg)) as [sq|e'] eqn:P; simpl.
  - destruct (squared_deviations avg nums) as [r|e'']; simpl;
      [discriminate|].
    intros H; inversion H; subst. apply IH. reflexivity.
  - intros H; inversion H; subst. unfold pow2 in P.
    destruct (sub x avg); try discriminate.
    destruct (mul _ _); try discriminate. inversion P. reflexivity.
Qed.

Lemma population_std_dev_raise (nums : list float) (e : exn) :
  population_std_dev nums = Raise e -> e = OverflowError.
Proof.
  unfold population_std_dev.
  destruct (squared_deviations (mean nums) nums) as [sqs|e'] eqn:S;
    simpl; [discriminate|].
  intros H; inversion H; subst.
  apply (squared_deviations_raise _ _ _ S).
Qed.

(** C7 (as amended): with no numeric sample the result is exactly
    [{count: 0}]; otherwise the summary is computed from the population
    standard deviation (square root of the mean squared deviation, the sum
    divided by the number of samples), rounded to one decimal, unless a
    squared deviation overflows, which raises [OverflowError];
    [in_range_pct] is the share of the numeric samples in the inclusive
    interval [[70,180]] times 100, rounded to one decimal (within 0.05,
    and a rounding error below [2^-44], of the exact percentage), and is
    a finite number between 0 and 100; [std_dev] is never below zero (it can be
    NaN or infinite); and it is 0 when all numeric samples equal one
    finite value and their computed mean compares equal to it. *)
Theorem C7_glucose_summary (values : list sample) :
  let nums := numbers values in
  (nums = [] ->
   compute_blood_glucose_stats values = Ok (VDict [("count", VInt 0)]))
  /\ (nums <> [] ->
      compute_blood_glucose_stats values
      = (sd <- population_std_dev nums ;;
         Ok (VDict
               [("avg", VFloat (round_nd (mean nums) 1));
                ("min", VFloat (round_nd (min_of nums) 1));
                ("max", VFloat (round_nd (max_of nums) 1));
                ("std_dev", VFloat (round_nd sd 1));
                ("count", int_of_nat (List.length nums));
                ("in_range_pct", VFloat (in_range_pct_of nums))]))
      /\ (forall e, population_std_dev nums = Raise e -> e = OverflowError)
      /\ is_finite (in_range_pct_of nums) = true
      /\ (0 <= to_Q (in_range_pct_of nums) <= 100)%Q
      /\ near ((1 # 20) + (1 # 17592186044416)) (in_range_pct_of nums)
              (100 * (Z.of_nat (in_range_count nums)
                      # Pos.of_nat (List.length nums)))
      /\ (forall sd, population_std_dev nums = Ok sd ->
            ltb (round_nd sd 1) (of_Z 0) = false)
      /\ (forall x, is_finite x = true ->
            (forall y, In y nums -> y = x) ->
            eqb (mean nums) x = true ->
            exists sd, population_std_dev nums = Ok sd
                       /\ round_nd sd 1 = S754_zero false))
  /\ (forall v, is_finite v = true ->
        leb (of_Z 70) v && leb v (of_Z 180) = true
        <-> (70 <= to_Q v <= 180)%Q).
Proof.
  intros nums. split; [|split].
  - unfold compute_blood_glucose_stats. fold nums. intros ->. reflexivity.
  - intros Hne. split; [apply glucose_on_numbers, Hne|].
    split.
    { intros e. apply population_std_dev_raise. }
    assert (W : within (of_Z 100) (in_range_pct_of nums)).
    { apply pct_within.
      - apply filter_length_le.
      - destruct nums; [contradiction|simpl; lia]. }
    split; [apply W|].
    split.
    { destruct W as [_ [Hs Hq]]. split; [apply sign_false_nonneg, Hs|].
      rewrite to_Q_of_Z_100 in Hq. exact Hq. }
    split.
    { apply pct_near; [apply filter_length_le|].
      destruct nums; [contradiction|simpl; lia]. }
    split; [apply std_dev_not_negative|].
    intros x Hx Hall He. exists (S754_zero false).
    split; [apply (std_dev_equal_samples x); assumption|reflexivity].
  - intros v Hv. rewrite andb_true_iff.
    rewrite (leb_finite (of_Z 70) v eq_refl Hv).
    rewrite (leb_finite v (of_Z 180) Hv eq_refl).
    assert (E70 : (to_Q (of_Z 70) == 70)%Q) by (vm_compute; reflexivity).
    assert (E180 : (to_Q (of_Z 180) == 180)%Q) by (vm_compute; reflexivity).
    rewrite E70, E180. reflexivity.
Qed.

Lemma C7_glucose_summary_witness :
  exists sd,
    population_std_dev [of_Z 100; of_Z 100; of_Z 100] = Ok sd
    /\ round_nd sd 1 = S754_zero false.
Proof.
  destruct (C7_glucose_summary
              [Number (of_Z 100); Number (of_Z 100); Number (of_Z 100)])
    as (_ & Hsome & _).
  destruct (Hsome ltac:(discriminate)) as (_ & _ & _ & _ & _ & _ & Hequal).
  apply (Hequal (of_Z 100) eq_refl).
  - intros y [<-|[<-|[<-|[]]]]; reflexivity.
  - vm_compute. reflexivity.
Defined.

(** C7 as stated fails: the two equal samples ["1e308"] and ["1e308"]
    have an infinite [std_dev], not 0 (their sum overflows). *)
Lemma C7_counterexample :
  ~ (forall values r sd,
       numbers values <> [] ->
       compute_blood_glucose_stats values = Ok r ->
       field "std_dev" r = Some (VFloat sd) ->
       leb (of_Z 0) sd = true
       /\ ((forall x y, In x (numbers values) -> In y (numbers values) ->
                        x = y) ->
           eqb sd (of_Z 0) = true)).
Proof.
  intros H.
  destruct (H (parse_values ("1e308" ++ nl ++ "1e308")) _
              (S754_infinity false) ltac:(discriminate)
              ltac:(vm_compute; reflexivity) ltac:(vm_compute; reflexivity))
    as [_ H0].
  assert (E : eqb (S754_infinity false) (of_Z 0) = true).
  { apply H0. intros x y Hx Hy. vm_compute in Hx, Hy.
    destruct Hx as [<-|[<-|[]]]; destruct Hy as [<-|[<-|[]]]; reflexivity. }
  vm_compute in E. discriminate E.
Qed.

(** ** Which summaries can raise *)

(** Only the glucose summary can raise, and only [OverflowError]. *)
Lemma compute_stats_raise (values : list sample) (key : string) (e : exn) :
  compute_stats values key = Raise e ->
  strip (lower key) = "bloodglucose" /\ e = OverflowError.
Proof.
  unfold compute_stats.
  destruct (String.eqb (strip (lower key)) "sleep"); [discriminate|].
  destruct (String.eqb_spec (strip (lower key)) "bloodglucose") as [K|_].
  - intros H. split; [exact K|].
    destruct (numbers values) as [|x nums] eqn:N.
    + unfold compute_blood_glucose_stats in H. rewrite N in H.
      discriminate.
    + rewrite glucose_on_numbers in H by (rewrite N; discriminate).
      destruct (population_std_dev (numbers values)) as [sd|e'] eqn:P;
        simpl in H; [discriminate|].
      inversion H; subst. apply (population_std_dev_raise _ _ P).
  - destruct (numbers values) as [|x nums]; [discriminate|].
    destruct (String.eqb (strip (lower key)) "heartrate"); [|discriminate].
    destruct (compute_hr_zones_total (map Number (x :: nums))) as [r ->].
    discriminate.
Qed.

(** ** Retrieval *)

(** C4 fails on the code: a host on UTC asked, at 2024-01-02 03:00 UTC, for
    the last day reads the key of 2024-01-02 and returns nothing, although
    the record ingested at that same instant is stored under the Pacific
    date 2024-01-01. *)
Theorem C4_retrieval_uses_host_local_date :
  let t := 1704164400000000 in
  let st := fst (do_POST "" None [("steps", ["100"])] t t Store.empty) in
  date_key_at t = "2024-01-01"
  /\ (exists doc, get st "health:2024-01-01" = Some doc)
  /\ Data.date_back 0 t 0 = "2024-01-02"
  /\ Data.do_GET "" None (Some "1") (fun _ => 0) (fun _ => t) st
     = Ok (mk_response 200 (VDict [])).
Proof.
  cbv zeta. split; [vm_compute; reflexivity|].
  split; [eexists; vm_compute; reflexivity|].
  split; vm_compute; reflexivity.
Qed.

Local Arguments String.append : simpl never.

Lemma collect_found (tz : instant -> Z) (clock : nat -> instant)
  (st : store) (n i : nat) (acc : dict) :
  Data.collect tz clock st n i acc
  = (ws <- found tz clock st n i ;; Ok (apply_writes ws acc)).
Proof.
  revert i acc. induction n as [|n IH]; intros i acc; simpl;
    [reflexivity|].
  destruct (get st ("health:" ++ Data.date_back (tz (clock i)) (clock i) i))
    as [data|]; [|apply IH].
  destruct (truthy data); [|apply IH].
  destruct (json_loads data) as [v|e]; simpl; [|reflexivity].
  rewrite IH. destruct (found tz clock st n (S i)); reflexivity.
Qed.

(** Every entry the loop finds comes from an iteration whose key holds a
    non-empty text, and is the document that text encodes. *)
Lemma found_sound (tz : instant -> Z) (clock : nat -> instant)
  (st : store) (n i : nat) (ws : writes) (d : string) (v : value) :
  found tz clock st n i = Ok ws ->
  In (d, v) ws ->
  exists j data,
    (i <= j < i + n)%nat
    /\ d = Data.date_back (tz (clock j)) (clock j) j
    /\ get st ("health:" ++ d) = Some data
    /\ truthy data = true
    /\ json_loads data = Ok v.
Proof.
  revert i ws. induction n as [|n IH]; intros i ws; simpl.
  - intros H; inversion H; subst. intros [].
  - assert (Later : forall ws',
               found tz clock st n (S i) = Ok ws' -> In (d, v) ws' ->
               exists j data,
                 (i <= j < i + S n)%nat
                 /\ d = Data.date_back (tz (clock j)) (clock j) j
                 /\ get st ("health:" ++ d) = Some data
                 /\ truthy data = true
                 /\ json_loads data = Ok v).
    { intros ws' Hws' Hin.
      destruct (IH (S i) ws' Hws' Hin) as [j [data [Hj R]]].
      exists j, data. split; [lia|exact R]. }
    destruct (get st ("health:" ++ Data.date_back (tz (clock i)) (clock i) i))
      as [data|] eqn:G; [|apply Later].
    destruct (truthy data) eqn:T; [|apply Later].
    destruct (json_loads data) as [v0|e] eqn:L; simpl; [|discriminate].
    destruct (found tz clock st n (S i)) as [ws'|e] eqn:F; simpl;
      [|discriminate].
    intros H; inversion H; subst; clear H. intros [E|Hin].
    + inversion E; subst. exists i, data. split; [lia|auto].
    + apply (Later ws' eq_refl Hin).
Qed.

(** Every iteration whose key holds a non-empty text contributes an
    entry. *)
Lemma found_complete (tz : instant -> Z) (clock : nat -> instant)
  (st : store) (n i j : nat) (ws : writes) (data : text) :
  found tz clock st n i = Ok ws ->
  (i <= j < i + n)%nat ->
  get st ("health:" ++ Data.date_back (tz (clock j)) (clock j) j) = Some data ->
  truthy data = true ->
  exists v, In (Data.date_back (tz (clock j)) (clock j) j, v) ws.
Proof.
  revert i ws. induction n as [|n IH]; intros i ws; simpl; [lia|].
  intros F Hj G T.
  assert (Later : forall ws',
             found tz clock st n (S i) = Ok ws' -> j <> i ->
             exists v, In (Data.date_back (tz (clock j)) (clock j) j, v) ws').
  { intros ws' Hws' Hne. apply (IH (S i) ws' Hws'); [lia|exact G|exact T]. }
  destruct (Nat.eq_dec j i) as [->|Hne].
  - rewrite G, T in F.
    destruct (json_loads data) as [v0|e]; simpl in F; [|discriminate].
    destruct (found tz clock st n (S i)) as [ws'|e]; simpl in F;
      [|discriminate].
    inversion F; subst. exists v0. left. reflexivity.
  - destruct (get st ("health:" ++ Data.date_back (tz (clock i)) (clock i) i))
      as [data'|]; [|apply (Later ws F Hne)].
    destruct (truthy data'); [|apply (Later ws F Hne)].
    destruct (json_loads data') as [v0|e]; simpl in F; [|discriminate].
    destruct (found tz clock st n (S i)) as [ws'|e] eqn:F'; simpl in F;
      [|discriminate].
    inversion F; subst.
    destruct (Later ws' eq_refl Hne) as [v Hv]. exists v. right. exact Hv.
Qed.

Lemma last_write_some (k : string) (ws : writes) (v : value) :
  last_write k ws = Some v -> In (k, v) ws.
Proof.
  induction ws as [|[k' v'] ws IH]; simpl; [discriminate|].
  destruct (last_write k ws) as [v0|].
  - intros H; inversion H; subst. right. apply IH. reflexivity.
  - destruct (String.eqb_spec k k') as [->|_]; [|discriminate].
    intros H; inversion H; subst. left. reflexivity.
Qed.

Lemma last_write_in (k : string) (ws : writes) (v : value) :
  In (k, v) ws -> exists v', last_write k ws = Some v'.
Proof.
  induction ws as [|[k' v'] ws IH]; simpl; [intros []|].
  intros [E|Hin].
  - inversion E; subst. destruct (last_write k ws); [eauto|].
    rewrite String.eqb_refl. eauto.
  - destruct (IH Hin) as [v0 ->]. eauto.
Qed.

(** What [Data.do_GET] returns: status 200 and a mapping that has an entry for
    a date exactly when the date is one of the trailing [days] dates of
    the host's local clock and a non-empty text is stored for it; the
    entry is the stored document. *)
Lemma do_GET_mapping (API_KEY : string) (auth : option string)
  (days : option string) (tz : instant -> Z) (clock : nat -> instant)
  (st : store) (n : Z) (r : Ingest.response) :
  Data.check_auth API_KEY auth = true ->
  Data.days_of_query days = Ok n ->
  Data.do_GET API_KEY auth days tz clock st = Ok r ->
  status r = 200
  /\ exists results,
      body r = VDict results
      /\ (forall d,
            (exists v, dict_get d results = Some v) <->
            (exists j data,
               (j < Z.to_nat n)%nat
               /\ d = Data.date_back (tz (clock j)) (clock j) j
               /\ get st ("health:" ++ d) = Some data
               /\ truthy data = true))
      /\ (forall d v, dict_get d results = Some v ->
            exists data, get st ("health:" ++ d) = Some data
                         /\ json_loads data = Ok v).
Proof.
  intros Hauth Hdays. unfold Data.do_GET. rewrite Hauth, Hdays. simpl.
  rewrite collect_found.
  destruct (found tz clock st (Z.to_nat n) 0) as [ws|e] eqn:F; simpl;
    [|discriminate].
  intros H; inversion H; subst; clear H. simpl.
  split; [reflexivity|]. eexists. split; [reflexivity|].
  assert (G : forall d, dict_get d (apply_writes ws []) = last_write d ws).
  { intros d. rewrite dict_get_apply_writes.
    destruct (last_write d ws); reflexivity. }
  split.
  - intros d. rewrite G. split.
    + intros [v Hv]. apply last_write_some in Hv.
      destruct (found_sound _ _ _ _ _ _ _ _ F Hv)
        as [j [data [Hj [Hd [Hg [Ht _]]]]]].
      exists j, data. split; [lia|auto].
    + intros [j [data [Hj [Hd [Hg Ht]]]]]. subst d.
      destruct (found_complete _ _ _ _ _ j _ _ F ltac:(lia) Hg Ht)
        as [v Hv].
      apply (last_write_in _ _ _ Hv).
  - intros d v. rewrite G. intros Hv. apply last_write_some in Hv.
    destruct (found_sound _ _ _ _ _ _ _ _ F Hv)
      as [j [data [Hj [Hd [Hg [Ht Hl]]]]]].
    exists data. auto.
Qed.

Lemma days_default : Data.days_of_query None = Ok 7.
Proof. reflexivity. Qed.

(** On a host whose local zone is UTC-8 the read path names today as the
    write path does. *)
Lemma date_back_pacific (t : instant) :
  Data.date_back (-8 * 3600) t 0 = date_key_at t.
Proof.
  unfold Data.date_back, date_key_at, get_pacific_now, strftime_date,
    minus_days, now_naive, now_tz.
  cbn [wall]. rewrite Z.mul_0_l, Z.sub_0_r. reflexivity.
Qed.

(** * Further properties of the code *)

Lemma free_of_cons (c a : ascii) (s : string) :
  free_of c (String a s) = negb (Ascii.eqb a c) && free_of c s.
Proof. reflexivity. Qed.

Lemma free_of_app (c : ascii) (s t : string) :
  free_of c (s ++ t) = free_of c s && free_of c t.
Proof.
  induction s as [|a s IH]; [reflexivity|].
  change (String a s ++ t) with (String a (s ++ t)).
  rewrite !free_of_cons, IH, andb_assoc. reflexivity.
Qed.

Lemma unquote_free (s : string) : free_of "%" s = true -> unquote s = s.
Proof.
  induction s as [|a s IH]; [reflexivity|].
  rewrite free_of_cons. intros H. apply andb_true_iff in H as [Ha Hs].
  apply negb_true_iff in Ha. specialize (IH Hs).
  simpl. rewrite Ha. destruct s as [|h [|l t]]; rewrite ?IH; reflexivity.
Qed.

Lemma replace_cr_free (s : string) : free_of "013" s = true -> replace_cr s = s.
Proof.
  induction s as [|a s IH]; [reflexivity|].
  rewrite free_of_cons. intros H. apply andb_true_iff in H as [Ha Hs].
  apply negb_true_iff in Ha. simpl. rewrite Ha, (IH Hs). reflexivity.
Qed.

Lemma replace_crlf_cons (a : ascii) (s : string) :
  Ascii.eqb a "013" = false ->
  replace_crlf (String a s) = String a (replace_crlf s).
Proof.
  intros Ha. simpl. rewrite Ha. destruct s; reflexivity.
Qed.

Lemma replace_crlf_free_cr (s : string) :
  free_of "013" s = true -> replace_crlf s = s.
Proof.
  induction s as [|a s IH]; [reflexivity|].
  rewrite free_of_cons. intros H. apply andb_true_iff in H as [Ha Hs].
  apply negb_true_iff in Ha. rewrite (replace_crlf_cons a s Ha), (IH Hs).
  reflexivity.
Qed.

Lemma replace_crlf_free_lf (s : string) :
  free_of "010" s = true -> replace_crlf s = s.
Proof.
  induction s as [|a s IH]; [reflexivity|].
  rewrite free_of_cons. intros H. apply andb_true_iff in H as [Ha Hs].
  specialize (IH Hs). simpl. destruct s as [|b s']; [reflexivity|].
  rewrite free_of_cons in Hs. apply andb_true_iff in Hs as [Hb _].
  apply negb_true_iff in Hb. rewrite Hb, andb_false_r, IH. reflexivity.
Qed.

Lemma join_cons (sep l : string) (rest : list string) :
  rest <> [] -> join sep (l :: rest) = l ++ sep ++ join sep rest.
Proof. destruct rest; [contradiction|reflexivity]. Qed.

Lemma free_of_join (c : ascii) (sep : string) (lines : list string) :
  free_of c sep = true -> Forall (fun l => free_of c l = true) lines ->
  free_of c (join sep lines) = true.
Proof.
  intros Hsep H. induction H as [|l rest Hl Hrest IH]; [reflexivity|].
  destruct rest as [|l' rest']; [exact Hl|].
  rewrite join_cons by discriminate.
  rewrite !free_of_app, Hl, Hsep, IH. reflexivity.
Qed.

Lemma replace_crlf_app (l s : string) :
  free_of "013" l = true ->
  replace_crlf (l ++ s) = l ++ replace_crlf s.
Proof.
  induction l as [|a l IH]; [reflexivity|].
  rewrite free_of_cons. intros H. apply andb_true_iff in H as [Ha Hl].
  apply negb_true_iff in Ha.
  change (String a l ++ s) with (String a (l ++ s)).
  rewrite (replace_crlf_cons _ _ Ha), (IH Hl). reflexivity.
Qed.

Lemma replace_cr_app (l s : string) :
  replace_cr (l ++ s) = replace_cr l ++ replace_cr s.
Proof.
  induction l as [|a l IH]; [reflexivity|]. simpl. rewrite IH. reflexivity.
Qed.

Lemma replace_crlf_pair (s : string) :
  replace_crlf (String "013" (String "010" s)) = String "010" (replace_crlf s).
Proof. reflexivity. Qed.

Lemma replace_crlf_join (lines : list string) :
  Forall (fun l => free_of "013" l = true) lines ->
  replace_crlf (join (cr ++ nl) lines) = join nl lines.
Proof.
  intros H. induction H as [|l rest Hl Hrest IH]; [reflexivity|].
  destruct rest as [|l' rest'].
  - apply replace_crlf_free_cr, Hl.
  - rewrite !join_cons by discriminate.
    rewrite (replace_crlf_app _ _ Hl).
    change ((cr ++ nl) ++ join (cr ++ nl) (l' :: rest'))
      with (String "013" (String "010" (join (cr ++ nl) (l' :: rest')))).
    rewrite replace_crlf_pair, IH. reflexivity.
Qed.

Lemma replace_cr_join (lines : list string) :
  Forall (fun l => free_of "013" l = true) lines ->
  replace_cr (join cr lines) = join nl lines.
Proof.
  intros H. induction H as [|l rest Hl Hrest IH]; [reflexivity|].
  destruct rest as [|l' rest'].
  - apply replace_cr_free, Hl.
  - rewrite !join_cons by discriminate.
    rewrite !replace_cr_app, (replace_cr_free _ Hl), IH. reflexivity.
Qed.

Lemma split_on_app (l s : string) :
  free_of "010" l = true ->
  split_on "010" (l ++ String "010" s) = l :: split_on "010" s.
Proof.
  induction l as [|a l IH].
  - intros _. reflexivity.
  - rewrite free_of_cons. intros H. apply andb_true_iff in H as [Ha Hl].
    apply negb_true_iff in Ha.
    change (String a l ++ String "010" s)
      with (String a (l ++ String "010" s)).
    simpl. rewrite Ha, (IH Hl). reflexivity.
Qed.

Lemma split_on_free (l : string) :
  free_of "010" l = true -> split_on "010" l = [l].
Proof.
  induction l as [|a l IH]; [reflexivity|].
  rewrite free_of_cons. intros H. apply andb_true_iff in H as [Ha Hl].
  apply negb_true_iff in Ha. simpl. rewrite Ha, (IH Hl). reflexivity.
Qed.

Lemma split_on_join (lines : list string) :
  lines <> [] ->
  Forall (fun l => free_of "010" l = true) lines ->
  split_on "010" (join nl lines) = lines.
Proof.
  intros Hne H. induction H as [|l rest Hl Hrest IH]; [contradiction|].
  destruct rest as [|l' rest'].
  - apply split_on_free, Hl.
  - rewrite join_cons by discriminate.
    change (nl ++ join nl (l' :: rest'))
      with (String "010" (join nl (l' :: rest'))).
    rewrite (split_on_app _ _ Hl), IH by discriminate. reflexivity.
Qed.

Lemma plain_line_parts (l : string) :
  plain_line l = true ->
  free_of "013" l = true /\ free_of "010" l = true /\ free_of "%" l = true.
Proof.
  unfold plain_line. intros H. apply andb_true_iff in H as [H H3].
  apply andb_true_iff in H as [H1 H2]. auto.
Qed.

Lemma Forall_plain (c : ascii) (lines : list string) :
  (forall l, plain_line l = true -> free_of c l = true) ->
  Forall (fun l => plain_line l = true) lines ->
  Forall (fun l => free_of c l = true) lines.
Proof. intros Hc H. induction H; constructor; auto. Qed.

Lemma parse_values_normalised (s : string) (lines : list string) :
  unquote s = s -> replace_cr (replace_crlf s) = join nl lines ->
  Forall (fun l => free_of "010" l = true) lines ->
  parse_values s = flat_map line_samples lines.
Proof.
  intros Hu Hn Hl. unfold parse_values. rewrite Hu, Hn.
  destruct lines as [|l rest]; [reflexivity|].
  rewrite split_on_join by (discriminate || assumption). reflexivity.
Qed.

(** X1: For lines that hold no carriage return, line feed or percent sign,
    [parse_values] yields the same samples whether the lines are joined
    with LF, with CRLF or with a lone CR: one sample per line that is not
    blank, in order. *)
Theorem X1_line_endings (lines : list string)
  (Hplain : Forall (fun l => plain_line l = true) lines) :
  parse_values (join nl lines) = flat_map line_samples lines
  /\ parse_values (join (cr ++ nl) lines) = flat_map line_samples lines
  /\ parse_values (join cr lines) = flat_map line_samples lines.
Proof.
  assert (Hcr : Forall (fun l => free_of "013" l = true) lines)
    by (apply (Forall_plain _ _ (fun l H => proj1 (plain_line_parts l H))),
          Hplain).
  assert (Hlf : Forall (fun l => free_of "010" l = true) lines)
    by (apply (Forall_plain _ _
                 (fun l H => proj1 (proj2 (plain_line_parts l H)))), Hplain).
  assert (Hpc : Forall (fun l => free_of "%" l = true) lines)
    by (apply (Forall_plain _ _
                 (fun l H => proj2 (proj2 (plain_line_parts l H)))), Hplain).
  split; [|split]; apply parse_values_normalised; try exact Hlf.
  - apply unquote_free, free_of_join; [reflexivity|exact Hpc].
  - rewrite replace_crlf_free_cr
      by (apply free_of_join; [reflexivity|exact Hcr]).
    apply replace_cr_free, free_of_join; [reflexivity|exact Hcr].
  - apply unquote_free, free_of_join; [reflexivity|exact Hpc].
  - rewrite (replace_crlf_join _ Hcr).
    apply replace_cr_free, free_of_join; [reflexivity|exact Hcr].
  - apply unquote_free, free_of_join; [reflexivity|exact Hpc].
  - rewrite replace_crlf_free_lf
      by (apply free_of_join; [reflexivity|exact Hlf]).
    apply replace_cr_join, Hcr.
Qed.

Lemma X1_line_endings_witness :
  parse_values (join (cr ++ nl) ["72"; " "; " Awake "])
  = [Number (of_Z 72); Text "Awake"].
Proof.
  refine (proj1 (proj2 (X1_line_endings ["72"; " "; " Awake "] _))).
  repeat constructor.
Defined.

Lemma rstrip_cons (c : ascii) (t : string) :
  is_space c = false -> rstrip (String c t) = String c (rstrip t).
Proof. intros H. simpl. rewrite H. destruct (rstrip t); reflexivity. Qed.

Lemma rstrip_idempotent (s : string) : rstrip (rstrip s) = rstrip s.
Proof.
  induction s as [|c t IH]; [reflexivity|]. simpl.
  destruct (rstrip t) as [|c' t'] eqn:E.
  - destruct (is_space c) eqn:S; [reflexivity|]. simpl. rewrite S.
    reflexivity.
  - change (rstrip (String c (String c' t')))
      with (match rstrip (String c' t') with
            | EmptyString =>
                if is_space c then EmptyString else String c EmptyString
            | t'' => String c t''
            end).
    rewrite IH. reflexivity.
Qed.

Lemma lstrip_head (s : string) :
  lstrip s = "" \/ exists c t, lstrip s = String c t /\ is_space c = false.
Proof.
  induction s as [|c t IH]; [left; reflexivity|]. simpl.
  destruct (is_space c) eqn:S; [exact IH|]. right. eauto.
Qed.

(** [strip] is idempotent. *)
Lemma strip_idempotent (s : string) : strip (strip s) = strip s.
Proof.
  unfold strip. destruct (lstrip_head s) as [->|[c [t [-> Hc]]]];
    [reflexivity|].
  rewrite (rstrip_cons c t Hc). simpl lstrip. rewrite Hc.
  rewrite <- (rstrip_cons c t Hc). apply rstrip_idempotent.
Qed.

Lemma lstrip_spaces (s : string) :
  forallb is_space (chars s) = true -> lstrip s = "".
Proof.
  induction s as [|c t IH]; [reflexivity|]. simpl. intros H.
  apply andb_true_iff in H as [Hc Ht]. rewrite Hc. apply IH, Ht.
Qed.

Lemma in_parse_values (raw : string) (x : sample) :
  In x (parse_values raw) ->
  exists v, v <> "" /\ strip v = v /\ x = sample_of_line v.
Proof.
  unfold parse_values. rewrite in_flat_map. intros [l [_ H]].
  destruct (String.eqb_spec (strip l) "") as [|Hne]; [destruct H|].
  destruct H as [<-|[]]. exists (strip l).
  split; [exact Hne|]. split; [apply strip_idempotent|reflexivity].
Qed.

Lemma spaces_free_of_pct (s : string) :
  forallb is_space (chars s) = true -> free_of "%" s = true.
Proof.
  unfold free_of. apply forallb_impl. intros c Hc.
  destruct c as [[] [] [] [] [] [] [] []]; try discriminate Hc; reflexivity.
Qed.

Lemma replace_crlf_spaces_step (s : string) :
  (forallb is_space (chars s) = true ->
   forallb is_space (chars (replace_crlf s)) = true)
  /\ (forall a, forallb is_space (chars (String a s)) = true ->
       forallb is_space (chars (replace_crlf (String a s))) = true).
Proof.
  induction s as [|b t [IHa IHb]].
  - split; intros; assumption.
  - split; [apply IHb|].
    intros a H. pose proof H as Hall. simpl in H.
    apply andb_true_iff in H as [Ha H].
    pose proof H as Hbt. apply andb_true_iff in H as [Hb Ht].
    change (replace_crlf (String a (String b t)))
      with (if Ascii.eqb a "013" && Ascii.eqb b "010"
            then String "010" (replace_crlf t)
            else String a (replace_crlf (String b t))).
    destruct (Ascii.eqb a "013" && Ascii.eqb b "010").
    + change (is_space "010" && forallb is_space (chars (replace_crlf t))
              = true).
      rewrite (IHa Ht). reflexivity.
    + change (is_space a
              && forallb is_space (chars (replace_crlf (String b t)))
              = true).
      rewrite Ha. apply (IHb b Hbt).
Qed.

Lemma replace_crlf_spaces (s : string) :
  forallb is_space (chars s) = true ->
  forallb is_space (chars (replace_crlf s)) = true.
Proof. apply replace_crlf_spaces_step. Qed.

Lemma replace_cr_spaces (s : string) :
  forallb is_space (chars s) = true ->
  forallb is_space (chars (replace_cr s)) = true.
Proof.
  induction s as [|a s IH]; [reflexivity|]. simpl. intros H.
  apply andb_true_iff in H as [Ha Hs]. rewrite (IH Hs), andb_true_r.
  destruct (Ascii.eqb a "013"); [reflexivity|exact Ha].
Qed.

Lemma split_on_spaces (c : ascii) (s l : string) :
  forallb is_space (chars s) = true -> In l (split_on c s) ->
  forallb is_space (chars l) = true.
Proof.
  revert l. induction s as [|a s IH]; intros l H; simpl.
  - intros [<-|[]]. reflexivity.
  - simpl in H. apply andb_true_iff in H as [Ha Hs].
    destruct (Ascii.eqb a c).
    + intros [<-|Hin]; [reflexivity|apply (IH l Hs Hin)].
    + destruct (split_on c s) as [|h r] eqn:E.
      * intros [<-|[]]. simpl. rewrite Ha. reflexivity.
      * intros [<-|Hin].
        -- simpl. rewrite Ha. apply (IH h Hs). left. reflexivity.
        -- apply (IH l Hs). right. exact Hin.
Qed.

(** X2: Every [Text] sample [parse_values] emits is a non-empty, trimmed
    string that [float()] rejects; every [Number] is [float()] of a
    non-empty trimmed line; an input made of whitespace only yields no
    sample at all. *)
Theorem X2_samples_invariant (raw : string) :
  (forall s, In (Text s) (parse_values raw) ->
     s <> "" /\ strip s = s /\ float_of_string s = None)
  /\ (forall f, In (Number f) (parse_values raw) ->
        exists v, v <> "" /\ strip v = v /\ float_of_string v = Some f)
  /\ (forallb is_space (chars raw) = true -> parse_values raw = []).
Proof.
  split; [|split].
  - intros s H. destruct (in_parse_values raw _ H) as [v [Hne [Hs E]]].
    unfold sample_of_line in E.
    destruct (float_of_string v) eqn:F; [discriminate|].
    inversion E; subst. auto.
  - intros f H. destruct (in_parse_values raw _ H) as [v [Hne [Hs E]]].
    unfold sample_of_line in E.
    destruct (float_of_string v) eqn:F; [|discriminate].
    inversion E; subst. exists v. auto.
  - intros Hsp.
    destruct (parse_values raw) as [|x rest] eqn:E; [reflexivity|exfalso].
    assert (Hin : In x (parse_values raw)) by (rewrite E; left; reflexivity).
    clear E. unfold parse_values in Hin. rewrite in_flat_map in Hin.
    destruct Hin as [l [Hl H]].
    rewrite (unquote_free raw (spaces_free_of_pct raw Hsp)) in Hl.
    apply split_on_spaces in Hl;
      [|apply replace_cr_spaces, replace_crlf_spaces, Hsp].
    unfold strip in H. rewrite (lstrip_spaces l Hl) in H. destruct H.
Qed.

Lemma X2_samples_invariant_witness :
  parse_values (String "009" (" " ++ cr ++ nl ++ " ")) = [].
Proof.
  refine (proj2 (proj2 (X2_samples_invariant
                          (String "009" (" " ++ cr ++ nl ++ " ")))) _).
  reflexivity.
Defined.

Lemma unquote_quote_char (c : ascii) (t : string) :
  unquote (String "%" (String (hex_digit (N_of_ascii c / 16))
                         (String (hex_digit (N_of_ascii c mod 16)) t)))
  = String c (unquote t).
Proof.
  destruct c as [[] [] [] [] [] [] [] []]; reflexivity.
Qed.

Lemma unquote_quote_all (s : string) : unquote (quote_all s) = s.
Proof.
  induction s as [|c t IH]; [reflexivity|].
  cbn [quote_all]. rewrite unquote_quote_char, IH. reflexivity.
Qed.

(** X3: [parse_values] percent-decodes its argument: on an ASCII text
    without a percent sign, the fully percent-encoded text decodes to the
    text and parses to the same samples. *)
Theorem X3_percent_round_trip (s : string)
  (Hascii : is_ascii s = true) (Hfree : free_of "%" s = true) :
  unquote (quote_all s) = s
  /\ parse_values (quote_all s) = parse_values s.
Proof.
  split; [apply unquote_quote_all|].
  unfold parse_values. rewrite unquote_quote_all, (unquote_free s Hfree).
  reflexivity.
Qed.

Lemma X3_percent_round_trip_witness :
  parse_values "%36%35%0A%41%77%61%6B%65" = parse_values ("65" ++ nl ++ "Awake").
Proof.
  refine (proj2 (X3_percent_round_trip ("65" ++ nl ++ "Awake") _ _));
    reflexivity.
Defined.

Lemma round_int_within (x : float) :
  within (of_Z 100) x -> exists p, round_int x = Ok p /\ (0 <= p <= 100)%Z.
Proof.
  intros [Hf [Hs Hq]].
  destruct x as [s|s| |s m e]; simpl in Hf, Hs; try discriminate; subst s.
  - exists 0%Z. split; [reflexivity|lia].
  - rewrite of_Z_100 in Hq. unfold round_int.
    destruct (to_Q_positive m e) as [n [d E]]. rewrite E in *.
    cbn [Qnum Qden].
    change (to_Q (S754_finite false 7036874417766400 (-46)))
      with (7036874417766400 # 70368744177664) in Hq.
    unfold Qle in Hq. cbn [Qnum Qden] in Hq.
    eexists. split; [reflexivity|].
    split; [apply rhe_ge; lia|apply rhe_le; lia].
Qed.

Lemma zone_pct_range (total v : nat) :
  (v <= total)%nat -> (0 < total)%nat ->
  exists p, zone_pct total v = Ok p /\ (0 <= p <= 100)%Z.
Proof.
  intros Hv Ht. unfold zone_pct.
  apply round_int_within, mul_100_within, int_truediv_within; assumption.
Qed.

(** X4: The chain of comparisons of [compute_hr_zones] puts every
    reading in exactly one zone: a finite reading by its exact value
    against the bounds 100, 120, 140, 160, a NaN and [+inf] in [max],
    [-inf] in [rest]. *)
Theorem X4_zone_of_every_reading (z : zones) (hr : float) :
  zone_step z hr = bump (zone_of_float hr) z.
Proof.
  destruct hr as [s|[|]| |s m e]; try reflexivity;
    apply zone_step_spec; reflexivity.
Qed.

(** X5: With at least one numeric sample [compute_hr_zones] returns
    the four fields [zones], [zone_pct], [training_load] and
    [high_intensity]; the five zone counts add up to the number of
    numeric samples, [high_intensity <= training_load <=] that number,
    and every zone percentage is an integer between 0 and 100. *)
Theorem X5_hr_zones_invariants (values : list sample)
  (Hsome : numbers values <> []) :
  let nums := numbers values in
  let z := count_zones nums in
  exists pr pl pm ph px,
    compute_hr_zones values
    = Ok (VDict
            [("zones",
              VDict [("rest", int_of_nat (rest z));
                     ("light", int_of_nat (light z));
                     ("moderate", int_of_nat (moderate z));
                     ("hard", int_of_nat (hard z));
                     ("max", int_of_nat (max z))]);
             ("zone_pct",
              VDict [("rest", VInt pr); ("light", VInt pl);
                     ("moderate", VInt pm); ("hard", VInt ph);
                     ("max", VInt px)]);
             ("training_load", int_of_nat (moderate z + hard z + max z));
             ("high_intensity", int_of_nat (hard z + max z))])
    /\ (rest z + light z + moderate z + hard z + max z
        = List.length nums)%nat
    /\ (hard z + max z <= moderate z + hard z + max z
        <= List.length nums)%nat
    /\ (0 <= pr <= 100 /\ 0 <= pl <= 100 /\ 0 <= pm <= 100
        /\ 0 <= ph <= 100 /\ 0 <= px <= 100)%Z.
Proof.
  intros nums z. subst z nums.
  destruct (numbers values) as [|x rest] eqn:E; [contradiction|].
  set (nums := x :: rest). set (z := count_zones nums).
  pose proof (count_zones_total nums) as T. fold z in T.
  unfold zones_total in T.
  assert (Hl : (0 < List.length nums)%nat) by (simpl; lia).
  destruct (zone_pct_range (List.length nums) (Ingest.rest z))
    as [pr [Er Br]]; [lia|lia|].
  destruct (zone_pct_range (List.length nums) (light z)) as [pl [El Bl]];
    [lia|lia|].
  destruct (zone_pct_range (List.length nums) (moderate z)) as [pm [Em Bm]];
    [lia|lia|].
  destruct (zone_pct_range (List.length nums) (hard z)) as [ph [Eh Bh]];
    [lia|lia|].
  destruct (zone_pct_range (List.length nums) (max z)) as [px [Ex Bx]];
    [lia|lia|].
  exists pr, pl, pm, ph, px. split; [|split; [exact T|split; [lia|auto]]].
  unfold compute_hr_zones. rewrite E. fold nums z.
  unfold zones_items, zone_pcts.
  rewrite Er, El, Em, Eh, Ex. reflexivity.
Qed.

Lemma X5_hr_zones_invariants_witness :
  exists pr pl pm ph px,
    compute_hr_zones [Number (of_Z 65); Text "n/a"; Number (of_Z 145);
                      Number S754_nan]
    = Ok (VDict
            [("zones",
              VDict [("rest", VInt 1); ("light", VInt 0);
                     ("moderate", VInt 0); ("hard", VInt 1);
                     ("max", VInt 1)]);
             ("zone_pct",
              VDict [("rest", VInt pr); ("light", VInt pl);
                     ("moderate", VInt pm); ("hard", VInt ph);
                     ("max", VInt px)]);
             ("training_load", VInt 2);
             ("high_intensity", VInt 2)])
    /\ (1 + 0 + 0 + 1 + 1 = 3)%nat
    /\ (1 + 1 <= 0 + 1 + 1 <= 3)%nat
    /\ (0 <= pr <= 100 /\ 0 <= pl <= 100 /\ 0 <= pm <= 100
        /\ 0 <= ph <= 100 /\ 0 <= px <= 100)%Z.
Proof.
  refine (X5_hr_zones_invariants
            [Number (of_Z 65); Text "n/a"; Number (of_Z 145);
             Number S754_nan] _).
  discriminate.
Defined.

Lemma stage_step_counts (st : stages) (v : sample) :
  stage_step st v
  = mk_stages (REM st + (if is_rem v then 1 else 0))
              (Core st + (if is_core v then 1 else 0))
              (Deep st + (if is_deep v then 1 else 0))
              (Awake st + (if is_awake v then 1 else 0)).
Proof.
  destruct st as [r c d a]. unfold stage_step, is_rem, is_core, is_deep,
    is_awake. cbn [REM Core Deep Awake].
  destruct v as [f|s]; [rewrite !Nat.add_0_r; reflexivity|].
  destruct (contains "REM" s); cbn [negb andb];
    [rewrite !Nat.add_0_r, Nat.add_1_r; reflexivity|].
  destruct (contains "Core" s || contains "Light" s); cbn [negb andb];
    [rewrite !Nat.add_0_r, Nat.add_1_r; reflexivity|].
  destruct (contains "Deep" s); cbn [negb andb];
    [rewrite !Nat.add_0_r, Nat.add_1_r; reflexivity|].
  destruct (contains "Awake" s || contains "Wake" s);
    rewrite ?Nat.add_0_r, ?Nat.add_1_r; reflexivity.
Qed.

Lemma fold_stage_step_counts (values : list sample) (st : stages) :
  fold_left stage_step values st
  = mk_stages (REM st + count_if is_rem values)
              (Core st + count_if is_core values)
              (Deep st + count_if is_deep values)
              (Awake st + count_if is_awake values).
Proof.
  revert st. induction values as [|v values IH]; intros st.
  - destruct st. unfold count_if. simpl. rewrite !Nat.add_0_r. reflexivity.
  - simpl fold_left. rewrite IH, stage_step_counts.
    cbn [REM Core Deep Awake]. unfold count_if. simpl filter.
    destruct (is_rem v), (is_core v), (is_deep v), (is_awake v);
      simpl List.length; f_equal; lia.
Qed.

(** X6: The stage counters of [compute_sleep_stats] count each text
    sample once, under the first marker it contains in the order REM,
    Core/Light, Deep, Awake/Wake; numeric samples do not count. *)
Theorem X6_sleep_stage_counts (values : list sample) :
  count_stages values
  = mk_stages (count_if is_rem values) (count_if is_core values)
              (count_if is_deep values) (count_if is_awake values)
  /\ count_stages values
     = count_stages (filter (fun v => match v with
                                      | Text _ => true
                                      | Number _ => false
                                      end) values).
Proof.
  assert (G : forall vs,
             count_stages vs
             = mk_stages (count_if is_rem vs) (count_if is_core vs)
                         (count_if is_deep vs) (count_if is_awake vs)).
  { intros vs. unfold count_stages. rewrite fold_stage_step_counts.
    reflexivity. }
  split; [apply G|]. rewrite !G.
  assert (F : forall f : sample -> bool,
             (forall x, f (Number x) = false) ->
             count_if f (filter (fun v => match v with
                                          | Text _ => true
                                          | Number _ => false
                                          end) values)
             = count_if f values).
  { intros f Hf. unfold count_if.
    induction values as [|v vs IH]; [reflexivity|].
    destruct v as [x|s]; simpl.
    - rewrite (Hf x). exact IH.
    - destruct (f (Text s)); simpl; rewrite IH; reflexivity. }
  rewrite !F by reflexivity. reflexivity.
Qed.

(** X7: When no sample carries a stage marker [compute_sleep_stats]
    returns only the raw samples under [values]. *)
Theorem X7_sleep_fallback (values : list sample)
  (Hnone : forall v, In v values -> classified v = false) :
  compute_sleep_stats values
  = VDict [("values", VList (map sample_value values))].
Proof.
  unfold compute_sleep_stats.
  assert (T : stages_total (count_stages values) = 0%nat).
  { rewrite count_stages_total.
    destruct (filter classified values) as [|v l] eqn:E; [reflexivity|].
    assert (Hin : In v (filter classified values))
      by (rewrite E; left; reflexivity).
    apply filter_In in Hin as [Hin Hc]. rewrite (Hnone v Hin) in Hc.
    discriminate. }
  rewrite T. reflexivity.
Qed.

Lemma X7_sleep_fallback_witness :
  compute_sleep_stats [Number (of_Z 7); Text "asleep"; Text "rem"]
  = VDict [("values",
            VList [VFloat (of_Z 7); VStr "asleep"; VStr "rem"])].
Proof.
  refine (X7_sleep_fallback [Number (of_Z 7); Text "asleep"; Text "rem"] _).
  intros v [<-|[<-|[<-|[]]]]; reflexivity.
Defined.

Lemma squared_deviations_raise_iff (avg : float) (nums : list float) :
  (exists e, squared_deviations avg nums = Raise e)
  <-> exists x, In x nums /\ pow2 (sub x avg) = Raise OverflowError.
Proof.
  induction nums as [|x nums IH]; simpl.
  - split; [intros [e H]; discriminate|intros [x [[] _]]].
  - destruct (pow2 (sub x avg)) as [sq|e'] eqn:P; simpl.
    + destruct (squared_deviations avg nums) as [r|e''] eqn:S; simpl.
      * split; [intros [e H]; discriminate|].
        intros [y [[<-|Hin] Hy]]; [congruence|].
        destruct (proj2 IH) as [e He]; [eauto|discriminate].
      * split; [|eauto]. intros _.
        destruct (proj1 IH) as [y [Hin Hy]]; [eauto|]. eauto.
    + split; [|eauto]. intros _. exists x. split; [auto|].
      rewrite P. f_equal. unfold pow2 in P.
      destruct (sub x avg); try discriminate.
      destruct (mul _ _); try discriminate. inversion P. reflexivity.
Qed.

(** X8: [compute_stats] can fail only under the key [bloodglucose]
    (after lower-casing and trimming) and only with [OverflowError];
    under that key it fails exactly when squaring the deviation of some
    numeric sample from the mean overflows. *)
Theorem X8_summary_errors (values : list sample) (key : string) :
  (forall e, compute_stats values key = Raise e ->
     strip (lower key) = "bloodglucose" /\ e = OverflowError)
  /\ (strip (lower key) = "bloodglucose" ->
      (exists e, compute_stats values key = Raise e)
      <-> exists x, In x (numbers values)
                    /\ pow2 (sub x (mean (numbers values)))
                       = Raise OverflowError).
Proof.
  split; [intros e; apply compute_stats_raise|].
  intros K. unfold compute_stats. rewrite K. cbn [String.eqb Ascii.eqb].
  change (String.eqb "bloodglucose" "sleep") with false.
  change (String.eqb "bloodglucose" "bloodglucose") with true. cbv iota.
  destruct (numbers values) as [|x nums] eqn:N.
  - unfold compute_blood_glucose_stats. rewrite N.
    split; [intros [e H]; discriminate|intros [y [[] _]]].
  - rewrite glucose_on_numbers by (rewrite N; discriminate). rewrite N.
    rewrite <- squared_deviations_raise_iff. unfold population_std_dev.
    destruct (squared_deviations (mean (x :: nums)) (x :: nums))
      as [sqs|e0];
      simpl; split; intros [e1 H]; try discriminate; eauto.
Qed.

Lemma X8_summary_errors_witness :
  (exists e, compute_stats [Number (of_decimal false 1 200);
                            Number (S754_zero false)] "BloodGlucose "
             = Raise e)
  <-> exists x, In x [of_decimal false 1 200; S754_zero false]
                /\ pow2 (sub x (mean [of_decimal false 1 200;
                                      S754_zero false]))
                   = Raise OverflowError.
Proof.
  refine (proj2 (X8_summary_errors
                   [Number (of_decimal false 1 200);
                    Number (S754_zero false)] "BloodGlucose ") _).
  vm_compute. reflexivity.
Defined.

(** X9: Under every key but [sleep], as soon as one sample is numeric
    the text samples do not influence the summary of [compute_stats]. *)
Theorem X9_text_ignored_among_numbers (values : list sample) (key : string)
  (Hkey : strip (lower key) <> "sleep")
  (Hsome : numbers values <> []) :
  compute_stats values key
  = compute_stats (map Number (numbers values)) key.
Proof.
  unfold compute_stats, compute_blood_glucose_stats.
  rewrite !numbers_map_Number.
  destruct (String.eqb_spec (strip (lower key)) "sleep"); [contradiction|].
  destruct (numbers values); [contradiction|]. reflexivity.
Qed.

Lemma X9_text_ignored_among_numbers_witness :
  compute_stats [Text "n/a"; Number (of_Z 3); Text "?"; Number (of_Z 5)]
                "steps"
  = compute_stats [Number (of_Z 3); Number (of_Z 5)] "steps".
Proof.
  refine (X9_text_ignored_among_numbers
            [Text "n/a"; Number (of_Z 3); Text "?"; Number (of_Z 5)]
            "steps" _ _).
  - vm_compute. discriminate.
  - discriminate.
Defined.

Lemma last_write_nodup (k : string) (v : value) (ws : writes) :
  NoDup (map fst ws) -> In (k, v) ws -> last_write k ws = Some v.
Proof.
  induction ws as [|[k' v'] ws IH]; simpl; [intros _ []|].
  intros Hnd. inversion Hnd as [|? ? Hnotin Hnd']; subst.
  intros [E|Hin].
  - inversion E; subst. rewrite last_write_absent by exact Hnotin.
    rewrite String.eqb_refl. reflexivity.
  - rewrite (IH Hnd' Hin). reflexivity.
Qed.

Lemma metric_writes_nodup (items : form) (ws : writes) :
  NoDup (map fst items) -> metric_writes items = Ok ws ->
  NoDup (map fst ws).
Proof.
  revert ws. induction items as [|[key values] items IH]; intros ws; simpl.
  - intros _ H; inversion H; subst. constructor.
  - intros Hnd. inversion Hnd as [|? ? Hnotin Hnd']; subst.
    destruct (is_bp_field key); [apply IH, Hnd'|].
    destruct (compute_stats (parse_values (first_value values)) key);
      simpl; [|discriminate].
    destruct (metric_writes items) as [ws'|] eqn:W; simpl; [|discriminate].
    intros H; inversion H; subst. simpl. constructor; [|apply IH; auto].
    intros Hin. destruct (metric_writes_keys _ _ _ W Hin). contradiction.
Qed.

Lemma metric_writes_in (items : form) (ws : writes)
  (key : string) (values : list string) :
  metric_writes items = Ok ws -> In (key, values) items ->
  is_bp_field key = false ->
  exists stats,
    compute_stats (parse_values (first_value values)) key = Ok stats
    /\ In (key, stats) ws.
Proof.
  revert ws. induction items as [|[k vs] items IH]; intros ws; simpl;
    [intros _ []|].
  intros W [E|Hin] Hk.
  - inversion E; subst. rewrite Hk in W.
    destruct (compute_stats (parse_values (first_value values)) key)
      as [stats|]; simpl in W; [|discriminate].
    destruct (metric_writes items); simpl in W; [|discriminate].
    inversion W; subst. exists stats. split; [reflexivity|left; reflexivity].
  - destruct (is_bp_field k); [apply (IH ws W Hin Hk)|].
    destruct (compute_stats (parse_values (first_value vs)) k);
      simpl in W; [|discriminate].
    destruct (metric_writes items) as [ws'|]; simpl in W; [|discriminate].
    inversion W; subst.
    destruct (IH ws' eq_refl Hin Hk) as [stats [Hs Hi]].
    exists stats. split; [exact Hs|right; exact Hi].
Qed.

Lemma bp_writes_keys (form_data : form) (k : string) :
  In k (map fst (bp_writes form_data)) -> k = "bloodpressure".
Proof.
  unfold bp_writes. destruct (find_bp_keys form_data) as [[sk|] [dk|]];
    simpl; intros H; try destruct H as [H|[]]; try destruct H; auto.
Qed.

(** X10: The merge of [do_POST] into a prior dict returns a dict in which
    every key of the prior document is still present, and every key that
    is neither submitted (or is a blood-pressure field), nor
    [bloodpressure], nor [_updated] keeps its prior value. *)
Theorem X10_merge_frame (form_data : form) (t : instant) (prior : dict)
  (doc : value) (Hdoc : merge form_data t (VDict prior) = Ok doc) :
  exists d,
    doc = VDict d
    /\ (forall k,
          ~ In k (map fst form_data) \/ is_bp_field k = true ->
          k <> "bloodpressure" -> k <> "_updated" ->
          dict_get k d = dict_get k prior)
    /\ (forall k v, dict_get k prior = Some v ->
          exists v', dict_get k d = Some v').
Proof.
  rewrite merge_writes in Hdoc.
  destruct (metric_writes form_data) as [ws|e] eqn:W; simpl in Hdoc;
    [|discriminate].
  inversion Hdoc; subst; clear Hdoc. eexists. split; [reflexivity|]. split.
  - intros k Hk Hbp Hup. rewrite dict_get_apply_writes, last_write_absent;
      [reflexivity|].
    rewrite !map_app, !in_app_iff. simpl. intros [Hin|[Hin|[E|[]]]].
    + apply bp_writes_keys in Hin. contradiction.
    + destruct (metric_writes_keys _ _ _ W Hin) as [Hf Hb].
      destruct Hk as [Hk|Hk]; [contradiction|congruence].
    + congruence.
  - intros k v Hv. rewrite dict_get_apply_writes, Hv.
    destruct (last_write k _); eauto.
Qed.

Lemma X10_merge_frame_witness :
  exists d,
    VDict [("sleep", VDict [("count", VInt 1)]);
           ("steps", VDict [("count", VInt 1)]);
           ("_updated", VStr "2024-01-01T19:00:00-08:00")] = VDict d
    /\ (forall k,
          ~ In k (map fst [("steps", ["x"])]) \/ is_bp_field k = true ->
          k <> "bloodpressure" -> k <> "_updated" ->
          dict_get k d = dict_get k [("sleep", VDict [("count", VInt 1)])])
    /\ (forall k v,
          dict_get k [("sleep", VDict [("count", VInt 1)])] = Some v ->
          exists v', dict_get k d = Some v').
Proof.
  refine (X10_merge_frame [("steps", ["x"])] 1704164400000000
            [("sleep", VDict [("count", VInt 1)])] _ _).
  vm_compute. reflexivity.
Defined.

(** X11: When the field names of a submission are distinct, the merged
    document holds, under every submitted name that is not a
    blood-pressure field and not [_updated], the summary
    [compute_stats] makes of that field's first value, whatever the prior
    document held there. *)
Theorem X11_merge_overwrites (form_data : form) (t : instant) (prior : dict)
  (d : dict) (key : string) (values : list string)
  (Hnodup : NoDup (map fst form_data))
  (Hin : In (key, values) form_data)
  (Hbp : is_bp_field key = false)
  (Hup : key <> "_updated")
  (Hdoc : merge form_data t (VDict prior) = Ok (VDict d)) :
  exists stats,
    compute_stats (parse_values (first_value values)) key = Ok stats
    /\ dict_get key d = Some stats.
Proof.
  rewrite merge_writes in Hdoc.
  destruct (metric_writes form_data) as [ws|e] eqn:W; simpl in Hdoc;
    [|discriminate].
  inversion Hdoc; subst; clear Hdoc.
  destruct (metric_writes_in _ _ _ _ W Hin Hbp) as [stats [Hs Hi]].
  exists stats. split; [exact Hs|].
  rewrite dict_get_apply_writes, !last_write_app. simpl.
  destruct (String.eqb_spec key "_updated"); [contradiction|].
  rewrite (last_write_nodup key stats ws (metric_writes_nodup _ _ Hnodup W)
             Hi).
  reflexivity.
Qed.

Lemma X11_merge_overwrites_witness :
  exists stats,
    compute_stats (parse_values (first_value ["x"])) "steps" = Ok stats
    /\ dict_get "steps"
         [("steps", VDict [("count", VInt 1)]);
          ("_updated", VStr "2024-01-01T19:00:00-08:00")] = Some stats.
Proof.
  refine (X11_merge_overwrites [("steps", ["x"])] 1704164400000000
            [("steps", VDict [("count", VInt 9)])] _ "steps" ["x"]
            _ _ _ _ _).
  - repeat constructor. intros [].
  - left. reflexivity.
  - reflexivity.
  - discriminate.
  - vm_compute. reflexivity.
Defined.

Lemma field_is_not_bp :
  is_bp_field "bloodpressure" = false /\ is_bp_field "_updated" = false.
Proof. split; vm_compute; reflexivity. Qed.

Lemma find_bp_keys_from (form_data : form)
  (acc : option string * option string) :
  let r :=
    fold_left
      (fun (acc : option string * option string)
           (kv : string * list string) =>
         let key_lower := lower (fst kv) in
         if contains "bloodpressuresystolic" key_lower
         then (Some (fst kv), snd acc)
         else if contains "bloodpressurediastolic" key_lower
              then (fst acc, Some (fst kv))
              else acc)
      form_data acc in
  (forall k, fst r = Some k ->
     fst acc = Some k
     \/ (In k (map fst form_data)
         /\ contains "bloodpressuresystolic" (lower k) = true))
  /\ (forall k, snd r = Some k ->
     snd acc = Some k
     \/ (In k (map fst form_data)
         /\ contains "bloodpressurediastolic" (lower k) = true)).
Proof.
  revert acc. induction form_data as [|[key values] rest IH]; intros acc;
    cbn zeta; [simpl; auto|].
  cbn [fold_left fst snd map].
  destruct (contains "bloodpressuresystolic" (lower key)) eqn:S.
  - destruct (IH (Some key, snd acc)) as [A B]. cbn zeta in A, B. split.
    + intros k Hk. destruct (A k Hk) as [E|[Hin Hm]].
      * simpl in E. inversion E; subst. right. split; [left; reflexivity|].
        exact S.
      * right. split; [right; exact Hin|exact Hm].
    + intros k Hk. destruct (B k Hk) as [E|[Hin Hm]]; [left; exact E|].
      right. split; [right; exact Hin|exact Hm].
  - destruct (contains "bloodpressurediastolic" (lower key)) eqn:D.
    + destruct (IH (fst acc, Some key)) as [A B]. cbn zeta in A, B. split.
      * intros k Hk. destruct (A k Hk) as [E|[Hin Hm]]; [left; exact E|].
        right. split; [right; exact Hin|exact Hm].
      * intros k Hk. destruct (B k Hk) as [E|[Hin Hm]].
        -- simpl in E. inversion E; subst. right.
           split; [left; reflexivity|exact D].
        -- right. split; [right; exact Hin|exact Hm].
    + destruct (IH acc) as [A B]. cbn zeta in A, B. split.
      * intros k Hk. destruct (A k Hk) as [E|[Hin Hm]]; [left; exact E|].
        right. split; [right; exact Hin|exact Hm].
      * intros k Hk. destruct (B k Hk) as [E|[Hin Hm]]; [left; exact E|].
        right. split; [right; exact Hin|exact Hm].
Qed.

Lemma find_bp_keys_fields (form_data : form) (sk dk : string) :
  find_bp_keys form_data = (Some sk, Some dk) ->
  (In sk (map fst form_data) /\ is_bp_field sk = true)
  /\ (In dk (map fst form_data) /\ is_bp_field dk = true).
Proof.
  intros H. destruct (find_bp_keys_from form_data (None, None)) as [A B].
  cbn zeta in A, B. fold (find_bp_keys form_data) in A, B.
  rewrite H in A, B. simpl in A, B.
  destruct (A sk eq_refl) as [E|[Hin Hm]]; [discriminate|].
  destruct (B dk eq_refl) as [E|[Hin' Hm']]; [discriminate|].
  unfold is_bp_field. rewrite Hm, Hm', orb_true_r. auto.
Qed.

(** X12: When a submission has both a systolic and a diastolic field
    (and no field named [bloodpressure]), the merged document holds
    under [bloodpressure] the paired statistics of the two fields, and
    the two field names themselves get no entry. *)
Theorem X12_merge_paired_bp (form_data : form) (t : instant) (prior : dict)
  (d : dict) (sk dk : string)
  (Hpair : find_bp_keys form_data = (Some sk, Some dk))
  (Hfree : ~ In "bloodpressure" (map fst form_data))
  (Hdoc : merge form_data t (VDict prior) = Ok (VDict d)) :
  dict_get "bloodpressure" d
  = Some (compute_blood_pressure_stats
            (parse_values (field_raw form_data sk))
            (parse_values (field_raw form_data dk)))
  /\ In sk (map fst form_data) /\ In dk (map fst form_data)
  /\ dict_get sk d = dict_get sk prior
  /\ dict_get dk d = dict_get dk prior.
Proof.
  rewrite merge_writes in Hdoc.
  destruct (metric_writes form_data) as [ws|e] eqn:W; simpl in Hdoc;
    [|discriminate].
  inversion Hdoc; subst; clear Hdoc.
  assert (Hws : forall k, In k (map fst ws) ->
                 In k (map fst form_data) /\ is_bp_field k = false)
    by (intros k; apply (metric_writes_keys _ _ _ W)).
  destruct (find_bp_keys_fields _ _ _ Hpair) as [[Is Hs] [Id Hd]].
  assert (Hunchanged : forall k, is_bp_field k = true ->
            dict_get k
              (apply_writes (bp_writes form_data ++ ws ++ [stamp t])%list
                 prior) = dict_get k prior).
  { intros k Hk. rewrite dict_get_apply_writes, last_write_absent;
      [reflexivity|].
    rewrite !map_app, !in_app_iff. simpl. intros [Hin|[Hin|[E|[]]]].
    - apply bp_writes_keys in Hin. subst k.
      destruct field_is_not_bp. congruence.
    - destruct (Hws _ Hin). congruence.
    - subst k. destruct field_is_not_bp. congruence. }
  split; [|auto].
  rewrite dict_get_apply_writes, !last_write_app. simpl.
  rewrite (last_write_absent "bloodpressure" ws)
    by (intros Hin; destruct (Hws _ Hin); contradiction).
  unfold bp_writes. rewrite Hpair. simpl. reflexivity.
Qed.

Lemma X12_merge_paired_bp_witness :
  dict_get "bloodpressure"
    [("bloodpressure",
      VDict [("systolic_avg", VFloat (of_Z 120));
             ("systolic_min", VFloat (of_Z 120));
             ("systolic_max", VFloat (of_Z 120));
             ("diastolic_avg", VFloat (of_Z 80));
             ("diastolic_min", VFloat (of_Z 80));
             ("diastolic_max", VFloat (of_Z 80));
             ("count", VInt 1);
             ("elevated_readings", VInt 0)]);
     ("_updated", VStr "2024-01-01T19:00:00-08:00")]
  = Some (compute_blood_pressure_stats
            (parse_values
               (field_raw [("BloodPressureSystolic", ["120"]);
                           ("BloodPressureDiastolic", ["80"])]
                          "BloodPressureSystolic"))
            (parse_values
               (field_raw [("BloodPressureSystolic", ["120"]);
                           ("BloodPressureDiastolic", ["80"])]
                          "BloodPressureDiastolic")))
  /\ In "BloodPressureSystolic"
        (map fst [("BloodPressureSystolic", ["120"]);
                  ("BloodPressureDiastolic", ["80"])])
  /\ In "BloodPressureDiastolic"
        (map fst [("BloodPressureSystolic", ["120"]);
                  ("BloodPressureDiastolic", ["80"])])
  /\ dict_get "BloodPressureSystolic"
       [("bloodpressure",
         VDict [("systolic_avg", VFloat (of_Z 120));
             ("systolic_min", VFloat (of_Z 120));
             ("systolic_max", VFloat (of_Z 120));
             ("diastolic_avg", VFloat (of_Z 80));
             ("diastolic_min", VFloat (of_Z 80));
             ("diastolic_max", VFloat (of_Z 80));
             ("count", VInt 1);
             ("elevated_readings", VInt 0)]);
        ("_updated", VStr "2024-01-01T19:00:00-08:00")]
     = dict_get "BloodPressureSystolic" []
  /\ dict_get "BloodPressureDiastolic"
       [("bloodpressure",
         VDict [("systolic_avg", VFloat (of_Z 120));
             ("systolic_min", VFloat (of_Z 120));
             ("systolic_max", VFloat (of_Z 120));
             ("diastolic_avg", VFloat (of_Z 80));
             ("diastolic_min", VFloat (of_Z 80));
             ("diastolic_max", VFloat (of_Z 80));
             ("count", VInt 1);
             ("elevated_readings", VInt 0)]);
        ("_updated", VStr "2024-01-01T19:00:00-08:00")]
     = dict_get "BloodPressureDiastolic" [].
Proof.
  refine (X12_merge_paired_bp
            [("BloodPressureSystolic", ["120"]);
             ("BloodPressureDiastolic", ["80"])]
            1704164400000000 [] _ "BloodPressureSystolic"
            "BloodPressureDiastolic" _ _ _).
  - vm_compute. reflexivity.
  - vm_compute. intros [H|[H|[]]]; discriminate.
  - vm_compute. reflexivity.
Defined.

Lemma check_auth_spec (API_KEY : string) (auth : option string) :
  Ingest.check_auth API_KEY auth = true
  <-> API_KEY = "" \/ auth = Some ("Bearer " ++ API_KEY).
Proof.
  unfold Ingest.check_auth.
  destruct (String.eqb_spec API_KEY "") as [->|Hk].
  - split; auto.
  - destruct auth as [a|].
    + destruct (String.eqb_spec a ("Bearer " ++ API_KEY)) as [->|Ha].
      * split; auto.
      * split; [discriminate|]. intros [E|E]; [contradiction|].
        inversion E. contradiction.
    + split.
      * intros H. apply String.eqb_eq in H. discriminate.
      * intros [E|E]; [contradiction|discriminate].
Qed.

Lemma data_check_auth (API_KEY : string) (auth : option string) :
  Data.check_auth API_KEY auth = Ingest.check_auth API_KEY auth.
Proof. reflexivity. Qed.

(** X13: With an API key configured, a request whose [Authorization]
    header is not exactly [Bearer <key>] is answered 401 by both
    endpoints; the ingest leaves the store as it was, whatever the form
    and the store hold. *)
Theorem X13_unauthorized (API_KEY : string) (auth : option string)
  (form_data : form) (t1 t2 : instant) (st : store)
  (days : option string) (tz : instant -> Z) (clock : nat -> instant)
  (Hkey : API_KEY <> "")
  (Hauth : auth <> Some ("Bearer " ++ API_KEY)) :
  do_POST API_KEY auth form_data t1 t2 st
  = (st, Ok (mk_response 401 (VDict [("error", VStr "unauthorized")])))
  /\ Data.do_GET API_KEY auth days tz clock st
     = Ok (mk_response 401 (VDict [("error", VStr "unauthorized")])).
Proof.
  assert (H : Ingest.check_auth API_KEY auth = false).
  { destruct (Ingest.check_auth API_KEY auth) eqn:E; [|reflexivity].
    apply check_auth_spec in E. destruct E; contradiction. }
  unfold do_POST, Data.do_GET.
  change (Data.check_auth API_KEY auth) with (Ingest.check_auth API_KEY auth).
  rewrite H. split; reflexivity.
Qed.

Lemma X13_unauthorized_witness :
  do_POST "k" (Some "Bearer K") [("bloodglucose", ["1e200" ++ nl ++ "0"])]
          0 0 (fun _ => Some (Malformed "{"))
  = (fun _ => Some (Malformed "{"),
     Ok (mk_response 401 (VDict [("error", VStr "unauthorized")])))
  /\ Data.do_GET "k" (Some "Bearer K") (Some "x") (fun _ => 0) (fun _ => 0)
       (fun _ => Some (Malformed "{"))
     = Ok (mk_response 401 (VDict [("error", VStr "unauthorized")])).
Proof.
  refine (X13_unauthorized "k" (Some "Bearer K") _ 0 0 _ (Some "x") _ _ _ _);
    discriminate.
Defined.

(** Outside a dict the loop of lines 242-251 cannot assign. *)
Lemma process_metrics_nondict (items : form) (v : value) :
  (forall d, v <> VDict d) ->
  process_metrics items v = Ok v
  \/ process_metrics items v = Raise TypeError
  \/ process_metrics items v = Raise OverflowError.
Proof.
  intros Hv. induction items as [|[key values] items IH]; simpl; auto.
  destruct (is_bp_field key); [exact IH|].
  destruct (compute_stats (parse_values (first_value values)) key)
    as [stats|e] eqn:C; simpl.
  - destruct v; simpl; auto. destruct (Hv d). reflexivity.
  - apply compute_stats_raise in C. destruct C as [_ ->]. auto.
Qed.

Lemma merge_nondict (form_data : form) (t : instant) (v : value) :
  (forall d, v <> VDict d) ->
  merge form_data t v = Raise TypeError
  \/ merge form_data t v = Raise OverflowError.
Proof.
  intros Hv. unfold merge.
  assert (Hset : forall k x, setitem v k x = Raise TypeError).
  { intros k x. destruct v; try reflexivity. destruct (Hv d). reflexivity. }
  assert (Hbp : process_blood_pressure form_data v = Ok v
                \/ process_blood_pressure form_data v = Raise TypeError).
  { unfold process_blood_pressure.
    destruct (find_bp_keys form_data) as [[sk|] [dk|]]; auto. }
  destruct Hbp as [-> | ->]; simpl; auto.
  destruct (process_metrics_nondict form_data v Hv) as [-> | [-> | ->]];
    simpl; auto.
Qed.



Lemma value_dict_dec (v : value) :
  (exists d, v = VDict d) \/ (forall d, v <> VDict d).
Proof. destruct v; try (right; discriminate). left. eauto. Qed.

Lemma merge_ok_dict (form_data : form) (t : instant) (v doc : value) :
  merge form_data t v = Ok doc ->
  exists prior d,
    v = VDict prior /\ doc = VDict d
    /\ dict_get "_updated" d = Some (VStr (isoformat (get_pacific_now t))).
Proof.
  intros H. destruct (value_dict_dec v) as [[prior ->]|Hv].
  - rewrite merge_writes in H.
    destruct (metric_writes form_data) as [ws|e] eqn:W; simpl in H;
      [|discriminate].
    inversion H; subst. exists prior. eexists.
    split; [reflexivity|]. split; [reflexivity|].
    rewrite dict_get_apply_writes, !last_write_app. simpl. reflexivity.
  - destruct (merge_nondict form_data t v Hv) as [E|E]; rewrite E in H;
      discriminate.
Qed.

(** X14: An authorised [do_POST] that returns answers 200 with the
    Pacific date of the first clock reading and the submitted field
    names; it has stored, under that date's key, a dict whose [_updated]
    is the ISO text of the second clock reading, and no other key of the
    store has changed. *)
Theorem X14_ingest_success (API_KEY : string) (auth : option string)
  (form_data : form) (t1 t2 : instant) (st : store) (r : response)
  (Hauth : API_KEY = "" \/ auth = Some ("Bearer " ++ API_KEY))
  (Hok : snd (do_POST API_KEY auth form_data t1 t2 st) = Ok r) :
  let st' := fst (do_POST API_KEY auth form_data t1 t2 st) in
  r = mk_response 200
        (VDict [("ok", VBool true);
                ("date", VStr (strftime_date (get_pacific_now t1)));
                ("keys", VList (map (fun kv => VStr (fst kv)) form_data))])
  /\ (exists d,
        get st' ("health:" ++ strftime_date (get_pacific_now t1))
        = Some (json_dumps (VDict d))
        /\ dict_get "_updated" d
           = Some (VStr (isoformat (get_pacific_now t2))))
  /\ (forall k, k <> "health:" ++ strftime_date (get_pacific_now t1) ->
        get st' k = get st k).
Proof.
  apply check_auth_spec in Hauth. cbv zeta.
  rewrite (do_POST_authorized _ _ _ t1 t2 st Hauth) in *.
  unfold redis_key_at, date_key_at in *.
  destruct (load_existing
              (get st ("health:" ++ strftime_date (get_pacific_now t1))))
    as [prior|e]; simpl in *; [|discriminate].
  destruct (merge form_data t2 prior) as [doc|e] eqn:M; simpl in *;
    [|discriminate].
  inversion Hok; subst; clear Hok. split; [reflexivity|].
  destruct (merge_ok_dict _ _ _ _ M) as [p [d [-> [-> Hd]]]].
  split.
  - exists d. unfold get, set. rewrite String.eqb_refl. auto.
  - intros k Hk. unfold get, set.
    destruct (String.eqb_spec k
                ("health:" ++ strftime_date (get_pacific_now t1)));
      [contradiction|reflexivity].
Qed.

Lemma X14_ingest_success_witness :
  let st' := fst (do_POST "k" (Some "Bearer k")
                    [("_updated", ["7"])] 1704164400000000
                    1704182400000000 Store.empty) in
  mk_response 200
    (VDict [("ok", VBool true); ("date", VStr "2024-01-01");
            ("keys", VList [VStr "_updated"])])
  = mk_response 200
        (VDict [("ok", VBool true);
                ("date",
                 VStr (strftime_date (get_pacific_now 1704164400000000)));
                ("keys", VList (map (fun kv => VStr (fst kv))
                                    [("_updated", ["7"])]))])
  /\ (exists d,
        get st' ("health:"
                 ++ strftime_date (get_pacific_now 1704164400000000))
        = Some (json_dumps (VDict d))
        /\ dict_get "_updated" d
           = Some (VStr (isoformat (get_pacific_now 1704182400000000))))
  /\ (forall k,
        k <> "health:"
             ++ strftime_date (get_pacific_now 1704164400000000) ->
        get st' k = get Store.empty k).
Proof.
  refine (X14_ingest_success "k" (Some "Bearer k") [("_updated", ["7"])]
            1704164400000000 1704182400000000 Store.empty _ _ _).
  - right. reflexivity.
  - vm_compute. reflexivity.
Defined.





(** X16: When the stored text of the day is a JSON document that is
    not an object, every authorised [do_POST] fails, with [TypeError] or
    [OverflowError], and the store keeps that text. *)
Theorem X16_ingest_rejects_non_object (API_KEY : string)
  (auth : option string) (form_data : form) (t1 t2 : instant) (st : store)
  (v : value)
  (Hauth : API_KEY = "" \/ auth = Some ("Bearer " ++ API_KEY))
  (Hstored : get st ("health:" ++ strftime_date (get_pacific_now t1))
             = Some (Dumps v))
  (Hv : forall d, v <> VDict d) :
  do_POST API_KEY auth form_data t1 t2 st = (st, Raise TypeError)
  \/ do_POST API_KEY auth form_data t1 t2 st = (st, Raise OverflowError).
Proof.
  apply check_auth_spec in Hauth.
  rewrite (do_POST_authorized _ _ _ t1 t2 st Hauth).
  unfold redis_key_at, date_key_at. rewrite Hstored. simpl.
  destruct (merge_nondict form_data t2 v Hv) as [-> | ->]; auto.
Qed.

Lemma X16_ingest_rejects_non_object_witness :
  do_POST "" None [("steps", ["1"])] 0 0
    (fun _ => Some (Dumps (VList [])))
  = (fun _ => Some (Dumps (VList [])), Raise TypeError)
  \/ do_POST "" None [("steps", ["1"])] 0 0
       (fun _ => Some (Dumps (VList [])))
     = (fun _ => Some (Dumps (VList [])), Raise OverflowError).
Proof.
  refine (X16_ingest_rejects_non_object "" None [("steps", ["1"])] 0 0
            (fun _ => Some (Dumps (VList []))) (VList []) _ _ _).
  - left. reflexivity.
  - reflexivity.
  - discriminate.
Defined.




(** X18: An authorised [Data.do_GET] that returns answers 200 with a
    mapping whose keys are exactly the dates of the window (the trailing
    [days] days of the host's clock, 7 by default) for which the store
    holds a non-empty text, each mapped to the document stored for
    it. *)
Theorem X18_retrieval_mapping (API_KEY : string) (auth : option string)
  (days : option string) (tz : instant -> Z) (clock : nat -> instant)
  (st : store) (r : response)
  (Hauth : API_KEY = "" \/ auth = Some ("Bearer " ++ API_KEY))
  (Hok : Data.do_GET API_KEY auth days tz clock st = Ok r) :
  exists n results,
    Data.days_of_query days = Ok n
    /\ r = mk_response 200 (VDict results)
    /\ (forall d,
          (exists v, dict_get d results = Some v) <->
          (exists j data,
             (Z.of_nat j < n)%Z
             /\ d = Data.date_back (tz (clock j)) (clock j) j
             /\ get st ("health:" ++ d) = Some data
             /\ data <> Malformed ""))
    /\ (forall d v, dict_get d results = Some v ->
          get st ("health:" ++ d) = Some (Dumps v)).
Proof.
  apply check_auth_spec in Hauth.
  destruct (Data.days_of_query days) as [n|e] eqn:D.
  - destruct (do_GET_mapping _ _ _ _ _ _ n r Hauth D Hok)
      as [Hs [results [Hb [Hdom Hval]]]].
    exists n, results. split; [reflexivity|]. split.
    + destruct r as [s b]. simpl in *. subst. reflexivity.
    + split.
      * intros d. rewrite Hdom.
        split; intros [j [data [Hj [Hd [G T]]]]]; exists j, data;
          (split; [lia|]); (split; [exact Hd|]); (split; [exact G|]).
        -- intros ->. discriminate.
        -- destruct data as [v|[|c s]]; try reflexivity.
           destruct T. reflexivity.
      * intros d v Hv. destruct (Hval d v Hv) as [data [G L]].
        rewrite G. destruct data as [v'|s]; simpl in L; [|discriminate].
        inversion L; subst. reflexivity.
  - unfold Data.do_GET in Hok.
    change (Data.check_auth API_KEY auth)
      with (Ingest.check_auth API_KEY auth) in Hok.
    rewrite Hauth, D in Hok. discriminate.
Qed.

Lemma X18_retrieval_mapping_witness :
  exists n results,
    Data.days_of_query None = Ok n
    /\ mk_response 200 (VDict [("1969-12-30", VInt 1)])
       = mk_response 200 (VDict results)
    /\ (forall d,
          (exists v, dict_get d results = Some v) <->
          (exists j data,
             (Z.of_nat j < n)%Z
             /\ d = Data.date_back 0 0 j
             /\ get (fun k => if String.eqb k "health:1969-12-30"
                              then Some (Dumps (VInt 1)) else None)
                    ("health:" ++ d) = Some data
             /\ data <> Malformed ""))
    /\ (forall d v, dict_get d results = Some v ->
          get (fun k => if String.eqb k "health:1969-12-30"
                        then Some (Dumps (VInt 1)) else None)
              ("health:" ++ d) = Some (Dumps v)).
Proof.
  refine (X18_retrieval_mapping "" None None (fun _ => 0) (fun _ => 0)
            (fun k => if String.eqb k "health:1969-12-30"
                      then Some (Dumps (VInt 1)) else None) _ _ _).
  - left. reflexivity.
  - vm_compute. reflexivity.
Defined.

(** X19: On a host whose local zone is UTC-8, a retrieval of at least
    one day made on the Pacific day of a successful ingest returns, under
    that date, the document the ingest stored, stamped with the ingest's
    second clock reading. *)
Theorem X19_ingest_then_retrieve (API_KEY : string) (auth : option string)
  (form_data : form) (t1 t2 : instant) (st : store)
  (days : option string) (clock : nat -> instant) (n : Z)
  (posted fetched : response)
  (Hauth : API_KEY = "" \/ auth = Some ("Bearer " ++ API_KEY))
  (Hpost : snd (do_POST API_KEY auth form_data t1 t2 st) = Ok posted)
  (Hdays : Data.days_of_query days = Ok n)
  (Hsome : (0 < n)%Z)
  (Hday : strftime_date (get_pacific_now (clock O))
          = strftime_date (get_pacific_now t1))
  (Hget : Data.do_GET API_KEY auth days (fun _ => -8 * 3600) clock
            (fst (do_POST API_KEY auth form_data t1 t2 st))
          = Ok fetched) :
  exists results d,
    fetched = mk_response 200 (VDict results)
    /\ dict_get (strftime_date (get_pacific_now t1)) results
       = Some (VDict d)
    /\ get (fst (do_POST API_KEY auth form_data t1 t2 st))
           ("health:" ++ strftime_date (get_pacific_now t1))
       = Some (json_dumps (VDict d))
    /\ dict_get "_updated" d
       = Some (VStr (isoformat (get_pacific_now t2))).
Proof.
  apply check_auth_spec in Hauth.
  rewrite (do_POST_authorized _ _ _ t1 t2 st Hauth) in *.
  unfold redis_key_at, date_key_at in *.
  destruct (load_existing
              (get st ("health:" ++ strftime_date (get_pacific_now t1))))
    as [prior|e]; simpl in *; [|discriminate].
  destruct (merge form_data t2 prior) as [doc|e] eqn:M; simpl in *;
    [|discriminate].
  destruct (merge_ok_dict _ _ _ _ M) as [p [d [-> [-> U]]]].
  set (st' := set st ("health:" ++ strftime_date (get_pacific_now t1))
                (json_dumps (VDict d))) in *.
  assert (G : get st' ("health:" ++ strftime_date (get_pacific_now t1))
              = Some (json_dumps (VDict d)))
    by (unfold st', get, set; rewrite String.eqb_refl; reflexivity).
  destruct (do_GET_mapping _ _ _ _ _ _ n fetched Hauth Hdays Hget)
    as [Hs [results [Hb [Hdom Hval]]]].
  exists results, d. split.
  { destruct fetched as [s b]. simpl in *. subst. reflexivity. }
  assert (E : exists v, dict_get (strftime_date (get_pacific_now t1))
                          results = Some v).
  { apply Hdom. exists O. eexists. split; [lia|].
    split; [|split; [exact G|reflexivity]].
    rewrite date_back_pacific. unfold date_key_at. symmetry. exact Hday. }
  destruct E as [v Hv]. destruct (Hval _ _ Hv) as [data [G' L]].
  rewrite G in G'. inversion G'; subst data. simpl in L.
  inversion L; subst. auto.
Qed.

Lemma X19_ingest_then_retrieve_witness :
  exists results d,
    mk_response 200
      (VDict [("2024-01-01",
               VDict [("note", VDict [("count", VInt 1)]);
                      ("_updated", VStr "2024-01-01T19:00:00-08:00")])])
    = mk_response 200 (VDict results)
    /\ dict_get (strftime_date (get_pacific_now 1704164400000000)) results
       = Some (VDict d)
    /\ get (fst (do_POST "" None [("note", ["x"])] 1704164400000000
                   1704164400000000 Store.empty))
           ("health:" ++ strftime_date (get_pacific_now 1704164400000000))
       = Some (json_dumps (VDict d))
    /\ dict_get "_updated" d
       = Some (VStr (isoformat (get_pacific_now 1704164400000000))).
Proof.
  refine (X19_ingest_then_retrieve "" None [("note", ["x"])]
            1704164400000000 1704164400000000 Store.empty (Some "3")
            (fun _ => 1704164400000000) 3 _ _ _ _ _ _ _ _).
  - left. reflexivity.
  - vm_compute. reflexivity.
  - reflexivity.
  - reflexivity.
  - reflexivity.
  - vm_compute. reflexivity.
Defined.
